(** * conagua-data-extractor: acquisition and normalisation pipeline

    A shallow embedding of the pipeline of [src/conagua_datos]
    ([extract/downloader.py], [transform/processor.py],
    [transform/filter_data.py]) together with the properties its
    specification states about it.

    Conventions of the embedding:
    - Python [int] is [Z]; Python [str] is [string], read as a sequence of
      code points below 256 (the Latin-1 range); a Python [dict] whose
      iteration order matters is an association list in insertion order,
      one used purely as a lookup table is a [gmap].
    - A call that may raise returns [result]: [Ok v] or [Raise e].
    - External collaborators (HTTP transport, PDF / spreadsheet readers,
      the configuration file, the clock) are section variables.
    - An order a library leaves open (the order in which a directory is
      listed, the order in which an unstable sort leaves equal keys) is
      chosen by a section variable too, see [rearrange]. *)

From Stdlib Require Import ZArith NArith String Ascii List Bool Lia DecimalString.
From Stdlib Require Import Sorted.
From stdpp Require Import base option list strings gmap.

Local Open Scope Z_scope.

(** ** Exceptions and fallible results *)

(** The exceptions the code can raise, by their Python class.
    [FileSystemError] stands for the [OSError] family, [TransferError]
    for the errors of a response body that breaks off; [PlainException]
    is a bare [Exception] with its text.  [OutOfModel] marks an input on
    which the behaviour of the libraries is not described here (a label
    carried by several columns, an index of labels that are no dates
    to be sorted): nothing is claimed about such inputs beyond the fact
    that no result is produced. *)
Inductive exn : Type :=
  | ValueError (msg : string)
  | KeyError (key : string)
  | IndexError
  | AttributeError
  | InvalidIndexError
  | HTTPError
  | TransferError
  | BadZipFile
  | FileSystemError
  | OutOfModel (what : string)
  | PlainException (msg : string).

Inductive result (A : Type) : Type :=
  | Ok (a : A)
  | Raise (e : exn).
Arguments Ok {A} a.
Arguments Raise {A} e.

#[global] Instance result_ret : MRet result := fun A a => Ok a.
#[global] Instance result_bind : MBind result := fun A B k r =>
  match r with
  | Ok a => k a
  | Raise e => Raise e
  end.
#[global] Instance result_fmap : FMap result := fun A B f r =>
  match r with
  | Ok a => Ok (f a)
  | Raise e => Raise e
  end.

(** ** Python built-ins on [str] *)

Module Py.

Definition code (c : ascii) : N := N_of_ascii c.

(** [str.lower] on one code point: [A-Z] and the Latin-1 capitals
    (U+00C0..U+00DE without the multiplication sign U+00D7). *)
Definition lower_char (c : ascii) : ascii :=
  let n := code c in
  if ((65 <=? n) && (n <=? 90) ||
      (192 <=? n) && (n <=? 222) && negb (n =? 215))%N
  then ascii_of_N (n + 32) else c.

Fixpoint lower (s : string) : string :=
  match s with
  | EmptyString => EmptyString
  | String c r => String (lower_char c) (lower r)
  end.

(** [str.isspace] on one code point below 256. *)
Definition is_space (c : ascii) : bool :=
  let n := code c in
  ((9 <=? n) && (n <=? 13) || (28 <=? n) && (n <=? 32) ||
   (n =? 133) || (n =? 160))%N.

Fixpoint lstrip (s : string) : string :=
  match s with
  | EmptyString => EmptyString
  | String c r => if is_space c then lstrip r else s
  end.

Fixpoint rstrip (s : string) : string :=
  match s with
  | EmptyString => EmptyString
  | String c r =>
      match rstrip r with
      | EmptyString => if is_space c then EmptyString else String c EmptyString
      | r' => String c r'
      end
  end.

Definition strip (s : string) : string := rstrip (lstrip s).

(** [s.startswith(p)] *)
Fixpoint startswith (p s : string) : bool :=
  match p, s with
  | EmptyString, _ => true
  | String a p', String b s' => if Ascii.eqb a b then startswith p' s' else false
  | String _ _, EmptyString => false
  end.

(** [s[n:]] for [0 <= n] *)
Fixpoint drop (n : nat) (s : string) : string :=
  match n, s with
  | O, _ => s
  | S n', String _ r => drop n' r
  | S _, EmptyString => EmptyString
  end.

(** [s.endswith(c)] for a one-character suffix [c] *)
Fixpoint endswith_char (c : ascii) (s : string) : bool :=
  match s with
  | EmptyString => false
  | String a EmptyString => Ascii.eqb a c
  | String _ r => endswith_char c r
  end.

(** [s.endswith(p)] *)
Definition endswith (p s : string) : bool :=
  let lp := String.length p in
  let ls := String.length s in
  if (lp <=? ls)%nat then String.eqb (drop (ls - lp) s) p else false.

(** [s.split(sep)] for a one-character separator: never empty. *)
Fixpoint split (sep : ascii) (s : string) : list string :=
  match s with
  | EmptyString => [EmptyString]
  | String c r =>
      if Ascii.eqb c sep then EmptyString :: split sep r
      else match split sep r with
           | w :: ws => String c w :: ws
           | [] => [String c EmptyString]
           end
  end.

(** [str(n)] and [f"{n}"] for an [int] *)
Definition str_of_Z (z : Z) : string := NilZero.string_of_int (Z.to_int z).

Definition is_digit (c : ascii) : bool :=
  let n := code c in ((48 <=? n) && (n <=? 57))%N.

Definition digit_val (c : ascii) : Z := Z.of_N (code c) - 48.

(** [int(s)] for a text without underscores: blanks around, a sign,
    digits. *)
Fixpoint digits_value (acc : Z) (s : string) : option Z :=
  match s with
  | EmptyString => Some acc
  | String c r => if is_digit c then digits_value (10 * acc + digit_val c) r else None
  end.

Definition int_of_str (s : string) : option Z :=
  match strip s with
  | EmptyString => None
  | String c r =>
      if Ascii.eqb c "-" then
        match r with
        | EmptyString => None
        | _ => option_map Z.opp (digits_value 0 r)
        end
      else if Ascii.eqb c "+" then
        match r with
        | EmptyString => None
        | _ => digits_value 0 r
        end
      else digits_value 0 (String c r)
  end.

(** [sep.join(parts)] *)
Fixpoint join (sep : string) (l : list string) : string :=
  match l with
  | [] => EmptyString
  | [x] => x
  | x :: r => x +:+ sep +:+ join sep r
  end.

(** [s.rstrip(c)] for one character [c] *)
Fixpoint rstrip_char (c : ascii) (s : string) : string :=
  match s with
  | EmptyString => EmptyString
  | String a r =>
      match rstrip_char c r with
      | EmptyString => if Ascii.eqb a c then EmptyString else String a EmptyString
      | r' => String a r'
      end
  end.

(** [os.path.basename] *)
Definition basename (p : string) : string :=
  List.last (split "/" p) EmptyString.

(** [os.path.dirname] *)
Definition dirname (p : string) : string :=
  match removelast (split "/" p) with
  | [] => EmptyString
  | front =>
      let head := join "/" front +:+ "/" in
      match rstrip_char "/" head with
      | EmptyString => head
      | stripped => stripped
      end
  end.

(** [x in xs] for a list of strings *)
Definition str_in (x : string) (xs : list string) : bool :=
  existsb (String.eqb x) xs.

End Py.

(** ** FallbackRetriever ([get_latest_valid_pronostic]) *)

(** The body of the [except] branch, lines 334-337:
    [month -= 1; if month < 1: month = 12; year -= 1]. *)
Definition step_back (year month : Z) : Z * Z :=
  let month := month - 1 in
  if month <? 1 then (year - 1, 12) else (year, month).

(** A period is a pair (year, month); [period_lt p q]: [p] is strictly
    earlier than [q]. *)
Definition period_lt (p q : Z * Z) : Prop :=
  fst p < fst q \/ (fst p = fst q /\ snd p < snd q).

(** The number of months from year 0 to a period. *)
Definition month_count (p : Z * Z) : Z := 12 * fst p + snd p.

(** [month_names.get(month)] of [_generate_pronostic_url] *)
Definition month_names (month : Z) : option string :=
  match month with
  | 1 => Some "Enero" | 2 => Some "Febrero" | 3 => Some "Marzo"
  | 4 => Some "Abril" | 5 => Some "Mayo" | 6 => Some "Junio"
  | 7 => Some "Julio" | 8 => Some "Agosto" | 9 => Some "Septiembre"
  | 10 => Some "Octubre" | 11 => Some "Noviembre" | 12 => Some "Diciembre"
  | _ => None
  end.

(** [month_prefix.get(month)] of [_generate_pronostic_url] *)
Definition month_prefix (month : Z) : option string :=
  match month with
  | 1 => Some "01-EFM" | 2 => Some "02-FMA" | 3 => Some "03-MAM"
  | 4 => Some "04-AMJ" | 5 => Some "05-MJJ" | 6 => Some "06-JJA"
  | 7 => Some "07-JAS" | 8 => Some "08-ASO" | 9 => Some "09-SON"
  | 10 => Some "10-OND" | 11 => Some "11-NDE" | 12 => Some "12-DEF"
  | _ => None
  end.

(** An f-string field holding the result of [dict.get]: [None] prints as
    the text None. *)
Definition fmt_opt (o : option string) : string :=
  match o with Some s => s | None => "None" end.

Section FallbackRetriever.

(** [config_file["pronostic_url"]] *)
Variable pronostic_url : string.

(** What one retrieval yields (the dictionary of forecast tables). *)
Variable dataset : Type.

(** One retrieval, as the loop sees [download_extract_pronostic]: a call
    on a location either returns a dataset or raises. *)
Variable retrieve : string -> result dataset.

Definition _generate_pronostic_url (year month : Z) (tipo : string) : string :=
  let prefix := month_prefix month in
  let month_name := month_names month in
  pronostic_url +:+ fmt_opt prefix +:+ "-Pronostico-de-" +:+
  fmt_opt month_name +:+ "-" +:+ Py.str_of_Z year +:+ "-" +:+ tipo +:+ ".zip".

Definition max_attempts : Z := 2.

(** The outcome of the loop together with the locations it tried, in
    order (one entry per call of [retrieve]). *)
Record retrieval : Type := {
  outcome : result dataset;
  tried : list string
}.

(** The [while attempts < max_attempts] loop.  [fuel] bounds the
    number of iterations; [None] means the fuel ran out. *)
Fixpoint retrieval_loop (fuel : nat) (tipo : string)
    (year month attempts : Z) (log : list string) : option retrieval :=
  if attempts <? max_attempts then
    match fuel with
    | O => None
    | S fuel' =>
        let url := _generate_pronostic_url year month tipo in
        match retrieve url with
        | Ok dfs => Some {| outcome := Ok dfs; tried := log ++ [url] |}
        | Raise _ =>
            let '(year', month') := step_back year month in
            retrieval_loop fuel' tipo year' month' (attempts + 1) (log ++ [url])
        end
    end
  else
    Some {| outcome :=
              Raise (PlainException
                       "No valid pronostic file found in the last 2 months.");
            tried := log |}.

(** [get_latest_valid_pronostic]; [now_year], [now_month] are
    [datetime.now().year] and [.month]. *)
Definition get_latest_valid_pronostic (now_year now_month : Z)
    (tipo : string) : option retrieval :=
  retrieval_loop (Z.to_nat max_attempts) tipo now_year now_month 0 [].

End FallbackRetriever.

(** ** Orders the libraries leave open *)

(** [Path.iterdir] yields the entries of a directory in arbitrary order,
    and the default routine of [sort_index] is not stable.  Such an
    order is chosen by a collaborator, as a sequence of exchanges of
    neighbours ([k] exchanges the elements at [k] and [k+1]): whatever
    the choice the elements stay the same, and every arrangement of them
    is reached by some choice ([rearrange_perm] and [rearrange_any]
    below). *)
Fixpoint exchange {A} (k : nat) (l : list A) {struct l} : list A :=
  match l with
  | [] => []
  | a :: r =>
      match k with
      | O => match r with
             | b :: r' => b :: a :: r'
             | [] => l
             end
      | Datatypes.S k' => a :: exchange k' r
      end
  end.

Definition rearrange {A} (choice : list nat) (l : list A) : list A :=
  fold_left (fun acc k => exchange k acc) choice l.

(** ** Tables ([pandas.DataFrame]) *)

(** A point in time without zone, as [pandas.Timestamp] prints it:
    calendar date and nanoseconds since midnight. *)
Record Timestamp : Type := {
  ts_year : Z;
  ts_month : Z;
  ts_day : Z;
  ts_nanos : Z
}.

#[global] Instance Timestamp_eq_dec : EqDecision Timestamp.
Proof. solve_decision. Defined.

(** Chronological order on normalised timestamps. *)
Definition ts_leb (a b : Timestamp) : bool :=
  if ts_year a <? ts_year b then true
  else if ts_year b <? ts_year a then false
  else if ts_month a <? ts_month b then true
  else if ts_month b <? ts_month a then false
  else if ts_day a <? ts_day b then true
  else if ts_day b <? ts_day a then false
  else ts_nanos a <=? ts_nanos b.

(** [Timestamp.min] and [Timestamp.max] at nanosecond resolution. *)
Definition ts_min : Timestamp :=
  {| ts_year := 1677; ts_month := 9; ts_day := 21; ts_nanos := 763145224193 |}.
Definition ts_max : Timestamp :=
  {| ts_year := 2262; ts_month := 4; ts_day := 11; ts_nanos := 85636854775807 |}.

(** A cell or an axis label.  [VFloat] carries the 64 bits of a double;
    [VNaN] is the missing-value marker [numpy.nan]. *)
Inductive value : Type :=
  | VStr (s : string)
  | VInt (z : Z)
  | VFloat (bits : Z)
  | VNaN
  | VNone
  | VTime (t : Timestamp)
  | VNaT.

#[global] Instance value_eq_dec : EqDecision value.
Proof. solve_decision. Defined.

Definition value_eqb (a b : value) : bool := bool_decide (a = b).

(** [label in labels] *)
Definition label_in (l : value) (ls : list value) : bool :=
  existsb (value_eqb l) ls.

(** A table: the column labels and the rows, each row carrying its index
    label and its cells, one per column. *)
Record DataFrame : Type := {
  columns : list value;
  rows : list (value * list value)
}.

#[global] Instance DataFrame_eq_dec : EqDecision DataFrame.
Proof. solve_decision. Defined.

Definition index (df : DataFrame) : list value := map fst (rows df).

(** [RangeIndex(n)] *)
Definition range_index (n : nat) : list value :=
  map (fun i => VInt (Z.of_nat i)) (seq 0 n).

(** Positions of the columns labelled [l]. *)
Definition positions (l : value) (cols : list value) : list nat :=
  map fst (List.filter (fun p => value_eqb l (snd p)) (combine (seq 0 (length cols)) cols)).

Definition cell (r : list value) (j : nat) : value := nth j r VNaN.

(** [df.columns = labels] *)
Definition set_columns (labels : list value) (df : DataFrame) : DataFrame :=
  {| columns := labels; rows := rows df |}.

(** [df.iloc[0]]: the cells of the first row. *)
Definition iloc0 (df : DataFrame) : result (list value) :=
  match rows df with
  | [] => Raise IndexError
  | r :: _ => Ok (snd r)
  end.

(** [df.iloc[1:]] *)
Definition iloc_from1 (df : DataFrame) : DataFrame :=
  {| columns := columns df; rows := tl (rows df) |}.

(** [df.rename(columns={old: new})] *)
Definition rename_column (old new : value) (df : DataFrame) : DataFrame :=
  set_columns (map (fun c => if value_eqb c old then new else c) (columns df)) df.

(** [df.reset_index(drop=True)] *)
Definition reset_index_drop (df : DataFrame) : DataFrame :=
  {| columns := columns df;
     rows := combine (range_index (length (rows df))) (map snd (rows df)) |}.

(** Removes the cells at the given positions of a row. *)
Definition remove_positions (ps : list nat) (r : list value) : list value :=
  map snd (List.filter (fun p => negb (existsb (Nat.eqb (fst p)) ps))
                  (combine (seq 0 (length r)) r)).

(** [df.drop(columns=[l])]: [KeyError] when no column is labelled [l]. *)
Definition drop_column (l : string) (df : DataFrame) : result DataFrame :=
  match positions (VStr l) (columns df) with
  | [] => Raise (KeyError l)
  | ps => Ok {| columns := remove_positions ps (columns df);
                rows := map (fun r => (fst r, remove_positions ps (snd r))) (rows df) |}
  end.

(** The position of the single column labelled [l], as [df[l]] needs it
    to yield a Series: [KeyError] when absent; a label carried by several
    columns yields a sub-table, which the callers below do not handle. *)
Definition column_position (l : string) (df : DataFrame) : result nat :=
  match positions (VStr l) (columns df) with
  | [] => Raise (KeyError l)
  | [j] => Ok j
  | _ => Raise (OutOfModel "df[label] with a duplicated label")
  end.

(** Replaces cell [j] of a row *)
Definition set_cell (j : nat) (v : value) (r : list value) : list value :=
  <[j := v]> r.

(** [df.T] *)
Definition transpose (df : DataFrame) : DataFrame :=
  {| columns := index df;
     rows := map (fun p => (snd p, map (fun r => cell (snd r) (fst p)) (rows df)))
                 (combine (seq 0 (length (columns df))) (columns df)) |}.

(** [df.reset_index(names=name)]: the index becomes the first column. *)
Definition reset_index_names (name : string) (df : DataFrame) : result DataFrame :=
  if label_in (VStr name) (columns df)
  then Raise (ValueError "cannot insert, already exists")
  else Ok {| columns := VStr name :: columns df;
             rows := combine (range_index (length (rows df)))
                             (map (fun r => fst r :: snd r) (rows df)) |}.

(** [df[l] = v] for a scalar [v]: every column labelled [l] is
    overwritten; when there is none a new last column is added. *)
Definition setitem_scalar (l : value) (v : value) (df : DataFrame) : DataFrame :=
  match positions l (columns df) with
  | [] => {| columns := columns df ++ [l];
             rows := map (fun r => (fst r, snd r ++ [v])) (rows df) |}
  | ps => {| columns := columns df;
             rows := map (fun r => (fst r, fold_right (fun j acc => set_cell j v acc) (snd r) ps))
                         (rows df) |}
  end.

(** [df.index = labels] (the lengths agree at every use below) *)
Definition set_index (labels : list value) (df : DataFrame) : DataFrame :=
  {| columns := columns df; rows := combine labels (map snd (rows df)) |}.

(** [pd.concat(frames)]: the rows of all frames in order, over the union
    of their columns in order of first appearance; a cell of a column a
    frame lacks is [NaN].  Frames whose columns differ are reindexed,
    which a frame with a repeated column label does not allow
    ([InvalidIndexError], "Reindexing only valid with uniquely valued
    Index objects"). *)
Definition union_columns (frames : list DataFrame) : list value :=
  fold_left (fun acc df =>
               fold_left (fun acc c => if label_in c acc then acc else acc ++ [c])
                         (columns df) acc)
            frames [].

Definition reindex_row (old new : list value) (r : list value) : list value :=
  map (fun c => match positions c old with
                | j :: _ => cell r j
                | [] => VNaN
                end) new.

Definition nodup_labels (ls : list value) : bool := bool_decide (NoDup ls).

Definition concat (frames : list DataFrame) : result DataFrame :=
  match frames with
  | [] => Raise (ValueError "No objects to concatenate")
  | d :: ds =>
      if forallb (fun d' => bool_decide (columns d' = columns d)) ds
      then Ok {| columns := columns d; rows := flat_map rows frames |}
      else if forallb (fun d' => nodup_labels (columns d')) frames
      then let cols := union_columns frames in
           Ok {| columns := cols;
                 rows := flat_map (fun d' =>
                                     map (fun r => (fst r, reindex_row (columns d') cols (snd r)))
                                         (rows d'))
                                  frames |}
      else Raise InvalidIndexError
  end.

Definition is_time (v : value) : bool :=
  match v with VTime _ => true | _ => false end.

(** A label of a [DatetimeIndex]: a timestamp or the missing date. *)
Definition is_time_or_nat (v : value) : bool :=
  match v with VTime _ | VNaT => true | _ => false end.

(** The order of the labels of an index of dates when sorted: by time,
    the missing date [NaT] after every timestamp
    ([na_position="last"]). *)
Definition label_leb (a b : value) : bool :=
  match a, b with
  | VTime x, VTime y => ts_leb x y
  | VTime _, _ => true
  | _, VTime _ => false
  | _, _ => true
  end.

(** Insertion of a row into sorted rows: after the rows whose label is
    not later. *)

Fixpoint insert_row (r : value * list value) (rs : list (value * list value))
    : list (value * list value) :=
  match rs with
  | [] => [r]
  | r' :: rs' => if label_leb (fst r) (fst r') && negb (label_leb (fst r') (fst r))
                 then r :: rs
                 else r' :: insert_row r rs'
  end.

Definition sort_rows (rs : list (value * list value)) : list (value * list value) :=
  fold_left (fun acc r => insert_row r acc) rs [].

(** [df.sort_index()] on a table indexed by dates: ascending, the rows
    without a date last.  The routine ([kind="quicksort"]) is not
    stable: rows with equal labels come out in an order it chooses,
    here the order in which [ties] arranges the rows before they are
    sorted by insertion, which is stable. *)
Definition sort_index (ties : list (value * list value) -> list nat) (df : DataFrame)
    : result DataFrame :=
  if forallb is_time_or_nat (index df)
  then Ok {| columns := columns df;
             rows := sort_rows (rearrange (ties (rows df)) (rows df)) |}
  else Raise (OutOfModel "sort_index on labels that are no dates").

(** [df[labels]] for a list of labels: [KeyError] when one is absent. *)
Definition select_columns (labels : list string) (df : DataFrame) : result DataFrame :=
  match List.filter (fun l => negb (label_in (VStr l) (columns df))) labels with
  | l :: _ => Raise (KeyError l)
  | [] =>
      let ps := flat_map (fun l => positions (VStr l) (columns df)) labels in
      Ok {| columns := map (cell (columns df)) ps;
            rows := map (fun r => (fst r, map (cell (snd r)) ps)) (rows df) |}
  end.

(** ** SchemaNormalizer ([DataProcessor]) *)

(** [int(re.search(r'\d{4}', name).group(0))]: the first four consecutive
    digits of [name]; [None] when there are none. *)
Fixpoint search_year (name : string) : option Z :=
  match name with
  | String a ((String b (String c (String d _))) as rest) =>
      if Py.is_digit a && Py.is_digit b && Py.is_digit c && Py.is_digit d
      then Some (1000 * Py.digit_val a + 100 * Py.digit_val b +
                 10 * Py.digit_val c + Py.digit_val d)
      else search_year rest
  | _ => None
  end.

(** The dictionary passed to [columns.map] (lines 77-85); a header that
    is not a key maps to [NaN]. *)
Definition header_map (l : value) : value :=
  match l with
  | VStr s =>
      if String.eqb s "estado" then VStr "estado"
      else if String.eqb s "anual" then VStr "anual"
      else if String.eqb s "ene" then VInt 1
      else if String.eqb s "feb" then VInt 2
      else if String.eqb s "mar" then VInt 3
      else if String.eqb s "abr" then VInt 4
      else if String.eqb s "may" then VInt 5
      else if String.eqb s "jun" then VInt 6
      else if String.eqb s "jul" then VInt 7
      else if String.eqb s "ago" then VInt 8
      else if String.eqb s "sep" then VInt 9
      else if String.eqb s "oct" then VInt 10
      else if String.eqb s "nov" then VInt 11
      else if String.eqb s "dic" then VInt 12
      else VNaN
  | _ => VNaN
  end.

Definition first_of_month (year month : Z) : Timestamp :=
  {| ts_year := year; ts_month := month; ts_day := 1; ts_nanos := 0 |}.

(** One element of [pd.to_datetime(df[['year','month']].assign(day=1))]:
    the date must exist and lie within the nanosecond range; a missing
    month ([NaN], what the header mapping leaves of a header it does not
    know) gives the missing date [NaT], whatever the year.  After the
    header mapping the only text a month cell can hold is "estado", on
    which the numeric conversion raises; the year cell is always the
    integer of line 95. *)
Definition to_datetime_ym (year month : value) : result value :=
  match year, month with
  | VInt y, VInt m =>
      let t := first_of_month y m in
      if (1 <=? m) && (m <=? 12) && ts_leb ts_min t && ts_leb t ts_max
      then Ok (VTime t)
      else Raise (ValueError "cannot assemble the datetimes")
  | VInt _, VNaN => Ok VNaT
  | _, VStr _ => Raise (ValueError "Unable to parse string")
  | _, _ => Raise (OutOfModel "to_datetime on cells that are no numbers")
  end.

Section SchemaNormalizer.

(** [config.json]: the banner sentinels and the output column order. *)
Variable edge_case_rain : string.
Variable edge_case_temp : string.
Variable order_col : list string.

(** [unidecode] on a code point outside ASCII (its transliteration
    table); ASCII is left as it is. *)
Variable unidecode_table : ascii -> string.

(** [str(x)] for a float and for a timestamp. *)
Variable float_repr : Z -> string.
Variable time_repr : Timestamp -> string.

Fixpoint unidecode (s : string) : string :=
  match s with
  | EmptyString => EmptyString
  | String c r =>
      if (Py.code c <? 128)%N then String c (unidecode r)
      else unidecode_table c +:+ unidecode r
  end.

(** [str(v)] *)
Definition py_str (v : value) : string :=
  match v with
  | VStr s => s
  | VInt z => Py.str_of_Z z
  | VFloat b => float_repr b
  | VNaN => "nan"
  | VNone => "None"
  | VTime t => time_repr t
  | VNaT => "NaT"
  end.

Definition is_numeric (v : value) : bool :=
  match v with VInt _ | VFloat _ | VNaN => true | _ => false end.

(** [columns.str.lower().str.strip()]: the [.str] accessor exists on an
    index of mixed or text labels only; a label that is not text
    becomes [NaN]. *)
Definition str_lower_strip (cols : list value) : result (list value) :=
  match cols with
  | [] => Ok []
  | _ =>
      if forallb is_numeric cols || forallb is_time cols
      then Raise AttributeError
      else Ok (map (fun c => match c with
                             | VStr s => VStr (Py.strip (Py.lower s))
                             | _ => VNaN
                             end) cols)
  end.

(** [_make_cols_lower] *)
Definition _make_cols_lower (df : DataFrame) : DataFrame :=
  set_columns
    (map (fun col => VStr (unidecode (Py.lower (Py.strip (py_str col))))) (columns df))
    df.

(** [_make_info_lower], one column:
    [df[col] = df[col].apply(str).apply(unidecode).str.strip().str.lower()] *)
Definition make_info_lower_col (col : string) (df : DataFrame) : result DataFrame :=
  j ← column_position col df;
  Ok {| columns := columns df;
        rows := map (fun r =>
                       (fst r,
                        set_cell j
                          (VStr (Py.lower (Py.strip (unidecode (py_str (cell (snd r) j))))))
                          (snd r)))
                    (rows df) |}.

Definition _make_info_lower (df : DataFrame) (cols : list string) : result DataFrame :=
  foldl (fun acc col => df' ← acc; make_info_lower_col col df') (Ok df) cols.

(** The banner edge case, lines 60-71. *)
Definition promote_header (df : DataFrame) : result DataFrame :=
  first ← iloc0 df;
  let df := set_columns first df in
  let df := iloc_from1 df in
  let df := rename_column (VStr "ENTIDAD") (VStr "estado") df in
  Ok (reset_index_drop df).

(** [df[df["estado"] != "nacional"]] *)
Definition drop_nacional (df : DataFrame) : result DataFrame :=
  j ← column_position "estado" df;
  Ok {| columns := columns df;
        rows := List.filter (fun r => negb (value_eqb (cell (snd r) j) (VStr "nacional")))
                       (rows df) |}.

(** [pd.to_datetime(df[['year', 'month']].assign(day=1))] *)
Definition to_datetime_year_month (df : DataFrame) : result (list value) :=
  match positions (VStr "year") (columns df), positions (VStr "month") (columns df) with
  | [jy], [jm] =>
      mapM (fun r => to_datetime_ym (cell (snd r) jy) (cell (snd r) jm)) (rows df)
  | [], _ | _, [] => Raise (KeyError "year, month")
  | _, _ => Raise (ValueError "cannot assemble with duplicate keys")
  end.

(** The body of the loop of [_clean_data] for the entry [year] (the file
    name) holding the table [df], in three stages.  Lines 53-85: the year
    of the name, the banner edge case and the canonical headers, mapped
    to month numbers. *)
Definition canonical_table (year : string) (df : DataFrame) : result (Z * DataFrame) :=
  lower_cols ← str_lower_strip (columns df);
  year_int ← match search_year year with
             | Some y => Ok y
             | None => Raise AttributeError
             end;
  df ← (if label_in (VStr edge_case_rain) lower_cols ||
           label_in (VStr edge_case_temp) lower_cols
        then promote_header df
        else Ok df);
  let df := _make_cols_lower df in
  df ← _make_info_lower df ["estado"];
  let df := set_columns (map header_map (columns df)) df in
  Ok (year_int, df).

(** Lines 86-94: without the annual total and the national row, months
    become rows and regions columns. *)
Definition months_as_rows (df : DataFrame) : result DataFrame :=
  df ← drop_column "anual" df;
  df ← drop_nacional df;
  let df := transpose df in
  first ← iloc0 df;
  let df := set_columns first df in
  reset_index_names "month" (iloc_from1 df).

(** Lines 95-99: the year column and the first-of-month index. *)
Definition index_by_date (year_int : Z) (df : DataFrame) : result DataFrame :=
  let df := setitem_scalar (VStr "year") (VInt year_int) df in
  dates ← to_datetime_year_month df;
  Ok (set_index dates df).

Definition clean_year (year : string) (df : DataFrame) : result DataFrame :=
  canonical ← canonical_table year df;
  df ← months_as_rows (snd canonical);
  index_by_date (fst canonical) df.

(** The month numbers among the headers of a table. *)
Definition month_labels (df : DataFrame) : list value :=
  List.filter (fun l => match l with VInt _ => true | _ => false end) (columns df).

(** [_clean_data]: [climate_dict] in insertion order. *)
Definition _clean_data (climate_dict : list (string * DataFrame)) : result DataFrame :=
  cleaned ← mapM (fun kv => clean_year (fst kv) (snd kv)) climate_dict;
  concat cleaned.

End SchemaNormalizer.

(** ** Paths and the file system *)

Definition bytes : Type := list Byte.byte.

(** A [pathlib] path: whether it starts at the root, and its components.
    Parsing drops empty and [.] components and keeps [..]. *)
Record Path : Type := {
  anchored : bool;
  parts : list string
}.

Definition is_dotdot (c : string) : bool := String.eqb c "..".

Definition kept_component (c : string) : bool :=
  negb (String.eqb c "") && negb (String.eqb c ".").

(** [Path(s)] *)
Definition parse_path (s : string) : Path :=
  {| anchored := Py.startswith "/" s;
     parts := List.filter kept_component (Py.split "/" s) |}.

(** [p / s] *)
Definition joinpath (p : Path) (s : string) : Path :=
  let q := parse_path s in
  if anchored q then q
  else {| anchored := anchored p; parts := parts p ++ parts q |}.

(** [p.parent] *)
Definition parent (p : Path) : Path :=
  {| anchored := anchored p; parts := removelast (parts p) |}.

(** A location of the file system: the names from the root down, with no
    [..] left.  Symbolic links are not modelled. *)
Definition node : Type := list string.

Definition walk_step (cur : node) (c : string) : node :=
  if is_dotdot c then removelast cur else cur ++ [c].

Definition walk (cur : node) (cs : list string) : node :=
  fold_left walk_step cs cur.

Record FS : Type := {
  dirs : gset node;
  files : gmap node bytes
}.

(** The state a run acts on: the file system, the working directory, the
    locations requested from the forecast server so far, and the tables
    handed to the spreadsheet writer so far with their destinations. *)
Record World : Type := {
  fs : FS;
  cwd : node;
  forecast_requests : list string;
  excel_writes : list (Path * DataFrame)
}.

Definition start_of (w : World) (p : Path) : node :=
  if anchored p then [] else cwd w.

(** [p.resolve()] *)
Definition resolve (w : World) (p : Path) : node :=
  walk (start_of w p) (parts p).

Definition is_dir (f : FS) (n : node) : bool :=
  bool_decide (n = []) || bool_decide (n ∈ dirs f).

Definition is_file (f : FS) (n : node) : bool :=
  bool_decide (is_Some (files f !! n)).

(** Effectful code: a state transformer that may raise; the effects done
    before an exception stay done. *)
Definition M (A : Type) : Type := World -> result A * World.

#[global] Instance M_ret : MRet M := fun A a w => (Ok a, w).
#[global] Instance M_bind : MBind M := fun A B k m w =>
  match m w with
  | (Ok a, w') => k a w'
  | (Raise e, w') => (Raise e, w')
  end.

Definition raise {A} (e : exn) : M A := fun w => (Raise e, w).
Definition lift {A} (r : result A) : M A := fun w => (r, w).

(** [for x in xs: body(x)] *)
Fixpoint for_each {A} (body : A -> M unit) (xs : list A) : M unit :=
  match xs with
  | [] => mret tt
  | x :: xs' => body x ≫= fun _ => for_each body xs'
  end.

Definition with_fs (f : FS) (w : World) : World :=
  {| fs := f; cwd := cwd w; forecast_requests := forecast_requests w;
     excel_writes := excel_writes w |}.

Definition add_dir (n : node) (f : FS) : FS :=
  {| dirs := {[ n ]} ∪ dirs f; files := files f |}.

(** The walk of [mkdir(parents=True, exist_ok=True)]: every component is
    entered in turn and created when missing; a component that exists as
    a file stops it. *)
Fixpoint mkdir_walk (cur : node) (cs : list string) : M unit :=
  match cs with
  | [] => mret tt
  | c :: cs' =>
      if is_dotdot c then mkdir_walk (removelast cur) cs'
      else fun w =>
        let nxt := cur ++ [c] in
        if is_file (fs w) nxt then (Raise FileSystemError, w)
        else if is_dir (fs w) nxt then mkdir_walk nxt cs' w
        else mkdir_walk nxt cs' (with_fs (add_dir nxt (fs w)) w)
  end.

(** [p.mkdir(parents=True, exist_ok=True)] *)
Definition mkdir_p (p : Path) : M unit :=
  fun w => mkdir_walk (start_of w p) (parts p) w.

(** Entering every component of [cs] from [cur]: the directory reached,
    or [None] when a component on the way is not a directory. *)
Fixpoint enter (f : FS) (cur : node) (cs : list string) : option node :=
  match cs with
  | [] => Some cur
  | c :: cs' =>
      let nxt := walk_step cur c in
      if is_dir f nxt then enter f nxt cs' else None
  end.

(** [open(p, "wb")] followed by writing [data] *)
Definition write_file (p : Path) (data : bytes) : M unit :=
  fun w =>
    match last (parts p) with
    | None => (Raise FileSystemError, w)
    | Some name =>
        if is_dotdot name then (Raise FileSystemError, w)
        else match enter (fs w) (start_of w p) (removelast (parts p)) with
             | None => (Raise FileSystemError, w)
             | Some d =>
                 let n := d ++ [name] in
                 if is_dir (fs w) n then (Raise FileSystemError, w)
                 else (Ok tt, with_fs {| dirs := dirs (fs w);
                                         files := <[ n := data ]> (files (fs w)) |} w)
             end
    end.

(** [open(p, "rb").read()] *)
Definition read_file (p : Path) : M bytes :=
  fun w =>
    match last (parts p) with
    | None => (Raise FileSystemError, w)
    | Some name =>
        match enter (fs w) (start_of w p) (removelast (parts p)) with
        | None => (Raise FileSystemError, w)
        | Some d =>
            match files (fs w) !! walk_step d name with
            | Some data => (Ok data, w)
            | None => (Raise FileSystemError, w)
            end
        end
    end.

(** [p.unlink()] *)
Definition unlink (p : Path) : M unit :=
  fun w =>
    match last (parts p) with
    | None => (Raise FileSystemError, w)
    | Some name =>
        match enter (fs w) (start_of w p) (removelast (parts p)) with
        | None => (Raise FileSystemError, w)
        | Some d =>
            let n := walk_step d name in
            if is_file (fs w) n
            then (Ok tt, with_fs {| dirs := dirs (fs w);
                                    files := delete n (files (fs w)) |} w)
            else (Raise FileSystemError, w)
        end
    end.

(** ** ArchiveExtractor ([_extract_zip_file]) *)

(** Longest common prefix of two strings. *)
Fixpoint lcp (a b : string) : string :=
  match a, b with
  | String x a', String y b' =>
      if Ascii.eqb x y then String x (lcp a' b') else EmptyString
  | _, _ => EmptyString
  end.

(** [os.path.commonprefix]: the longest string that is a prefix of every
    element, character by character; empty for the empty list. *)
Definition commonprefix (m : list string) : string :=
  match m with
  | [] => EmptyString
  | s :: r => fold_left lcp r s
  end.

(** Truthiness of a [str] *)
Definition nonempty (s : string) : bool :=
  match s with EmptyString => false | _ => true end.

(** Lines 151-153: the prefix that extraction strips. *)
Definition common_prefix_of (all_names : list string) : string :=
  let common_prefix := commonprefix all_names in
  if nonempty common_prefix && negb (Py.endswith "/" common_prefix)
  then hd EmptyString (Py.split "/" common_prefix) +:+ "/"
  else common_prefix.

(** Lines 156-158: the name an entry is extracted under. *)
Definition stripped_name (common_prefix member_name : string) : string :=
  if nonempty common_prefix && Py.startswith common_prefix member_name
  then Py.drop (String.length common_prefix) member_name
  else member_name.

(** An archive entry ([zipfile.ZipInfo] and its content). *)
Record ZipInfo : Type := {
  filename : string;
  payload : bytes
}.

(** [ZipInfo.is_dir] *)
Definition member_is_dir (member : ZipInfo) : bool :=
  Py.endswith "/" (filename member).

(** The body of the loop over [zip_ref.infolist()], lines 156-167. *)
Definition extract_member (dest_dir : Path) (common_prefix : string)
    (member : ZipInfo) : M unit :=
  let member_name := stripped_name common_prefix (filename member) in
  let target_path := joinpath dest_dir member_name in
  if member_is_dir member then mkdir_p target_path
  else mkdir_p (parent target_path) ≫= fun _ =>
       write_file target_path (payload member).

(** The [with] block, lines 150-167, on the entries of the archive. *)
Definition extract_members (dest_dir : Path) (members : list ZipInfo) : M unit :=
  let all_names := map filename members in
  let common_prefix := common_prefix_of all_names in
  for_each (extract_member dest_dir common_prefix) members.

Section ArchiveExtractor.

(** [zipfile.ZipFile(...)] on the bytes of a file: the entries, or
    [None] for [BadZipFile]. *)
Variable zip_parse : bytes -> option (list ZipInfo).

Definition _extract_zip_file (zip_file_path dest_dir : Path) : M unit :=
  data ← read_file zip_file_path;
  match zip_parse data with
  | None => raise BadZipFile
  | Some members => extract_members dest_dir members
  end.

End ArchiveExtractor.

(** The reading of the specification: the common prefix cut back to its
    last separator, empty when it has none. *)
Fixpoint spec_truncate_to_last_separator (s : string) : string :=
  match s with
  | EmptyString => EmptyString
  | String c r =>
      match spec_truncate_to_last_separator r with
      | EmptyString => if Ascii.eqb c "/" then String c EmptyString else EmptyString
      | t => String c t
      end
  end.

Definition spec_common_prefix_of (all_names : list string) : string :=
  spec_truncate_to_last_separator (commonprefix all_names).

(** Whether a string holds a path separator. *)
Fixpoint has_separator (s : string) : bool :=
  match s with
  | EmptyString => false
  | String c r => Ascii.eqb c "/" || has_separator r
  end.

(** The locations in which two file systems differ: a directory of the
    second that the first lacks, or a file whose content is not the same. *)
Definition changed (before after : FS) (n : node) : Prop :=
  (n ∈ dirs after ∧ n ∉ dirs before) ∨ files after !! n ≠ files before !! n.

(** A relative name that never climbs above its starting directory. *)
Fixpoint stays_below (depth : nat) (cs : list string) : bool :=
  match cs with
  | [] => true
  | c :: cs' =>
      if is_dotdot c
      then match depth with
           | O => false
           | S d => stays_below d cs'
           end
      else stays_below (S depth) cs'
  end.

Definition confined_name (s : string) : bool :=
  negb (anchored (parse_path s)) && stays_below 0 (parts (parse_path s)).

(** The locations entered, in order, when walking [cs] from [cur]. *)
Fixpoint visited (cur : node) (cs : list string) : list node :=
  match cs with
  | [] => []
  | c :: cs' => walk_step cur c :: visited (walk_step cur c) cs'
  end.

(** [touches_only N before after]: no directory is lost, and outside the
    locations [N] nothing is created and no file changes. *)
Definition touches_only (N : node -> Prop) (before after : FS) : Prop :=
  dirs before ⊆ dirs after /\
  forall n, ~ N n ->
            (n ∈ dirs after -> n ∈ dirs before) /\
            files after !! n = files before !! n.

(** Every directory on the way to [p] exists. *)
Definition reachable (w : World) (p : Path) : Prop :=
  is_Some (enter (fs w) (start_of w p) (parts p)).

(** [d[k] = v]: a key already present keeps its place. *)
Definition dict_insert {V} (k : string) (v : V) (d : list (string * V)) : list (string * V) :=
  if existsb (fun kv => String.eqb (fst kv) k) d
  then map (fun kv => if String.eqb (fst kv) k then (k, v) else kv) d
  else d ++ [(k, v)].

(** ** ForecastMerger ([add_pronostico]) *)

(** The module-level [month_map], lines 19-32. *)
Definition month_map : gmap string string :=
  list_to_map
    [("enero", "ene"); ("febrero", "feb"); ("marzo", "mar"); ("abril", "abr");
     ("mayo", "may"); ("junio", "jun"); ("julio", "jul"); ("agosto", "ago");
     ("septiembre", "sep"); ("octubre", "oct"); ("noviembre", "nov");
     ("diciembre", "dic")].

(** The column label that the result of [dict.get] denotes: [None] is a
    label like any other. *)
Definition label_of_get (o : option string) : value :=
  match o with
  | Some s => VStr s
  | None => VNone
  end.

(** [df[l]] as a Series: the index labels with the cells of the column. *)
Definition getitem_series (l : string) (df : DataFrame) : result (list (value * value)) :=
  j ← column_position l df;
  Ok (map (fun r => (fst r, cell (snd r) j)) (rows df)).

(** The cells a Series contributes to a table when assigned as a column:
    taken as they are when both indexes agree, otherwise looked up by
    index label ([NaN] where the Series has none). *)
Definition align_series (series : list (value * value)) (df : DataFrame)
    : result (list value) :=
  if bool_decide (map fst series = index df) then Ok (map snd series)
  else match rows df with
       | [] => Raise (OutOfModel "column assigned to a table without rows")
       | _ =>
           if nodup_labels (map fst series)
           then Ok (map (fun i => match List.filter (fun p => value_eqb (fst p) i) series with
                                  | p :: _ => snd p
                                  | [] => VNaN
                                  end) (index df))
           else Raise (ValueError "cannot reindex on an axis with duplicate labels")
       end.

(** [df[l] = series] *)
Definition setitem_series (l : value) (series : list (value * value)) (df : DataFrame)
    : result DataFrame :=
  vals ← align_series series df;
  Ok match positions l (columns df) with
     | [] => {| columns := columns df ++ [l];
                rows := map (fun rv => (fst (fst rv), snd (fst rv) ++ [snd rv]))
                            (combine (rows df) vals) |}
     | ps => {| columns := columns df;
                rows := map (fun rv => (fst (fst rv),
                                        fold_right (fun j acc => set_cell j (snd rv) acc)
                                                   (snd (fst rv)) ps))
                            (combine (rows df) vals) |}
     end.

(** The body of the loop of [add_pronostico], lines 185-189, for the
    entry [key] of the forecast dictionary, acting on the table of the
    latest year. *)
Definition merge_entry (df : DataFrame) (key : string) (pronostic : DataFrame)
    : result DataFrame :=
  name ← match Py.split "_" key !! 2%nat with
         | Some name => Ok name
         | None => Raise IndexError
         end;
  let key_month := month_map !! name in
  series ← getitem_series "pronostico (mm)" pronostic;
  setitem_series (label_of_get key_month) series df.

(** [d[k] = v] for a key already present. *)
Definition dict_set {K V} `{EqDecision K} (k : K) (v : V) (d : list (K * V)) : list (K * V) :=
  map (fun kv => if decide (fst kv = k) then (k, v) else kv) d.

(** The merge proper: lines 182 and 184-190 on a retrieved dictionary. *)
Definition merge_pronostico (new_info_dict : list (Z * DataFrame))
    (pronostic_dfs : list (string * DataFrame)) : result (list (Z * DataFrame)) :=
  match last new_info_dict with
  | None => Raise IndexError
  | Some (year_df, df) =>
      df' ← foldl (fun acc kv => d ← acc; merge_entry d (fst kv) (snd kv))
                  (Ok df) pronostic_dfs;
      Ok (dict_set year_df df' new_info_dict)
  end.

(** ** The downloader ([DownloadCONAGUA]) *)

Section Downloader.

(** [config.json] *)
Variable rain_url : string.
Variable temp_url : string.
Variable new_info_url : string.
Variable pronostic_url : string.

(** The clock: [datetime.now().year] and [.month]. *)
Variable now_year : Z.
Variable now_month : Z.

(** Collaborators: the PDF table reader, the transport, the archive
    reader, the CSV reader and the spreadsheet writer (columns and
    cells; the index is not written).  The transport answers a request
    ([requests.get] and [raise_for_status]) with an error or with a
    response: the chunks of the body that arrive, and the error on which
    the body breaks off, if it does. *)
Variable read_pdf : string -> result DataFrame.
Variable http_get : string -> result (list bytes * option exn).
Variable zip_parse : bytes -> option (list ZipInfo).
Variable read_csv : bytes -> result DataFrame.
Variable excel_bytes : list value -> list (list value) -> bytes.

(** [unidecode] outside ASCII, and [str(x)] for a float and a timestamp. *)
Variable unidecode_table : ascii -> string.
Variable float_repr : Z -> string.
Variable time_repr : Timestamp -> string.

(** [read_pdf_table] *)
Definition read_pdf_table (url : string) : result DataFrame :=
  df ← read_pdf url;
  cols ← mapM (fun col => match col with
                          | VStr s => Ok (VStr (Py.lower (Py.strip s)))
                          | _ => Raise AttributeError
                          end) (columns df);
  Ok (set_columns cols df).

Record datatype_config : Type := {
  zip_url : string;
  pdf_folder : string;
  default_folder : string;
  cfg_filename : string
}.

(** [_get_datatype_config] *)
Definition _get_datatype_config (data_type : string) : result datatype_config :=
  let dt := Py.lower data_type in
  if Py.str_in dt ["precipitacion"; "rain"; "lluvia"] then
    Ok {| zip_url := rain_url; pdf_folder := "PREC";
          default_folder := "Precipitacion"; cfg_filename := "Precip.xlsx" |}
  else if Py.str_in dt ["temperatura"; "temp"; "temperature"] then
    Ok {| zip_url := temp_url; pdf_folder := "TMED";
          default_folder := "Temperatura"; cfg_filename := "Tmed.xlsx" |}
  else Raise (ValueError ("Invalid data type: " +:+ data_type)).

(** [range(a, b)] *)
Definition py_range (a b : Z) : list Z :=
  map (fun i => a + Z.of_nat i) (seq 0 (Z.to_nat (b - a))).

(** [_get_datatype_values] *)
Definition _get_datatype_values (data_type : string)
    : result (string * list (Z * DataFrame) * string * string) :=
  let latest_year := now_year in
  config ← _get_datatype_config data_type;
  new_info_dict ←
    mapM (fun year =>
            df ← read_pdf_table (new_info_url +:+ pdf_folder config +:+ "/" +:+
                                 Py.str_of_Z year +:+ ".pdf");
            Ok (year, df))
         (py_range 2024 (latest_year + 1));
  Ok (zip_url config, new_info_dict, default_folder config, cfg_filename config).

(** [Path.cwd()] *)
Definition path_cwd (w : World) : Path := {| anchored := true; parts := cwd w |}.

(** [set_destination_directory] *)
Definition set_destination_directory (file_location : option string)
    (default_folder : string) : M (Path * Path) :=
  fun w =>
    let dest_dir := match file_location with
                    | None => joinpath (path_cwd w) default_folder
                    | Some loc => parse_path loc
                    end in
    (mkdir_p dest_dir ≫= fun _ => mret (dest_dir, joinpath dest_dir "temp.zip")) w.

(** [_download_zip_file]: an error of the request is raised before the
    file is opened; the file is then created and the chunks are written
    as they arrive, so that a body that breaks off leaves the file with
    what arrived before the error, which is raised after the file is
    closed. *)
Definition _download_zip_file (url : string) (zip_file_path : Path) : M unit :=
  response ← lift (http_get url);
  _ ← write_file zip_file_path
        (List.concat (List.filter (fun chunk => negb (bool_decide (chunk = [])))
                                  (fst response)));
  match snd response with
  | Some e => raise e
  | None => mret tt
  end.

(** [response.content] of a request made without [stream]: the body is
    read as a whole by the request, which raises when it breaks off. *)
Definition response_content (response : list bytes * option exn) : result bytes :=
  match snd response with
  | Some e => Raise e
  | None => Ok (List.concat (fst response))
  end.

(** [z.open(file).read()]: the content of the entry the archive keeps
    under that name, the last one when a name occurs twice. *)
Definition zip_open (members : list ZipInfo) (file : string) : result bytes :=
  match List.filter (fun m => String.eqb (filename m) file) (rev members) with
  | m :: _ => Ok (payload m)
  | [] => Raise (KeyError file)
  end.

(** [df.drop(columns=l, errors="ignore")] *)
Definition drop_column_ignore (l : string) (df : DataFrame) : DataFrame :=
  let ps := positions (VStr l) (columns df) in
  {| columns := remove_positions ps (columns df);
     rows := map (fun r => (fst r, remove_positions ps (snd r))) (rows df) |}.

(** Lines 294-299: the key of a forecast table, from the path of its
    entry. *)
Definition pronostic_key (file : string) : result string :=
  let dirname := Py.dirname file in
  let data_type :=
    Py.lower (hd EmptyString
                 (Py.split "/" (List.last (Py.split "-" dirname) EmptyString))) in
  let basename_keys := Py.split "_" (Py.basename file) in
  year_text ← match basename_keys !! 3%nat with
              | Some t => Ok t
              | None => Raise IndexError
              end;
  year ← match Py.int_of_str year_text with
         | Some y => Ok y
         | None => Raise (ValueError "invalid literal for int()")
         end;
  month ← match basename_keys !! 2%nat with
          | Some t => Ok t
          | None => Raise IndexError
          end;
  Ok (data_type +:+ "_" +:+ Py.str_of_Z year +:+ "_" +:+ Py.lower month).

(** The body of the loop over [target_files], lines 286-303. *)
Definition read_target (members : list ZipInfo)
    (dataframes : list (string * DataFrame)) (file : string)
    : result (list (string * DataFrame)) :=
  csvfile ← zip_open members file;
  df ← read_csv csvfile;
  let df := rename_column (VStr "Unnamed: 0") (VStr "estado") df in
  let df := _make_cols_lower unidecode_table float_repr time_repr df in
  key ← pronostic_key file;
  Ok (dict_insert key (drop_column_ignore "cv_estado" df) dataframes).

(** [download_extract_pronostic] *)
Definition download_extract_pronostic (url : string)
    : result (list (string * DataFrame)) :=
  response ← http_get url;
  content ← response_content response;
  match zip_parse content with
  | None => Raise BadZipFile
  | Some members =>
      let namelist := map filename members in
      let estadistica_files :=
        List.filter (fun f => Py.str_in "ESTADISITCAS" (Py.split "/" f) ||
                              Py.str_in "ESTADISTICAS" (Py.split "/" f))
                    namelist in
      let target_files :=
        List.filter (fun file => Py.str_in "csv" (Py.split "." file) &&
                                 Py.str_in "Estados" (Py.split "_" file))
                    estadistica_files in
      match target_files with
      | [] => Raise (PlainException "No target CSV files found in ZIP")
      | _ => foldl (fun acc file => d ← acc; read_target members d file)
                   (Ok []) target_files
      end
  end.

(** [get_latest_valid_pronostic], recording the locations it tried. *)
Definition latest_valid_pronostic : M (list (string * DataFrame)) :=
  fun w =>
    match get_latest_valid_pronostic pronostic_url _ download_extract_pronostic
            now_year now_month "Lluvia" with
    | Some r => (outcome _ r,
                 {| fs := fs w; cwd := cwd w;
                    forecast_requests := forecast_requests w ++ tried _ r;
                    excel_writes := excel_writes w |})
    | None => (Raise (OutOfModel "retrieval loop out of fuel"), w)
    end.

(** [add_pronostico] *)
Definition add_pronostico (new_info_dict : list (Z * DataFrame))
    : M (list (Z * DataFrame)) :=
  match last new_info_dict with
  | None => raise IndexError
  | Some _ =>
      pronostic_dfs ← latest_valid_pronostic;
      lift (merge_pronostico new_info_dict pronostic_dfs)
  end.

(** Notes one completed call of the spreadsheet writer. *)
Definition record_excel_write (full_path : Path) (df : DataFrame) : M unit :=
  fun w => (Ok tt, {| fs := fs w; cwd := cwd w;
                      forecast_requests := forecast_requests w;
                      excel_writes := excel_writes w ++ [(full_path, df)] |}).

(** [df.to_excel(full_path, index=False)] *)
Definition to_excel (full_path : Path) (df : DataFrame) : M unit :=
  _ ← write_file full_path (excel_bytes (columns df) (map snd (rows df)));
  record_excel_write full_path df.

(** [_save_new_info] *)
Definition _save_new_info (new_info_dict : list (Z * DataFrame))
    (directory : Path) (filename : string) : M unit :=
  for_each (fun kv =>
              let full_path := joinpath directory (Py.str_of_Z (fst kv) +:+ filename) in
              to_excel full_path (snd kv))
           new_info_dict.

(** [download_conagua]; the result is the value left in
    [self.directory]. *)
Definition download_conagua (file_location : option string)
    (data_type : string) (include_pronostico : bool) : M Path :=
  dtype_vales ← lift (_get_datatype_values data_type);
  let '(url, new_info_dict, default_folder, filename) := dtype_vales in
  dirs ← set_destination_directory file_location default_folder;
  let '(dest_dir, zip_file_path) := dirs in
  _ ← _download_zip_file url zip_file_path;
  _ ← _extract_zip_file zip_parse zip_file_path dest_dir;
  new_info_dict ← (if include_pronostico && String.eqb default_folder "Precipitacion"
                   then add_pronostico new_info_dict
                   else mret new_info_dict);
  _ ← _save_new_info new_info_dict dest_dir filename;
  _ ← unlink zip_file_path;
  mret dest_dir.

(** The bulletin of a year, as [_get_datatype_values] reads it for
    temperature. *)
Definition temperature_bulletin (year : Z) : result DataFrame :=
  read_pdf_table (new_info_url +:+ "TMED" +:+ "/" +:+ Py.str_of_Z year +:+ ".pdf").

End Downloader.

(** ** Normalising a directory ([DataProcessor.process_data]) *)

(** The names of the files directly inside the directory [d], in the
    order of the underlying map. *)
Definition file_names_in (f : FS) (d : node) : list string :=
  omap (fun kv => match last (fst kv) with
                  | Some name =>
                      if bool_decide (removelast (fst kv) = d) then Some name else None
                  | None => None
                  end)
       (map_to_list (files f)).

(** [PathUtils.get_list_files_in_directory]: [iterdir] yields the
    entries in an order the file system chooses, here the order in
    which [iterdir_order] arranges them. *)
Definition get_list_files_in_directory (iterdir_order : FS -> node -> list nat)
    (directory : Path) : M (list string) :=
  fun w =>
    match enter (fs w) (start_of w directory) (parts directory) with
    | None => (Raise FileSystemError, w)
    | Some d => (Ok (rearrange (iterdir_order (fs w) d) (file_names_in (fs w) d)), w)
    end.

Section ProcessData.

Variable edge_case_rain : string.
Variable edge_case_temp : string.
Variable order_col : list string.
Variable unidecode_table : ascii -> string.
Variable float_repr : Z -> string.
Variable time_repr : Timestamp -> string.

(** [pd.read_excel(path, engine=...)] on the bytes of a spreadsheet
    file, for the engine named. *)
Variable read_excel : string -> bytes -> result DataFrame.

(** The orders left open: of the listing of a directory and of the rows
    with equal dates after sorting. *)
Variable iterdir_order : FS -> node -> list nat.
Variable ties : list (value * list value) -> list nat.

(** [dict_of_files[file] = pd.read_excel(path, engine=engine)] inside
    the [try]: a reading error is printed and the file is left out. *)
Definition try_read (engine : string) (path : Path) (file : string)
    (dict_of_files : list (string * DataFrame)) : M (list (string * DataFrame)) :=
  fun w =>
    match read_file path w with
    | (Ok data, _) =>
        match read_excel engine data with
        | Ok df => (Ok (dict_insert file df dict_of_files), w)
        | Raise _ => (Ok dict_of_files, w)
        end
    | (Raise _, _) => (Ok dict_of_files, w)
    end.

(** The body of the loop of [get_dataframes_files_path]. *)
Definition load_file (working_directory_path : Path)
    (dict_of_files : list (string * DataFrame)) (file : string)
    : M (list (string * DataFrame)) :=
  let path := joinpath working_directory_path file in
  if Py.endswith ".xls" file then try_read "xlrd" path file dict_of_files
  else if Py.endswith ".xlsx" file then try_read "openpyxl" path file dict_of_files
  else mret dict_of_files.

(** [get_dataframes_files_path] *)
Definition get_dataframes_files_path (working_directory_path : Path)
    (list_files : list string) : M (list (string * DataFrame)) :=
  foldl (fun acc file => d ← acc; load_file working_directory_path d file)
        (mret []) list_files.

(** Lines 131-136: cleaning, sorting and ordering the columns. *)
Definition process_tables (order_cols : bool) (df_dict : list (string * DataFrame))
    : result DataFrame :=
  cleaned ← _clean_data edge_case_rain edge_case_temp unidecode_table
              float_repr time_repr df_dict;
  process_df ← sort_index ties cleaned;
  if order_cols then select_columns order_col process_df else Ok process_df.

(** Lines 125-129 on their own: the dictionary of the tables read from
    the directory. *)
Definition load_directory (directory : Path) : M (list (string * DataFrame)) :=
  files_list ← get_list_files_in_directory iterdir_order directory;
  get_dataframes_files_path directory files_list.

(** [process_data] *)
Definition process_data (directory : Path) (order_cols : bool) : M DataFrame :=
  files_list ← get_list_files_in_directory iterdir_order directory;
  df_dict ← get_dataframes_files_path directory files_list;
  lift (process_tables order_cols df_dict).

End ProcessData.

(** ** Filtering by date ([filtrar_datos]) *)

(** Tables are objects: a reference names a table of the store, and two
    references may name the same table. *)
Abbreviation ref := positive.
Abbreviation Store := (gmap ref DataFrame).

(** Code acting on the store. *)
Definition S (A : Type) : Type := Store -> result A * Store.

#[global] Instance S_ret : MRet S := fun A a h => (Ok a, h).
#[global] Instance S_bind : MBind S := fun A B k m h =>
  match m h with
  | (Ok a, h') => k a h'
  | (Raise e, h') => (Raise e, h')
  end.

Definition s_lift {A} (r : result A) : S A := fun h => (r, h).

(** Reading the table a reference names. *)
Definition deref (l : ref) : S DataFrame :=
  fun h => match h !! l with
           | Some df => (Ok df, h)
           | None => (Raise (OutOfModel "dangling reference"), h)
           end.

(** A new object holding [df]. *)
Definition new_object (df : DataFrame) : S ref :=
  fun h => let l := fresh (dom h) in (Ok l, <[ l := df ]> h).

(** Overwriting the table a reference names. *)
Definition assign (l : ref) (df : DataFrame) : S unit :=
  fun h => (Ok tt, <[ l := df ]> h).

(** [df.copy()] *)
Definition copy (l : ref) : S ref :=
  df ← deref l; new_object df.

(** [isinstance(df.index, pd.DatetimeIndex)]: the index holds timestamps
    exactly when all its labels are timestamps. *)
Definition is_datetime_index (df : DataFrame) : bool :=
  forallb is_time_or_nat (index df).

(** Truthiness of an optional [str] argument. *)
Definition truthy (o : option string) : bool :=
  match o with
  | Some s => nonempty s
  | None => false
  end.

(** [index >= t] and [index <= t], one label: a label that is not a
    timestamp compares false. *)
Definition label_ge (t : Timestamp) (v : value) : bool :=
  match v with VTime x => ts_leb t x | _ => false end.
Definition label_le (t : Timestamp) (v : value) : bool :=
  match v with VTime x => ts_leb x t | _ => false end.

(** [df.loc[mask]] with the mask computed from the index labels. *)
Definition loc_mask (keep : value -> bool) (df : DataFrame) : DataFrame :=
  {| columns := columns df; rows := List.filter (fun r => keep (fst r)) (rows df) |}.

Section FilterData.

(** [pd.to_datetime] on an index and on a date text. *)
Variable to_datetime_index : list value -> result (list value).
Variable to_datetime_text : string -> result Timestamp.

(** Lines 15-16. *)
Definition ensure_datetime_index (clima_df : ref) : S unit :=
  df ← deref clima_df;
  if is_datetime_index df then mret tt
  else
    labels ← s_lift (to_datetime_index (index df));
    if bool_decide (length labels = length (rows df))
    then assign clima_df (set_index labels df)
    else s_lift (Raise (ValueError "Length mismatch")).

(** Lines 19-22, one argument. *)
Definition convert_date (date : option string) : S (option Timestamp) :=
  match date with
  | Some s => if nonempty s
              then t ← s_lift (to_datetime_text s); mret (Some t)
              else mret None
  | None => mret None
  end.

(** [filtrar_datos] *)
Definition filtrar_datos (df : ref) (start_date end_date : option string) : S ref :=
  clima_df ← copy df;
  _ ← ensure_datetime_index clima_df;
  start_date ← convert_date start_date;
  end_date ← convert_date end_date;
  match start_date, end_date with
  | Some s, Some e =>
      t ← deref clima_df;
      new_object (loc_mask (fun i => label_ge s i && label_le e i) t)
  | Some s, None =>
      t ← deref clima_df;
      new_object (loc_mask (label_ge s) t)
  | None, Some e =>
      t ← deref clima_df;
      new_object (loc_mask (label_le e) t)
  | None, None => mret clima_df
  end.

End FilterData.

(** ** Notions used in the statements *)

(** Where [_save_new_info] writes the table of a year. *)
Definition saved_as (directory : Path) (filename : string) (kv : Z * DataFrame)
    : Path * DataFrame :=
  (joinpath directory (Py.str_of_Z (fst kv) +:+ filename), snd kv).

(** [keeps_logs m]: running [m] asks nothing of the forecast server and
    hands nothing to the spreadsheet writer. *)
Definition keeps_logs {A} (m : M A) : Prop :=
  forall w r w', m w = (r, w') ->
                 forecast_requests w' = forecast_requests w /\
                 excel_writes w' = excel_writes w.

(** A data kind that selects the temperature configuration. *)
Definition is_temperature (data_type : string) : Prop :=
  Py.str_in (Py.lower data_type) ["temperatura"; "temp"; "temperature"] = true.

(** [h'] still holds every object of [h], unchanged. *)
Definition keeps_objects (h h' : Store) : Prop :=
  forall l obj, h !! l = Some obj -> h' !! l = Some obj.

(** The labels are in the order of a sorted index of dates: by time,
    the missing dates last. *)
Definition sorted_labels (ls : list value) : Prop :=
  StronglySorted (fun a b => label_leb a b = true) ls.

(** The test by which [concat] needs no reindexing: every frame has the
    columns of the first. *)
Definition same_columns (frames : list DataFrame) : bool :=
  match frames with
  | [] => true
  | d :: ds => forallb (fun d' => bool_decide (columns d' = columns d)) ds
  end.

(** A row of [df[labels]]: the cells at the positions of the labels,
    among the columns [cols]. *)
Definition selected (labels : list string) (cols : list value)
    (r : value * list value) : value * list value :=
  (fst r, map (cell (snd r)) (flat_map (fun l => positions (VStr l) cols) labels)).

(** The table [get_dataframes_files_path] keeps for the file named
    [file] of the directory, if it keeps one. *)
Definition table_in (read_excel : string -> bytes -> result DataFrame)
    (directory : Path) (w : World) (file : string) : option DataFrame :=
  let read engine :=
    match read_file (joinpath directory file) w with
    | (Ok data, _) =>
        match read_excel engine data with
        | Ok df => Some df
        | Raise _ => None
        end
    | (Raise _, _) => None
    end in
  if Py.endswith ".xls" file then read "xlrd"
  else if Py.endswith ".xlsx" file then read "openpyxl"
  else None.

(** A header of a canonical table that becomes a month cell: a month
    number, or [NaN] for a header the mapping does not know. *)
Definition is_month_or_missing (c : value) : bool :=
  match c with VInt _ | VNaN => true | _ => false end.

(** The date [index_by_date] gives the month cell [c] in the year [y]. *)
Definition date_of (y : Z) (c : value) : value :=
  match c with
  | VInt m => VTime (first_of_month y m)
  | _ => VNaT
  end.

(** ** Concrete inputs *)

(** A forecast server holding only the bundle of December 2024, and one
    holding nothing. *)
Definition only_december_2024 (location : string) : result nat :=
  if String.eqb location
       "https://smn/12-DEF-Pronostico-de-Diciembre-2024-Lluvia.zip"
  then Ok 7%nat else Raise HTTPError.

Definition nothing_published (location : string) : result nat := Raise HTTPError.

(** A working directory /home/u holding the destination Precipitacion. *)
Definition home_world : World :=
  {| fs := {| dirs := {[ ["home"]; ["home"; "u"]; ["home"; "u"; "Precipitacion"] ]};
              files := ∅ |};
     cwd := ["home"; "u"];
     forecast_requests := [];
     excel_writes := [] |}.

(** An archive with one entry that climbs out and one that does not;
    their common prefix is empty, so nothing is stripped. *)
Definition climbing_archive : list ZipInfo :=
  [ {| filename := "../evil.txt"; payload := [Byte.x41] |};
    {| filename := "ok.txt"; payload := [Byte.x42] |} ].

Definition plain_archive : list ZipInfo :=
  [ {| filename := "data/"; payload := [] |};
    {| filename := "data/2019/lluvia.xls"; payload := [Byte.x41] |};
    {| filename := "data/2020.xls"; payload := [Byte.x42] |} ].

(** The table of the latest year and a forecast sub-table aligned with
    it. *)
Definition table_2025 : DataFrame :=
  {| columns := [VStr "estado"; VStr "ene"];
     rows := [(VInt 0, [VStr "AGUASCALIENTES"; VFloat 4627730092099895296]);
              (VInt 1, [VStr "SONORA"; VFloat 4629137466983448576])] |}.

Definition forecast_table : DataFrame :=
  {| columns := [VStr "estado"; VStr "pronostico (mm)"];
     rows := [(VInt 0, [VStr "Aguascalientes"; VFloat 4622945017495814144]);
              (VInt 1, [VStr "Sonora"; VFloat 4625196817309499392])] |}.

(** The forecast bundle of March 2025 as the server sends it, holding
    one table of state statistics whose file name carries a month-name
    that is no key of [month_map]. *)
Definition brumario_csv : DataFrame :=
  {| columns := [VStr "Unnamed: 0"; VStr "CV_ESTADO"; VStr " PRONOSTICO (MM)"];
     rows := [(VInt 0, [VStr "Aguascalientes"; VInt 1; VFloat 4622945017495814144]);
              (VInt 1, [VStr "Sonora"; VInt 26; VFloat 4625196817309499392])] |}.

Definition brumario_bundle : list ZipInfo :=
  [ {| filename := "03-MAM-Pronostico-de-Marzo-2025-Lluvia/"; payload := [] |};
    {| filename := "03-MAM-Pronostico-de-Marzo-2025-Lluvia/MAPAS/Lluvia_Estados_Brumario_2025_MAM.png";
       payload := [Byte.x89] |};
    {| filename := "03-MAM-Pronostico-de-Marzo-2025-Lluvia/ESTADISTICAS/Lluvia_Estados_Brumario_2025_MAM.csv";
       payload := [Byte.x2c] |} ].

Definition bundle_response (url : string) : result (list bytes * option exn) :=
  Ok ([[Byte.x50; Byte.x4b]; []; [Byte.x03]], None).

Definition no_transliteration (c : ascii) : string := String c EmptyString.

Definition month_headers : list string :=
  ["ene"; "feb"; "mar"; "abr"; "may"; "jun"; "jul"; "ago"; "sep"; "oct"; "nov"; "dic"].

Definition month_numbers : list Z := [1; 2; 3; 4; 5; 6; 7; 8; 9; 10; 11; 12].

(** The single-year table of the specification's example: the regions
    Sonora and Nacional, each with its twelve monthly cells and its
    annual total. *)
Definition sonora_nacional (vs ns : list value) : DataFrame :=
  {| columns := map VStr ("estado" :: month_headers ++ ["anual"]);
     rows := [(VInt 0, VStr "Sonora" :: vs); (VInt 1, VStr "Nacional" :: ns)] |}.

(** What it normalises to: one dated row per month with the month
    number, the cell of Sonora and the year. *)
Definition sonora_series (y : Z) (vs : list value) : DataFrame :=
  {| columns := [VStr "month"; VStr "sonora"; VStr "year"];
     rows := map (fun mv => (VTime (first_of_month y (fst mv)),
                             [VInt (fst mv); snd mv; VInt y]))
                 (combine month_numbers vs) |}.

(** Cells of the example: the monthly rainfall of Sonora and of the
    country in 2024 as bit patterns of doubles. *)
Definition sonora_cells : list value :=
  map VFloat [4625759767262920704; 4624070917402656768; 4620693217682128896;
              4616189618054758400; 4611686018427387904; 4621819117588971520;
              4634766966517661696; 4635893966377779200; 4632233691727265792;
              4626322717216342016; 4623507967449235456; 4627448617123184640;
              4645744490609377280].

Definition nacional_cells : list value :=
  map VFloat [4628011567076605952; 4625478292286210048; 4624633867356078080;
              4626041242239631360; 4630544841867001856; 4637088030702567424;
              4638707616191610880; 4638566878703255552; 4639270566145032192;
              4634204016564240384; 4629418941960159232; 4628293042053316608;
              4650248090236747776].

(** A destination directory /home/u/Precipitacion holding the given
    files. *)
Definition directory_world (entries : list (string * bytes)) : World :=
  {| fs := {| dirs := {[ ["home"]; ["home"; "u"]; ["home"; "u"; "Precipitacion"] ]};
              files := list_to_map
                         (map (fun e => (["home"; "u"; "Precipitacion"; fst e], snd e))
                              entries) |};
     cwd := ["home"; "u"];
     forecast_requests := [];
     excel_writes := [] |}.

(** A spreadsheet reader that finds the Sonora table in every file. *)
Definition sonora_reader (engine : string) (data : bytes) : result DataFrame :=
  Ok (sonora_nacional sonora_cells nacional_cells).

Definition rain_banner : string :=
  "precipitacion a nivel nacional y por entidad federativa".
Definition temp_banner : string :=
  "temperatura media promedio a nivel nacional y por entidad federativa".

(** A file system that lists a directory in the order of the model's
    map, and a sorting routine that leaves equal dates in the order of
    its input. *)
Definition listed_as_stored (f : FS) (d : node) : list nat := [].
Definition input_order (rs : list (value * list value)) : list nat := [].

(** A file system that lists a directory of two files the other way
    round. *)
Definition listed_in_reverse (f : FS) (d : node) : list nat := [0%nat].

(** A table of Sonora with the month of January only and a header that
    is no month, and a reader that finds it in every file. *)
Definition sonora_with_notes : DataFrame :=
  {| columns := map VStr ["estado"; "ene"; "notas"; "anual"];
     rows := [(VInt 0, [VStr "Sonora"; VFloat 4625759767262920704;
                        VStr "revisado"; VFloat 4645744490609377280])] |}.

Definition notes_reader (engine : string) (data : bytes) : result DataFrame :=
  Ok sonora_with_notes.

(** A reader that finds in a file a table of Sonora with the month of
    January only, its cell being the size of the file. *)
Definition january_reader (engine : string) (data : bytes) : result DataFrame :=
  Ok {| columns := map VStr ["estado"; "ene"; "anual"];
        rows := [(VInt 0, [VStr "Sonora"; VInt (Z.of_nat (length data)); VNaN])] |}.

(** [process_data] with the default [order_cols] on a directory holding
    the given files, read by [reader] and listed as [iterdir_order]
    says. *)
Definition process_listed (reader : string -> bytes -> result DataFrame)
    (iterdir_order : FS -> node -> list nat) (entries : list (string * bytes))
    : result DataFrame :=
  fst (process_data rain_banner temp_banner ["year"; "month"; "sonora"]
         (fun c => String c EmptyString) (fun _ => "x") (fun _ => "t")
         reader iterdir_order input_order
         (parse_path "Precipitacion") true (directory_world entries)).

(** [process_data] on that directory, with a fixed configuration. *)
Definition process_directory (entries : list (string * bytes)) : result DataFrame :=
  fst (process_data rain_banner temp_banner ["year"; "month"; "sonora"]
         (fun c => String c EmptyString) (fun _ => "x") (fun _ => "t")
         sonora_reader listed_as_stored input_order
         (parse_path "Precipitacion") true (directory_world entries)).

Definition bulletin_reader (url : string) : result DataFrame :=
  Ok (sonora_nacional sonora_cells nacional_cells).

(** A run for the data kind Temperatura on a machine where every
    collaborator answers, the forecast server included. *)
Definition temperature_run (include_pronostico : bool) : result Path * World :=
  download_conagua "https://smn/lluvia.zip" "https://smn/temp.zip"
    "https://smn/boletin/" "https://smn/" 2025 3
    bulletin_reader bundle_response (fun _ => Some plain_archive)
    (fun _ => Ok brumario_csv) (fun _ _ => [Byte.x58])
    no_transliteration (fun _ => "x") (fun _ => "t")
    None "Temperatura" include_pronostico home_world.

(** A date text of the form YYYY-MM-DD as [pd.to_datetime] reads it. *)
Definition parse_iso_date (s : string) : result Timestamp :=
  match s with
  | String y1 (String y2 (String y3 (String y4 (String "-"
      (String m1 (String m2 (String "-" (String d1 (String d2 EmptyString))))))))) =>
      if forallb Py.is_digit [y1; y2; y3; y4; m1; m2; d1; d2]
      then Ok {| ts_year := 1000 * Py.digit_val y1 + 100 * Py.digit_val y2 +
                            10 * Py.digit_val y3 + Py.digit_val y4;
                 ts_month := 10 * Py.digit_val m1 + Py.digit_val m2;
                 ts_day := 10 * Py.digit_val d1 + Py.digit_val d2;
                 ts_nanos := 0 |}
      else Raise (ValueError "Unknown datetime string format")
  | _ => Raise (ValueError "Unknown datetime string format")
  end.

Definition parse_iso_index (labels : list value) : result (list value) :=
  mapM (fun l => match l with
                 | VStr s => t ← parse_iso_date s; Ok (VTime t)
                 | VTime t => Ok (VTime t)
                 | _ => Raise (ValueError "Unknown datetime string format")
                 end) labels.

(** A series as [process_data] returns it, and the same rows indexed by
    date texts, as a table read back from a CSV file is. *)
Definition dated_series : DataFrame :=
  {| columns := [VStr "sonora"];
     rows := [(VTime (first_of_month 2024 1), [VFloat 4625759767262920704]);
              (VTime (first_of_month 2024 2), [VFloat 4624070917402656768])] |}.

Definition text_indexed_series : DataFrame :=
  {| columns := [VStr "sonora"];
     rows := [(VStr "2024-01-01", [VFloat 4625759767262920704]);
              (VStr "2024-02-01", [VFloat 4624070917402656768])] |}.

(** ** The reader ([ReadConaguaDatos]) *)

(** The attributes [__init__] keeps (read_conagua.py, lines 22-29); the
    downloader, the processor and the filter it also keeps are the
    definitions above. *)
Record ReadConaguaDatos : Type := {
  data_type : string;
  start_date : option string;
  end_date : option string;
  directory : option string;
  pronostico : bool
}.

Section Reader.

(** The configuration of the downloader and of the processor, the clock
    and the collaborators of both. *)
Variable rain_url : string.
Variable temp_url : string.
Variable new_info_url : string.
Variable pronostic_url : string.
Variable edge_case_rain : string.
Variable edge_case_temp : string.
Variable order_col : list string.
Variable now_year : Z.
Variable now_month : Z.
Variable read_pdf : string -> result DataFrame.
Variable http_get : string -> result (list bytes * option exn).
Variable zip_parse : bytes -> option (list ZipInfo).
Variable read_csv : bytes -> result DataFrame.
Variable read_excel : string -> bytes -> result DataFrame.
Variable iterdir_order : FS -> node -> list nat.
Variable ties : list (value * list value) -> list nat.
Variable excel_bytes : list value -> list (list value) -> bytes.
Variable csv_bytes : list value -> list (list value) -> bytes.
Variable unidecode_table : ascii -> string.
Variable float_repr : Z -> string.
Variable time_repr : Timestamp -> string.
Variable to_datetime_index : list value -> result (list value).
Variable to_datetime_text : string -> result Timestamp.

(** [filter_data.filtrar_datos(ca_df, ...)] on a table that nothing else
    refers to: the table that the reference returned names. *)
Definition filtrar_datos_table (ca_df : DataFrame) (start_date end_date : option string)
    : result DataFrame :=
  match filtrar_datos to_datetime_index to_datetime_text 1%positive start_date end_date
          {[ 1%positive := ca_df ]} with
  | (Ok l, h) =>
      match h !! l with
      | Some filtered_df => Ok filtered_df
      | None => Raise (OutOfModel "dangling reference")
      end
  | (Raise e, _) => Raise e
  end.

(** [_read_conagua_datos]: [download_conagua] is called without a file
    location, and [process_data] with its default [order_cols=True]. *)
Definition _read_conagua_datos (self : ReadConaguaDatos) : M DataFrame :=
  downloader_directory ←
    download_conagua rain_url temp_url new_info_url pronostic_url now_year now_month
      read_pdf http_get zip_parse read_csv excel_bytes unidecode_table float_repr
      time_repr None (data_type self) (pronostico self);
  ca_df ← process_data edge_case_rain edge_case_temp order_col unidecode_table
            float_repr time_repr read_excel iterdir_order ties
            downloader_directory true;
  lift (filtrar_datos_table ca_df (start_date self) (end_date self)).

(** [get_conagua_df] *)
Definition get_conagua_df (self : ReadConaguaDatos) : M DataFrame :=
  _read_conagua_datos self.

(** [Path(file_location) if file_location else Path.cwd() / default] *)
Definition output_path_of (file_location : option string) (default : string) (w : World)
    : Path :=
  match file_location with
  | Some loc => if nonempty loc then parse_path loc else joinpath (path_cwd w) default
  | None => joinpath (path_cwd w) default
  end.

(** Lines 59-63 of [get_conagua_excel]: the output path and the call of
    the writer. *)
Definition write_excel_output (file_location : option string) (df : DataFrame) : M unit :=
  fun w => to_excel excel_bytes (output_path_of file_location "conagua_data.xlsx" w) df w.

(** [get_conagua_excel] *)
Definition get_conagua_excel (self : ReadConaguaDatos) (file_location : option string)
    : M unit :=
  df ← _read_conagua_datos self;
  write_excel_output file_location df.

(** [df.to_csv(path, index=False)] *)
Definition to_csv (path : Path) (df : DataFrame) : M unit :=
  write_file path (csv_bytes (columns df) (map snd (rows df))).

(** Lines 68-72 of [get_conagua_csv] *)
Definition write_csv_output (file_location : option string) (df : DataFrame) : M unit :=
  fun w => to_csv (output_path_of file_location "conagua_data.csv" w) df w.

(** [get_conagua_csv] *)
Definition get_conagua_csv (self : ReadConaguaDatos) (file_location : option string)
    : M unit :=
  df ← _read_conagua_datos self;
  write_csv_output file_location df.

End Reader.

(** ** Further notions used in the statements *)

(** How a table gets into the dictionary of [get_dataframes_files_path]:
    read under its name from the directory, with the engine that its
    extension selects. *)
Definition loaded_from (read_excel : string -> bytes -> result DataFrame)
    (directory : Path) (w : World) (file : string) (df : DataFrame) : Prop :=
  exists engine data,
    (engine = "xlrd" /\ Py.endswith ".xls" file = true \/
     engine = "openpyxl" /\ Py.endswith ".xls" file = false /\
     Py.endswith ".xlsx" file = true) /\
    read_file (joinpath directory file) w = (Ok data, w) /\
    read_excel engine data = Ok df.

(** [a] and [b] are timestamps and [a] is not later than [b]. *)
Definition not_later (a b : value) : Prop :=
  match a, b with
  | VTime x, VTime y => ts_leb x y = true
  | _, _ => False
  end.

(** The labels are timestamps in chronological order. *)
Definition chronological (labels : list value) : Prop :=
  StronglySorted not_later labels.

(** The label is a timestamp within the optional bounds, ends included. *)
Definition within (s e : option Timestamp) (l : value) : Prop :=
  match l with
  | VTime t =>
      (forall a, s = Some a -> ts_leb a t = true) /\
      (forall b, e = Some b -> ts_leb t b = true)
  | _ => False
  end.

(** From [w] to [w'] nothing was removed: the working directory is the
    same, every directory is still there and every file is still a file
    (its content may have been replaced). *)
Definition nothing_removed (w w' : World) : Prop :=
  cwd w' = cwd w /\
  dirs (fs w) ⊆ dirs (fs w') /\
  forall n, is_file (fs w) n = true -> is_file (fs w') n = true.

(** [m] never removes anything, whatever its outcome. *)
Definition never_removes {A} (m : M A) : Prop :=
  forall w r w', m w = (r, w') -> nothing_removed w w'.

(** [m] asks the forecast server for at most [k] further locations,
    whatever its outcome, and forgets none of those asked before. *)
Definition asks_at_most {A} (k : nat) (m : M A) : Prop :=
  forall w r w', m w = (r, w') ->
    exists asked, forecast_requests w' = forecast_requests w ++ asked /\
                  (length asked <= k)%nat.

(** ** Further concrete inputs *)

(** A run for the data kind lluvia, forecast included, on a machine
    where every collaborator answers. *)
Definition rain_run : result Path * World :=
  download_conagua "https://smn/lluvia.zip" "https://smn/temp.zip"
    "https://smn/boletin/" "https://smn/" 2025 3
    bulletin_reader bundle_response (fun _ => Some brumario_bundle)
    (fun _ => Ok brumario_csv) (fun _ _ => [Byte.x58])
    no_transliteration (fun _ => "x") (fun _ => "t")
    None "lluvia" true home_world.

(** The same machine with a server whose answers are no archives. *)
Definition broken_archive_run : result Path * World :=
  download_conagua "https://smn/lluvia.zip" "https://smn/temp.zip"
    "https://smn/boletin/" "https://smn/" 2025 3
    bulletin_reader bundle_response (fun _ => None)
    (fun _ => Ok brumario_csv) (fun _ _ => [Byte.x58])
    no_transliteration (fun _ => "x") (fun _ => "t")
    None "Temperatura" true home_world.

(** The reader on the machine of [rain_run], with the spreadsheet reader
    of the directory examples and dates in ISO form. *)
Definition reader_on_home (self : ReadConaguaDatos) : M DataFrame :=
  get_conagua_df "https://smn/lluvia.zip" "https://smn/temp.zip"
    "https://smn/boletin/" "https://smn/" rain_banner temp_banner
    ["year"; "month"; "sonora"] 2025 3
    bulletin_reader bundle_response (fun _ => Some brumario_bundle)
    (fun _ => Ok brumario_csv) sonora_reader listed_as_stored input_order
    (fun _ _ => [Byte.x58])
    no_transliteration (fun _ => "x") (fun _ => "t")
    parse_iso_index parse_iso_date self.

Definition excel_on_home (self : ReadConaguaDatos) (file_location : option string)
    : M unit :=
  get_conagua_excel "https://smn/lluvia.zip" "https://smn/temp.zip"
    "https://smn/boletin/" "https://smn/" rain_banner temp_banner
    ["year"; "month"; "sonora"] 2025 3
    bulletin_reader bundle_response (fun _ => Some brumario_bundle)
    (fun _ => Ok brumario_csv) sonora_reader listed_as_stored input_order
    (fun _ _ => [Byte.x58])
    no_transliteration (fun _ => "x") (fun _ => "t")
    parse_iso_index parse_iso_date self file_location.

Definition csv_on_home (self : ReadConaguaDatos) (file_location : option string)
    : M unit :=
  get_conagua_csv "https://smn/lluvia.zip" "https://smn/temp.zip"
    "https://smn/boletin/" "https://smn/" rain_banner temp_banner
    ["year"; "month"; "sonora"] 2025 3
    bulletin_reader bundle_response (fun _ => Some brumario_bundle)
    (fun _ => Ok brumario_csv) sonora_reader listed_as_stored input_order
    (fun _ _ => [Byte.x58])
    (fun _ _ => [Byte.x59])
    no_transliteration (fun _ => "x") (fun _ => "t")
    parse_iso_index parse_iso_date self file_location.

(** A reader of the rain series from February 2024 on, and one with a
    start date that is no date. *)
Definition rain_reader : ReadConaguaDatos :=
  {| data_type := "lluvia"; start_date := Some "2024-02-01"; end_date := None;
     directory := Some "elsewhere"; pronostico := true |}.

Definition misdated_reader : ReadConaguaDatos :=
  {| data_type := "lluvia"; start_date := Some "febrero"; end_date := None;
     directory := None; pronostico := true |}.

(** A server whose answer breaks off after the first chunk of the
    body. *)
Definition broken_response (url : string) : result (list bytes * option exn) :=
  Ok ([[Byte.x50; Byte.x4b]], Some TransferError).

(** * Properties *)

(** ** FallbackRetriever *)

(** C5: one backward step of the retrieval loop yields (year, month-1)
    when month > 1 and (year-1, 12) when month = 1; from (2025, 1) it
    yields (2024, 12); and from any period with month >= 1 the step lands
    exactly one month earlier, so it never moves forward in time. *)
Theorem step_back_one_month_earlier (year month : Z) :
  (1 < month -> step_back year month = (year, month - 1)) /\
  (month = 1 -> step_back year month = (year - 1, 12)) /\
  step_back 2025 1 = (2024, 12) /\
  (1 <= month ->
   period_lt (step_back year month) (year, month) /\
   month_count (step_back year month) = month_count (year, month) - 1).
Proof.
  unfold step_back, period_lt, month_count.
  repeat split.
  - intros H. destruct (Z.ltb_spec (month - 1) 1); [lia | reflexivity].
  - intros ->. reflexivity.
  - destruct (Z.ltb_spec (month - 1) 1); simpl; lia.
  - destruct (Z.ltb_spec (month - 1) 1); simpl; lia.
Qed.

Lemma step_back_one_month_earlier_witness :
  step_back 2025 3 = (2025, 2) /\
  step_back 2025 1 = (2024, 12) /\
  period_lt (step_back 2025 1) (2025, 1).
Proof.
  destruct (step_back_one_month_earlier 2025 3) as (Hgt & _ & _ & _).
  destruct (step_back_one_month_earlier 2025 1) as (_ & Heq & _ & Hlt).
  split; [apply Hgt; lia |].
  split; [apply Heq; reflexivity |].
  apply Hlt; lia.
Defined.

Section FallbackRetrieverProperties.

Variable pronostic_url : string.
Variable dataset : Type.
Variable retrieve : string -> result dataset.

Local Abbreviation url := (_generate_pronostic_url pronostic_url).
Local Abbreviation latest :=
  (get_latest_valid_pronostic pronostic_url dataset retrieve).

(** The loop returns with the fuel it is given, whatever the
    collaborator does: it never runs out. *)
Lemma get_latest_valid_pronostic_returns (now_year now_month : Z) (tipo : string) :
  is_Some (latest now_year now_month tipo).
Proof.
  unfold get_latest_valid_pronostic. simpl.
  destruct (retrieve _); [eauto |].
  destruct (step_back now_year now_month) as [y m].
  simpl. destruct (retrieve _); [eauto |].
  destruct (step_back y m). simpl. eauto.
Qed.

(** It asks for at most [max_attempts] locations. *)
Lemma get_latest_valid_pronostic_bounded (now_year now_month : Z) (tipo : string) r :
  latest now_year now_month tipo = Some r ->
  (length (tried dataset r) <= Z.to_nat max_attempts)%nat.
Proof.
  change (Z.to_nat max_attempts) with 2%nat.
  unfold get_latest_valid_pronostic. simpl.
  destruct (retrieve _); [intros [= <-]; simpl; lia |].
  destruct (step_back now_year now_month) as [y m].
  simpl. destruct (retrieve _); [intros [= <-]; simpl; lia |].
  destruct (step_back y m). simpl. intros [= <-]. simpl. lia.
Qed.

(** C4: with window size 2 and start (2025, 1): when retrieval fails at
    (2025, 1) and succeeds at (2024, 12) the loop returns that result
    after exactly the two attempts (2025, 1), (2024, 12); when it fails
    at both, the loop makes exactly these two attempts and raises an
    error whose text names the window size. *)
Theorem retrieval_window_two (tipo : string) :
  (forall e d,
      retrieve (url 2025 1 tipo) = Raise e ->
      retrieve (url 2024 12 tipo) = Ok d ->
      latest 2025 1 tipo =
        Some {| outcome := Ok d; tried := [url 2025 1 tipo; url 2024 12 tipo] |}) /\
  (forall e1 e2,
      retrieve (url 2025 1 tipo) = Raise e1 ->
      retrieve (url 2024 12 tipo) = Raise e2 ->
      latest 2025 1 tipo =
        Some {| outcome :=
                  Raise (PlainException
                           ("No valid pronostic file found in the last " +:+
                            Py.str_of_Z max_attempts +:+ " months."));
                tried := [url 2025 1 tipo; url 2024 12 tipo] |}).
Proof.
  unfold get_latest_valid_pronostic.
  change (Z.to_nat max_attempts) with 2%nat.
  split.
  - intros e d H1 H2.
    cbn [retrieval_loop]. change (0 <? max_attempts) with true. cbv iota.
    rewrite H1. change (step_back 2025 1) with (2024, 12). cbv iota beta.
    change (0 + 1 <? max_attempts) with true. cbv iota.
    rewrite H2. reflexivity.
  - intros e1 e2 H1 H2.
    cbn [retrieval_loop]. change (0 <? max_attempts) with true. cbv iota.
    rewrite H1. change (step_back 2025 1) with (2024, 12). cbv iota beta.
    change (0 + 1 <? max_attempts) with true. cbv iota.
    rewrite H2. change (step_back 2024 12) with (2024, 11). cbv iota beta.
    reflexivity.
Qed.

End FallbackRetrieverProperties.

Lemma retrieval_window_two_witness :
  get_latest_valid_pronostic "https://smn/" nat only_december_2024 2025 1 "Lluvia" =
    Some {| outcome := Ok 7%nat;
            tried := ["https://smn/01-EFM-Pronostico-de-Enero-2025-Lluvia.zip";
                      "https://smn/12-DEF-Pronostico-de-Diciembre-2024-Lluvia.zip"] |} /\
  get_latest_valid_pronostic "https://smn/" nat nothing_published 2025 1 "Lluvia" =
    Some {| outcome :=
              Raise (PlainException "No valid pronostic file found in the last 2 months.");
            tried := ["https://smn/01-EFM-Pronostico-de-Enero-2025-Lluvia.zip";
                      "https://smn/12-DEF-Pronostico-de-Diciembre-2024-Lluvia.zip"] |}.
Proof.
  split.
  - apply (proj1 (retrieval_window_two "https://smn/" nat only_december_2024 "Lluvia")
             HTTPError 7%nat); reflexivity.
  - apply (proj2 (retrieval_window_two "https://smn/" nat nothing_published "Lluvia")
             HTTPError HTTPError); reflexivity.
Defined.

(** ** ArchiveExtractor: the stripped prefix *)

Lemma startswith_refl (s : string) : Py.startswith s s = true.
Proof. induction s as [|c s IH]; simpl; [reflexivity |]. now rewrite Ascii.eqb_refl. Qed.

Lemma startswith_trans (p q s : string) :
  Py.startswith p q = true -> Py.startswith q s = true -> Py.startswith p s = true.
Proof.
  revert q s. induction p as [|a p IH]; intros q s Hpq Hqs; [reflexivity |].
  destruct q as [|b q]; [discriminate |].
  destruct s as [|c s]; [discriminate |].
  simpl in *.
  destruct (Ascii.eqb_spec a b) as [-> |]; [| discriminate].
  destruct (Ascii.eqb_spec b c) as [-> |]; [| discriminate].
  eauto.
Qed.

Lemma append_String (c : ascii) (s t : string) : String c s +:+ t = String c (s +:+ t).
Proof. reflexivity. Qed.

Lemma startswith_app (p s : string) : Py.startswith p (p +:+ s) = true.
Proof.
  induction p as [|a p IH]; [reflexivity |].
  rewrite append_String. simpl. now rewrite Ascii.eqb_refl.
Qed.

Lemma startswith_drop (p s : string) :
  Py.startswith p s = true -> s = p +:+ Py.drop (String.length p) s.
Proof.
  revert s. induction p as [|a p IH]; intros s H; [reflexivity |].
  destruct s as [|b s]; [discriminate |]. simpl in *.
  destruct (Ascii.eqb_spec a b) as [-> |]; [| discriminate].
  rewrite append_String. f_equal. auto.
Qed.

Lemma lcp_prefix_l (a b : string) : Py.startswith (lcp a b) a = true.
Proof.
  revert b. induction a as [|x a IH]; intros [|y b]; simpl; try reflexivity.
  destruct (Ascii.eqb_spec x y) as [-> |]; simpl; [| reflexivity].
  rewrite Ascii.eqb_refl. apply IH.
Qed.

Lemma lcp_prefix_r (a b : string) : Py.startswith (lcp a b) b = true.
Proof.
  revert b. induction a as [|x a IH]; intros [|y b]; simpl; try reflexivity.
  destruct (Ascii.eqb_spec x y) as [-> |]; simpl; [| reflexivity].
  rewrite Ascii.eqb_refl. apply IH.
Qed.

Lemma lcp_greatest (q a b : string) :
  Py.startswith q a = true -> Py.startswith q b = true ->
  Py.startswith q (lcp a b) = true.
Proof.
  revert a b. induction q as [|c q IH]; intros a b Ha Hb; [reflexivity |].
  destruct a as [|x a]; [discriminate |].
  destruct b as [|y b]; [discriminate |]. simpl in *.
  destruct (Ascii.eqb_spec c x) as [-> |]; [| discriminate].
  destruct (Ascii.eqb_spec x y) as [-> |]; [| discriminate].
  simpl. rewrite Ascii.eqb_refl. auto.
Qed.

Lemma fold_lcp_prefix_acc (r : list string) (a : string) :
  Py.startswith (fold_left lcp r a) a = true.
Proof.
  revert a. induction r as [|x r IH]; intros a; simpl; [apply startswith_refl |].
  eapply startswith_trans; [apply IH | apply lcp_prefix_l].
Qed.

Lemma fold_lcp_prefix_elem (r : list string) (a n : string) :
  In n r -> Py.startswith (fold_left lcp r a) n = true.
Proof.
  revert a. induction r as [|x r IH]; intros a Hn; [destruct Hn |].
  simpl. destruct Hn as [-> | Hn]; [| auto].
  eapply startswith_trans; [apply fold_lcp_prefix_acc | apply lcp_prefix_r].
Qed.

(** [commonprefix] is a prefix of every name ... *)
Lemma commonprefix_is_prefix (names : list string) (n : string) :
  In n names -> Py.startswith (commonprefix names) n = true.
Proof.
  destruct names as [|s r]; [intros [] |].
  intros [<- | Hn]; simpl.
  - apply fold_lcp_prefix_acc.
  - now apply fold_lcp_prefix_elem.
Qed.

(** ... and the longest string that is. *)
Lemma commonprefix_longest (names : list string) (q : string) :
  names <> [] ->
  (forall n, In n names -> Py.startswith q n = true) ->
  Py.startswith q (commonprefix names) = true.
Proof.
  destruct names as [|s r]; [congruence |]. intros _ H. simpl.
  assert (Hs : Py.startswith q s = true) by (apply H; now left).
  assert (Hr : forall n, In n r -> Py.startswith q n = true)
    by (intros n Hn; apply H; now right).
  clear H. revert s Hs. induction r as [|x r IH]; intros s Hs; simpl; [exact Hs |].
  apply IH.
  - intros n Hn. apply Hr. now right.
  - apply lcp_greatest; [exact Hs | apply Hr; now left].
Qed.

Lemma split_nonempty (sep : ascii) (s : string) : Py.split sep s <> [].
Proof.
  induction s as [|c s IH]; simpl; [discriminate |].
  destruct (Ascii.eqb c sep); [discriminate |].
  destruct (Py.split sep s); [contradiction | discriminate].
Qed.

(** The first component of a string holding a separator, followed by
    that separator, is a prefix of the string. *)
Lemma first_component_prefix (s : string) :
  has_separator s = true ->
  Py.startswith (hd EmptyString (Py.split "/" s) +:+ "/") s = true.
Proof.
  induction s as [|c s IH]; [discriminate |].
  cbn [has_separator Py.split].
  destruct (Ascii.eqb_spec c "/") as [-> | Hc].
  - intros _. reflexivity.
  - cbn [orb]. intros Hs.
    pose proof (split_nonempty "/" s) as Hne.
    specialize (IH Hs).
    destruct (Py.split "/" s) as [|w ws]; [contradiction |].
    cbn [hd] in *. rewrite append_String. cbn [Py.startswith].
    now rewrite Ascii.eqb_refl.
Qed.

Lemma endswith_char_has_separator (s : string) :
  Py.endswith_char "/" s = true -> has_separator s = true.
Proof.
  induction s as [|c s IH]; [discriminate |].
  cbn [Py.endswith_char has_separator]. destruct s as [|d s].
  - intros ->. reflexivity.
  - intros H. rewrite (IH H). apply orb_true_r.
Qed.

Lemma drop_all_but_one (s : string) :
  (1 <= String.length s)%nat ->
  String.eqb (Py.drop (String.length s - 1) s) "/" = Py.endswith_char "/" s.
Proof.
  induction s as [|c s IH]; [simpl; lia |].
  intros _. destruct s as [|d s].
  - cbn [String.length Nat.sub Py.drop Py.endswith_char].
    cbn [String.eqb]. destruct (Ascii.eqb c "/"); reflexivity.
  - replace (String.length (String c (String d s)) - 1)%nat
      with (Datatypes.S (String.length (String d s) - 1)) by (simpl; lia).
    cbn [Py.drop Py.endswith_char]. apply IH. simpl; lia.
Qed.

Lemma endswith_separator_has (s : string) :
  Py.endswith "/" s = true -> has_separator s = true.
Proof.
  unfold Py.endswith.
  change (String.length "/") with 1%nat.
  destruct (Nat.leb_spec 1 (String.length s)) as [Hlen |]; [| discriminate].
  rewrite drop_all_but_one by exact Hlen.
  apply endswith_char_has_separator.
Qed.

Lemma stripped_name_prefix (p n : string) :
  Py.startswith p n = true -> n = p +:+ stripped_name p n.
Proof.
  intros H. unfold stripped_name. rewrite H.
  destruct p; [reflexivity |]. simpl nonempty. cbv iota. simpl andb.
  now apply startswith_drop.
Qed.

Lemma has_separator_app (a b : string) :
  has_separator (a +:+ b) = has_separator a || has_separator b.
Proof.
  induction a as [|c a IH]; [reflexivity |].
  rewrite append_String. cbn [has_separator]. rewrite IH. apply orb_assoc.
Qed.

Lemma startswith_has_separator (p s : string) :
  Py.startswith p s = true -> has_separator p = true -> has_separator s = true.
Proof.
  revert s. induction p as [|a p IH]; intros [|b s]; try discriminate.
  cbn [Py.startswith has_separator].
  destruct (Ascii.eqb_spec a b) as [-> | _]; [| discriminate].
  intros Hp Hs. apply orb_true_iff in Hs as [-> | Hs]; [reflexivity |].
  rewrite (IH s Hp Hs). apply orb_true_r.
Qed.




(** ** ArchiveExtractor: where extraction writes *)

Lemma touches_only_refl (N : node -> Prop) (f : FS) : touches_only N f f.
Proof. split; [reflexivity | intros n _; split; auto]. Qed.

Lemma touches_only_trans (N : node -> Prop) (f1 f2 f3 : FS) :
  touches_only N f1 f2 -> touches_only N f2 f3 -> touches_only N f1 f3.
Proof.
  intros [Hd12 H12] [Hd23 H23]. split; [now transitivity (dirs f2) |].
  intros n Hn. destruct (H12 n Hn) as [Ha Hb]. destruct (H23 n Hn) as [Hc Hd].
  split; [auto | congruence].
Qed.

Lemma is_dir_mono (f f' : FS) (n : node) :
  dirs f ⊆ dirs f' -> is_dir f n = true -> is_dir f' n = true.
Proof.
  unfold is_dir. intros Hsub H.
  apply orb_true_iff in H. apply orb_true_iff.
  destruct H as [H | H]; [now left | right].
  apply bool_decide_eq_true in H. apply bool_decide_eq_true. now apply Hsub.
Qed.

Lemma enter_mono (f f' : FS) (cs : list string) (cur d : node) :
  dirs f ⊆ dirs f' -> enter f cur cs = Some d -> enter f' cur cs = Some d.
Proof.
  intros Hsub. revert cur. induction cs as [|c cs IH]; intros cur; simpl; [auto |].
  destruct (is_dir f (walk_step cur c)) eqn:Hd; [| discriminate].
  rewrite (is_dir_mono f f' _ Hsub Hd). apply IH.
Qed.

Lemma enter_walk (f : FS) (cs : list string) (cur d : node) :
  enter f cur cs = Some d -> d = walk cur cs.
Proof.
  revert cur. induction cs as [|c cs IH]; intros cur; simpl.
  - now intros [= <-].
  - destruct (is_dir f (walk_step cur c)); [apply IH | discriminate].
Qed.

Lemma enter_visited (f : FS) (cs : list string) (cur d : node) :
  enter f cur cs = Some d -> forall n, In n (visited cur cs) -> is_dir f n = true.
Proof.
  revert cur. induction cs as [|c cs IH]; intros cur; simpl; [intros _ n [] |].
  destruct (is_dir f (walk_step cur c)) eqn:Hd; [| discriminate].
  intros H n [<- | Hn]; [exact Hd | eauto].
Qed.

Lemma visited_app (cur : node) (a b : list string) :
  visited cur (a ++ b) = visited cur a ++ visited (walk cur a) b.
Proof.
  revert cur. induction a as [|c a IH]; intros cur; simpl; [reflexivity |].
  now rewrite IH.
Qed.

Lemma walk_app (cur : node) (a b : list string) :
  walk cur (a ++ b) = walk (walk cur a) b.
Proof. unfold walk. apply fold_left_app. Qed.

Lemma walk_in_visited (cs : list string) (cur : node) :
  cs <> [] -> In (walk cur cs) (visited cur cs).
Proof.
  revert cur. induction cs as [|c cs IH]; intros cur Hne; [congruence |].
  simpl. destruct cs as [|c' cs]; [now left |].
  right. apply IH. discriminate.
Qed.

Lemma visited_removelast (cs : list string) (cur : node) (n : node) :
  In n (visited cur (removelast cs)) -> In n (visited cur cs).
Proof.
  revert cur. induction cs as [|c cs IH]; intros cur; [auto |].
  destruct cs as [|c' cs]; [intros [] |].
  change (removelast (c :: c' :: cs)) with (c :: removelast (c' :: cs)).
  simpl visited at 1. intros [<- | H]; [now left |].
  right. now apply IH.
Qed.

(** A name that stays below its start only enters locations under it. *)
Lemma stays_below_visited (cs : list string) :
  forall (depth : nat) (base ext : node),
    length ext = depth -> stays_below depth cs = true ->
    forall n, In n (visited (base ++ ext) cs) -> base `prefix_of` n.
Proof.
  induction cs as [|c cs IH]; intros depth base ext Hlen Hs n Hn; [destruct Hn |].
  simpl in Hs, Hn. unfold walk_step in Hn.
  destruct (is_dotdot c).
  - destruct depth as [|d]; [discriminate |].
    destruct (exists_last (l := ext)) as (ext' & x & ->).
    { intros ->. discriminate. }
    rewrite length_app in Hlen. simpl in Hlen.
    rewrite app_assoc, removelast_last in Hn.
    destruct Hn as [<- | Hn]; [now exists ext' |].
    apply (IH d base ext'); [lia | exact Hs | exact Hn].
  - rewrite <- app_assoc in Hn.
    destruct Hn as [<- | Hn]; [now exists (ext ++ [c]) |].
    apply (IH (Datatypes.S depth) base (ext ++ [c])); [| exact Hs | exact Hn].
    rewrite length_app. simpl. lia.
Qed.

Lemma mkdir_walk_touches (N : node -> Prop) (cs : list string) :
  forall (cur : node) (w w' : World) (r : result unit),
    mkdir_walk cur cs w = (r, w') ->
    (forall n, In n (visited cur cs) -> is_dir (fs w) n = true \/ N n) ->
    cwd w' = cwd w /\ touches_only N (fs w) (fs w').
Proof.
  induction cs as [|c cs IH]; intros cur w w' r Hrun Hvis.
  - injection Hrun as _ <-. split; [reflexivity | apply touches_only_refl].
  - simpl in Hrun, Hvis. unfold walk_step in Hvis.
    destruct (is_dotdot c).
    + apply (IH _ _ _ _ Hrun). intros n Hn. apply Hvis. now right.
    + destruct (is_file (fs w) (cur ++ [c])).
      { injection Hrun as _ <-. split; [reflexivity | apply touches_only_refl]. }
      destruct (is_dir (fs w) (cur ++ [c])) eqn:Hd.
      { apply (IH _ _ _ _ Hrun). intros n Hn. apply Hvis. now right. }
      assert (HN : N (cur ++ [c])).
      { destruct (Hvis (cur ++ [c])) as [H | H]; [now left | congruence | exact H]. }
      assert (Hstep : touches_only N (fs w) (add_dir (cur ++ [c]) (fs w))).
      { split; [simpl; apply union_subseteq_r |]. intros n Hn. split; [| reflexivity].
        simpl. intros Hin. apply elem_of_union in Hin as [Hin | Hin]; [| exact Hin].
        apply elem_of_singleton in Hin. subst n. contradiction. }
      destruct (IH _ _ _ _ Hrun) as [Hcwd Hrest].
      { intros n Hn. destruct (Hvis n) as [H | H]; [now right | | now right].
        left. simpl. eapply is_dir_mono; [| exact H]. simpl. apply union_subseteq_r. }
      split; [exact Hcwd |].
      eapply touches_only_trans; [exact Hstep | exact Hrest].
Qed.

Lemma write_file_touches (N : node -> Prop) (p : Path) (data : bytes)
    (w w' : World) (r : result unit) :
  write_file p data w = (r, w') ->
  (parts p <> [] ->
   let n := walk (start_of w p) (parts p) in is_dir (fs w) n = true \/ N n) ->
  cwd w' = cwd w /\ touches_only N (fs w) (fs w').
Proof.
  unfold write_file. intros Hrun Hn.
  assert (Hsame : forall e, (Raise e, w) = (r, w') ->
                            cwd w' = cwd w /\ touches_only N (fs w) (fs w')).
  { intros e [= _ <-]. split; [reflexivity | apply touches_only_refl]. }
  destruct (last (parts p)) as [name|] eqn:Hlast; [| eauto].
  destruct (is_dotdot name) eqn:Hdd; [eauto |].
  destruct (enter (fs w) (start_of w p) (removelast (parts p))) as [d|] eqn:He; [| eauto].
  destruct (is_dir (fs w) (d ++ [name])) eqn:Hd; [eauto |].
  injection Hrun as _ <-. split; [reflexivity |].
  apply last_Some in Hlast as [front Hfront].
  assert (Hd' : d ++ [name] = walk (start_of w p) (parts p)).
  { apply enter_walk in He. rewrite Hfront, removelast_last in He.
    rewrite Hfront, walk_app. simpl. unfold walk_step. rewrite Hdd. now subst d. }
  destruct Hn as [Hn | Hn].
  { rewrite Hfront. now destruct front. }
  { rewrite <- Hd' in Hn. congruence. }
  split; [reflexivity |]. intros n Hnot. split; [auto |].
  simpl. apply lookup_insert_ne. intros <-. apply Hnot. now rewrite Hd'.
Qed.

Lemma reachable_preserved (w w' : World) (p : Path) :
  cwd w' = cwd w -> dirs (fs w) ⊆ dirs (fs w') -> reachable w p -> reachable w' p.
Proof.
  unfold reachable, start_of. intros -> Hsub [d Hd].
  exists d. eapply enter_mono; eauto.
Qed.

Lemma extract_member_touches (dest_dir : Path) (common_prefix : string)
    (member : ZipInfo) (w w' : World) (r : result unit) :
  reachable w dest_dir ->
  confined_name (stripped_name common_prefix (filename member)) = true ->
  extract_member dest_dir common_prefix member w = (r, w') ->
  cwd w' = cwd w /\
  touches_only (fun n => resolve w dest_dir `prefix_of` n) (fs w) (fs w').
Proof.
  intros [d Hreach] Hconf Hrun.
  unfold confined_name in Hconf. apply andb_true_iff in Hconf as [Hrel Hbelow].
  apply negb_true_iff in Hrel.
  unfold extract_member in Hrun.
  set (name := stripped_name common_prefix (filename member)) in *.
  assert (Htarget : joinpath dest_dir name =
                    {| anchored := anchored dest_dir;
                       parts := parts dest_dir ++ parts (parse_path name) |}).
  { unfold joinpath. now rewrite Hrel. }
  rewrite Htarget in Hrun. clear Htarget.
  set (target := {| anchored := anchored dest_dir;
                    parts := parts dest_dir ++ parts (parse_path name) |}) in *.
  set (N := fun n => resolve w dest_dir `prefix_of` n).
  assert (Hstart : forall v, cwd v = cwd w -> start_of v target = start_of w dest_dir).
  { intros v Hv. unfold start_of. simpl. now rewrite Hv. }
  assert (Hvis : forall n, In n (visited (start_of w dest_dir) (parts target)) ->
                           is_dir (fs w) n = true \/ N n).
  { intros n Hn. simpl in Hn. rewrite visited_app in Hn.
    apply in_app_or in Hn as [Hn | Hn].
    - left. eapply enter_visited; eauto.
    - right. unfold N, resolve.
      apply (stays_below_visited (parts (parse_path name)) 0%nat
               (walk (start_of w dest_dir) (parts dest_dir)) []);
        [reflexivity | exact Hbelow |].
      now rewrite app_nil_r. }
  destruct (member_is_dir member).
  - unfold mkdir_p in Hrun. rewrite (Hstart w eq_refl) in Hrun.
    eapply mkdir_walk_touches; eauto.
  - unfold mbind, M_bind in Hrun.
    destruct (mkdir_p (parent target) w) as [r1 w1] eqn:Hmk.
    unfold mkdir_p in Hmk.
    change (start_of w (parent target)) with (start_of w target) in Hmk.
    rewrite (Hstart w eq_refl) in Hmk.
    apply (mkdir_walk_touches N) in Hmk as [Hcwd1 Ht1].
    2:{ intros n Hn. apply Hvis. now apply visited_removelast. }
    destruct r1 as [[]|e].
    + apply (write_file_touches N) in Hrun as [Hcwd2 Ht2].
      * split; [congruence | eapply touches_only_trans; eauto].
      * intros Hne. simpl. rewrite (Hstart w1 Hcwd1).
        destruct (Hvis (walk (start_of w dest_dir) (parts target))) as [H | H].
        { now apply walk_in_visited. }
        { left. eapply is_dir_mono; [apply Ht1 | exact H]. }
        { now right. }
    + injection Hrun as _ <-. auto.
Qed.

Lemma for_each_extract_touches (dest_dir : Path) (common_prefix : string)
    (members : list ZipInfo) :
  forall (w w' : World) (r : result unit),
    reachable w dest_dir ->
    (forall m, In m members ->
               confined_name (stripped_name common_prefix (filename m)) = true) ->
    for_each (extract_member dest_dir common_prefix) members w = (r, w') ->
    cwd w' = cwd w /\
    touches_only (fun n => resolve w dest_dir `prefix_of` n) (fs w) (fs w').
Proof.
  induction members as [|m members IH]; intros w w' r Hreach Hconf Hrun.
  - injection Hrun as _ <-. split; [reflexivity | apply touches_only_refl].
  - simpl in Hrun. unfold mbind, M_bind in Hrun.
    destruct (extract_member dest_dir common_prefix m w) as [r1 w1] eqn:Hm.
    apply extract_member_touches in Hm as [Hcwd1 Ht1];
      [| exact Hreach | apply Hconf; now left].
    destruct r1 as [[]|e].
    + apply IH in Hrun as [Hcwd2 Ht2].
      * split; [congruence |].
        eapply touches_only_trans; [exact Ht1 |].
        replace (resolve w dest_dir) with (resolve w1 dest_dir); [exact Ht2 |].
        unfold resolve, start_of. now rewrite Hcwd1.
      * eapply reachable_preserved; [exact Hcwd1 | apply Ht1 | exact Hreach].
      * intros m' Hm'. apply Hconf. now right.
    + injection Hrun as _ <-. auto.
Qed.

(** C2 (as the code has it): extraction joins the destination with the
    prefix-stripped entry name and checks nothing.  Provided the
    destination directory exists and every stripped entry name is
    relative and never climbs above its start, whatever extraction
    creates or overwrites, also when it stops on an error, lies under
    the destination root. *)
Theorem extraction_confined_for_confined_names
    (w : World) (dest_dir : Path) (members : list ZipInfo) :
  reachable w dest_dir ->
  (forall m, In m members ->
             confined_name
               (stripped_name (common_prefix_of (map filename members)) (filename m))
             = true) ->
  forall n, changed (fs w) (fs (snd (extract_members dest_dir members w))) n ->
            resolve w dest_dir `prefix_of` n.
Proof.
  intros Hreach Hconf n Hch. unfold extract_members in Hch.
  destruct (for_each _ members w) as [r w'] eqn:Hrun.
  apply for_each_extract_touches in Hrun as [_ [Hsub Hout]]; [| exact Hreach | exact Hconf].
  simpl in Hch.
  destruct (decide (resolve w dest_dir `prefix_of` n)) as [Hin | Hnot]; [exact Hin |].
  destruct (Hout n Hnot) as [Hd Hf].
  destruct Hch as [[Hafter Hbefore] | Hfiles]; [tauto | congruence].
Qed.

Lemma extraction_confined_for_confined_names_witness :
  let after := fs (snd (extract_members (parse_path "Precipitacion") plain_archive
                          home_world)) in
  files after !! ["home"; "u"; "Precipitacion"; "2019"; "lluvia.xls"] = Some [Byte.x41] /\
  ["home"; "u"; "Precipitacion"] `prefix_of`
    ["home"; "u"; "Precipitacion"; "2019"; "lluvia.xls"].
Proof.
  cbv zeta.
  assert (Hfile : files (fs (snd (extract_members (parse_path "Precipitacion")
                                    plain_archive home_world)))
                    !! ["home"; "u"; "Precipitacion"; "2019"; "lluvia.xls"]
                  = Some [Byte.x41])
    by (vm_compute; reflexivity).
  split; [exact Hfile |].
  apply (extraction_confined_for_confined_names home_world
           (parse_path "Precipitacion") plain_archive).
  - vm_compute. eauto.
  - intros m Hm. repeat (destruct Hm as [<- | Hm]; [vm_compute; reflexivity |]).
    destruct Hm.
  - right. intros Heq. pose proof (eq_trans (eq_sym Heq) Hfile) as Habs.
    vm_compute in Habs. discriminate.
Defined.

(** C2, as stated, fails: the entry ../evil.txt is written to
    /home/u/evil.txt, beside the destination /home/u/Precipitacion and
    not under it. *)
Lemma traversal_entry_escapes_destination :
  let dest_dir := parse_path "Precipitacion" in
  let after := fs (snd (extract_members dest_dir climbing_archive home_world)) in
  reachable home_world dest_dir /\
  stripped_name (common_prefix_of (map filename climbing_archive)) "../evil.txt"
    = "../evil.txt" /\
  files after !! ["home"; "u"; "evil.txt"] = Some [Byte.x41] /\
  changed (fs home_world) after ["home"; "u"; "evil.txt"] /\
  ~ resolve home_world dest_dir `prefix_of` ["home"; "u"; "evil.txt"].
Proof.
  cbv zeta.
  assert (Hfile : files (fs (snd (extract_members (parse_path "Precipitacion")
                                    climbing_archive home_world)))
                    !! ["home"; "u"; "evil.txt"] = Some [Byte.x41])
    by (vm_compute; reflexivity).
  split; [vm_compute; eauto |].
  split; [reflexivity |].
  split; [exact Hfile |].
  split.
  - right. intros Heq. pose proof (eq_trans (eq_sym Heq) Hfile) as Habs.
    vm_compute in Habs. discriminate.
  - intros [k Hk]. vm_compute in Hk. discriminate.
Qed.

(** ** ForecastMerger *)

Lemma positions_absent (l : value) (cols : list value) :
  label_in l cols = false -> positions l cols = [].
Proof.
  unfold positions, label_in. generalize (seq 0 (length cols)).
  induction cols as [|c cs IH]; intros ns H; [now destruct ns |].
  destruct ns as [|k ns]; [reflexivity |].
  cbn [existsb] in H. apply orb_false_iff in H as [Hc Hcs].
  cbn [combine List.filter snd]. rewrite Hc. now apply IH.
Qed.

(** C3 (as the code has it): the merge of a forecast entry never fails on
    account of the month-name table.  The destination label is the
    table's abbreviation when the month-name is a key and the null label
    None when it is not; for a forecast sub-table that carries the
    forecast column and is aligned with the destination table, the values
    are written under that label as a new column. *)
Theorem merge_entry_writes_under_looked_up_label
    (df pronostic : DataFrame) (key name : string) (series : list (value * value)) :
  Py.split "_" key !! 2%nat = Some name ->
  getitem_series "pronostico (mm)" pronostic = Ok series ->
  map fst series = index df ->
  label_in (label_of_get (month_map !! name)) (columns df) = false ->
  let l := label_of_get (month_map !! name) in
  (month_map !! name = None -> l = VNone) /\
  (forall abbr, month_map !! name = Some abbr -> l = VStr abbr) /\
  merge_entry df key pronostic =
    Ok {| columns := columns df ++ [l];
          rows := map (fun rv => (fst (fst rv), snd (fst rv) ++ [snd rv]))
                      (combine (rows df) (map snd series)) |}.
Proof.
  intros Hname Hseries Hidx Hfresh l.
  split; [intros H; subst l; now rewrite H |].
  split; [intros abbr H; subst l; now rewrite H |].
  unfold merge_entry. rewrite Hname. cbn [mbind result_bind].
  rewrite Hseries. cbn [mbind result_bind].
  unfold setitem_series, align_series.
  rewrite bool_decide_eq_true_2 by exact Hidx. cbn [mbind result_bind].
  fold l in Hfresh |- *.
  now rewrite (positions_absent l (columns df) Hfresh).
Qed.

Lemma merge_entry_writes_under_looked_up_label_witness :
  merge_entry table_2025 "lluvia_2025_brumario" forecast_table =
    Ok {| columns := [VStr "estado"; VStr "ene"; VNone];
          rows := [(VInt 0, [VStr "AGUASCALIENTES"; VFloat 4627730092099895296;
                             VFloat 4622945017495814144]);
                   (VInt 1, [VStr "SONORA"; VFloat 4629137466983448576;
                             VFloat 4625196817309499392])] |} /\
  merge_entry table_2025 "lluvia_2025_marzo" forecast_table =
    Ok {| columns := [VStr "estado"; VStr "ene"; VStr "mar"];
          rows := [(VInt 0, [VStr "AGUASCALIENTES"; VFloat 4627730092099895296;
                             VFloat 4622945017495814144]);
                   (VInt 1, [VStr "SONORA"; VFloat 4629137466983448576;
                             VFloat 4625196817309499392])] |}.
Proof.
  split.
  - apply (merge_entry_writes_under_looked_up_label table_2025 forecast_table
             "lluvia_2025_brumario" "brumario"
             [(VInt 0, VFloat 4622945017495814144);
              (VInt 1, VFloat 4625196817309499392)]); reflexivity.
  - apply (merge_entry_writes_under_looked_up_label table_2025 forecast_table
             "lluvia_2025_marzo" "marzo"
             [(VInt 0, VFloat 4622945017495814144);
              (VInt 1, VFloat 4625196817309499392)]); reflexivity.
Defined.

(** C3, as stated, fails: the bundle yields the key lluvia_2025_brumario,
    whose month-name is not in the table; [add_pronostico] returns
    normally and the forecast values sit in the table of 2025 under the
    column label None. *)
Lemma unmapped_month_name_is_merged_under_none :
  month_map !! "brumario" = None /\
  download_extract_pronostic bundle_response (fun _ => Some brumario_bundle)
    (fun _ => Ok brumario_csv) no_transliteration (fun _ => "x") (fun _ => "t")
    "https://smn/03-MAM-Pronostico-de-Marzo-2025-Lluvia.zip"
    = Ok [("lluvia_2025_brumario", forecast_table)] /\
  fst (add_pronostico "https://smn/" 2025 3
         bundle_response (fun _ => Some brumario_bundle) (fun _ => Ok brumario_csv)
         no_transliteration (fun _ => "x") (fun _ => "t")
         [(2025, table_2025)] home_world) =
    Ok [(2025,
         {| columns := [VStr "estado"; VStr "ene"; VNone];
            rows := [(VInt 0, [VStr "AGUASCALIENTES"; VFloat 4627730092099895296;
                               VFloat 4622945017495814144]);
                     (VInt 1, [VStr "SONORA"; VFloat 4629137466983448576;
                               VFloat 4625196817309499392])] |})].
Proof. repeat split; vm_compute; reflexivity. Qed.

(** ** SchemaNormalizer *)

(** A first-of-month date of a year within the nanosecond range. *)
Lemma to_datetime_ym_ok (y m : Z) :
  1678 <= y <= 2261 -> 1 <= m <= 12 ->
  to_datetime_ym (VInt y) (VInt m) = Ok (VTime (first_of_month y m)).
Proof.
  intros Hy Hm. unfold to_datetime_ym, ts_leb, ts_min, ts_max, first_of_month. simpl.
  repeat match goal with
  | |- context [Z.leb ?a ?b] => destruct (Z.leb_spec a b); try lia
  | |- context [Z.ltb ?a ?b] => destruct (Z.ltb_spec a b); try lia
  end; reflexivity.
Qed.

Section SchemaNormalizerProperties.

Variable edge_case_rain : string.
Variable edge_case_temp : string.
Variable unidecode_table : ascii -> string.
Variable float_repr : Z -> string.
Variable time_repr : Timestamp -> string.

Local Abbreviation clean_data :=
  (_clean_data edge_case_rain edge_case_temp unidecode_table float_repr time_repr).
Local Abbreviation canonical :=
  (canonical_table edge_case_rain edge_case_temp unidecode_table float_repr time_repr).
Local Abbreviation clean :=
  (clean_year edge_case_rain edge_case_temp unidecode_table float_repr time_repr).


End SchemaNormalizerProperties.


(** ** CanonicalSeries: the dates of the normalised tables *)

Lemma bind_Ok {A B} (r : result A) (k : A -> result B) (v : B) :
  r ≫= k = Ok v -> exists a, r = Ok a /\ k a = Ok v.
Proof. destruct r as [a|e]; [eauto | discriminate]. Qed.

Lemma mapM_Ok_Forall2 {A B} (f : A -> result B) (l : list A) (outs : list B) :
  mapM f l = Ok outs -> Forall2 (fun x o => f x = Ok o) l outs.
Proof.
  revert outs. induction l as [|x l IH]; intros outs H.
  - injection H as <-. constructor.
  - cbn [mapM] in H.
    apply bind_Ok in H as (y & Hy & H).
    apply bind_Ok in H as (k & Hk & H).
    injection H as <-. constructor; auto.
Qed.

Lemma map_snd_combine_seq {A} (l : list A) (a : nat) :
  map snd (combine (seq a (length l)) l) = l.
Proof.
  revert a. induction l as [|x l IH]; intros a; [reflexivity |].
  simpl. now rewrite IH.
Qed.

Lemma map_snd_combine_range {A} (l : list A) :
  map snd (combine (range_index (length l)) l) = l.
Proof.
  unfold range_index. generalize 0%nat.
  induction l as [|x l IH]; intros a; [reflexivity |].
  simpl. now rewrite IH.
Qed.

Lemma map_fst_combine_same_length {A B} (l : list A) (k : list B) :
  length l = length k -> map fst (combine l k) = l.
Proof.
  revert k. induction l as [|x l IH]; intros [|y k] H; try discriminate; [reflexivity |].
  simpl. f_equal. apply IH. now injection H.
Qed.

Lemma filtered_combine_sublist {A} (f : nat * A -> bool) (l : list A) (ns : list nat) :
  map snd (List.filter f (combine ns l)) `sublist_of` l.
Proof.
  revert ns. induction l as [|x l IH]; intros [|n ns]; simpl;
    try apply sublist_nil_l.
  destruct (f (n, x)); simpl.
  - apply sublist_skip, IH.
  - apply sublist_cons, IH.
Qed.

Lemma remove_positions_sublist (ps : list nat) (l : list value) :
  remove_positions ps l `sublist_of` l.
Proof. apply filtered_combine_sublist. Qed.

Lemma tl_sublist {A} (l : list A) : tl l `sublist_of` l.
Proof. destruct l; [constructor | now apply sublist_cons]. Qed.

(** A sublist all of whose elements pass a test is a sublist of the
    elements that pass it. *)
Lemma sublist_of_filter {A} (f : A -> bool) (l k : list A) :
  l `sublist_of` k -> Forall (fun x => f x = true) l -> l `sublist_of` List.filter f k.
Proof.
  induction 1 as [|x l k Hs IH|x l k Hs IH]; intros Hall; simpl.
  - constructor.
  - inversion Hall as [|? ? Hx Hl]; subst. rewrite Hx. apply sublist_skip. auto.
  - destruct (f x); [apply sublist_cons |]; auto.
Qed.

(** Positions counted from an offset. *)
Lemma positions_from_absent (l : value) (cols : list value) (ns : list nat) :
  label_in l cols = false ->
  map fst (List.filter (fun p => value_eqb l (snd p)) (combine ns cols)) = [].
Proof.
  revert ns. induction cols as [|c cs IH]; intros ns H; [now destruct ns |].
  destruct ns as [|k ns]; [reflexivity |].
  cbn [existsb label_in] in H. unfold label_in in H. cbn [existsb] in H.
  apply orb_false_iff in H as [Hc Hcs].
  cbn [combine List.filter snd]. rewrite Hc. now apply IH.
Qed.

Lemma positions_cons_other (l c : value) (cs : list value) :
  value_eqb l c = false -> positions l (c :: cs) = map Datatypes.S (positions l cs).
Proof.
  intros Hc. unfold positions. cbn [length seq combine List.filter snd]. rewrite Hc.
  rewrite <- seq_shift.
  generalize (seq 0 (length cs)). intros ns. revert cs.
  induction ns as [|n ns IH]; intros [|d ds]; try reflexivity.
  cbn [map combine List.filter snd]. destruct (value_eqb l d); cbn [map fst]; now rewrite IH.
Qed.

Lemma positions_cons_same (l : value) (cs : list value) :
  label_in l cs = false -> positions l (l :: cs) = [0%nat].
Proof.
  intros H. unfold positions. cbn [length seq combine List.filter snd].
  unfold value_eqb at 1. rewrite bool_decide_eq_true_2 by reflexivity.
  cbn [map fst]. f_equal. now apply positions_from_absent.
Qed.

Lemma combine_app_same_length {A B} (a1 a2 : list A) (b1 b2 : list B) :
  length a1 = length b1 ->
  combine (a1 ++ a2) (b1 ++ b2) = combine a1 b1 ++ combine a2 b2.
Proof.
  revert b1. induction a1 as [|x a1 IH]; intros [|y b1] H; try discriminate; [reflexivity |].
  simpl. f_equal. apply IH. now injection H.
Qed.

Lemma positions_snoc_fresh (l : value) (cs : list value) :
  label_in l cs = false -> positions l (cs ++ [l]) = [length cs].
Proof.
  intros H. unfold positions.
  rewrite length_app, seq_app. cbn [length seq Nat.add].
  rewrite combine_app_same_length by now rewrite length_seq.
  rewrite List.filter_app, map_app.
  rewrite positions_from_absent by exact H.
  cbn [combine List.filter snd]. unfold value_eqb.
  rewrite bool_decide_eq_true_2 by reflexivity. reflexivity.
Qed.

Lemma positions_snoc_other (l c : value) (cs : list value) :
  value_eqb l c = false -> positions l (cs ++ [c]) = positions l cs.
Proof.
  intros H. unfold positions.
  rewrite length_app, seq_app. cbn [length seq Nat.add].
  rewrite combine_app_same_length by now rewrite length_seq.
  rewrite List.filter_app, map_app.
  cbn [combine List.filter snd]. rewrite H. cbn [map]. apply app_nil_r.
Qed.

Lemma positions_in_range (l : value) (cols : list value) (j : nat) :
  In j (positions l cols) -> (j < length cols)%nat.
Proof.
  unfold positions. intros H. apply in_map_iff in H as ([k c] & <- & H).
  apply filter_In in H as [H _]. apply in_combine_l in H.
  apply in_seq in H. simpl. lia.
Qed.

Lemma to_datetime_ym_inv (y : Z) (c d : value) :
  to_datetime_ym (VInt y) c = Ok d ->
  is_month_or_missing c = true /\ d = date_of y c.
Proof.
  unfold to_datetime_ym. destruct c as [s|m|b| | |t|]; try discriminate.
  - destruct (_ && _); [| discriminate]. intros [= <-]. now split.
  - intros [= <-]. now split.
Qed.

Lemma to_datetime_ym_year (c d yc : value) :
  to_datetime_ym yc c = Ok d -> exists y, yc = VInt y.
Proof.
  unfold to_datetime_ym.
  destruct yc as [s|y|b| | |t|]; destruct c as [s'|m|b'| | |t'|];
    try discriminate; eauto.
Qed.

(** After [months_as_rows] the first column is "month", every row holds
    one cell per column, and the month cells are, in order, the headers
    of the input that follow the first one, the annual total left out. *)
Lemma months_as_rows_shape (df out : DataFrame) :
  months_as_rows df = Ok out ->
  exists first cols,
    cols `sublist_of` columns df /\
    columns out = VStr "month" :: first /\
    label_in (VStr "month") first = false /\
    map (fun r => hd VNaN (snd r)) (rows out) = tl cols /\
    Forall (fun r => length (snd r) = Datatypes.S (length first)) (rows out).
Proof.
  unfold months_as_rows. intros H.
  apply bind_Ok in H as (df1 & H1 & H).
  apply bind_Ok in H as (df2 & H2 & H).
  apply bind_Ok in H as (first & H3 & H).
  assert (Hc1 : columns df1 `sublist_of` columns df).
  { unfold drop_column in H1. destruct (positions _ _) as [|p ps]; [discriminate |].
    injection H1 as <-. apply remove_positions_sublist. }
  assert (Hc2 : columns df2 = columns df1).
  { unfold drop_nacional in H2. apply bind_Ok in H2 as (j & _ & H2).
    now injection H2 as <-. }
  unfold reset_index_names in H.
  destruct (label_in (VStr "month") _) eqn:Hmonth; [discriminate |].
  injection H as <-. cbn [columns rows set_columns iloc_from1] in *.
  unfold iloc0 in H3. cbn [rows transpose] in H3.
  set (n := length (rows df2)) in *.
  set (trows := map (fun p : nat * value =>
                       (snd p, map (fun r : value * list value => cell (snd r) (fst p))
                                   (rows df2)))
                    (combine (seq 0 (length (columns df2))) (columns df2))) in *.
  assert (Hlen : Forall (fun r => length (snd r) = n) trows).
  { apply List.Forall_forall. intros r Hr. unfold trows in Hr.
    apply in_map_iff in Hr as (p & <- & _). simpl. apply length_map. }
  assert (Hfst : map fst trows = columns df2).
  { unfold trows. rewrite map_map. simpl.
    apply (map_snd_combine_seq (columns df2) 0). }
  destruct trows as [|r0 trows'] eqn:Ht; [discriminate |].
  injection H3 as <-. cbn [tl].
  inversion Hlen as [|? ? Hr0 Hrest]; subst.
  exists (snd r0), (columns df2). rewrite Hc2.
  split; [exact Hc1 |].
  split; [reflexivity |].
  split; [exact Hmonth |].
  split.
  - rewrite <- Hc2, <- Hfst. cbn [map tl].
    rewrite <- (map_map snd (hd VNaN)).
    rewrite <- (length_map (fun r : value * list value => fst r :: snd r) trows').
    rewrite map_snd_combine_range. rewrite map_map. reflexivity.
  - apply List.Forall_forall. intros r Hr.
    apply (in_map snd) in Hr.
    rewrite <- (length_map (fun r : value * list value => fst r :: snd r) trows') in Hr.
    rewrite map_snd_combine_range in Hr.
    apply in_map_iff in Hr as (r' & Hr' & Hin). rewrite <- Hr'. simpl. f_equal.
    rewrite List.Forall_forall in Hrest. rewrite Hr0. now apply Hrest.
Qed.

Lemma positions_present (l : value) (cols : list value) :
  label_in l cols = true -> positions l cols <> [].
Proof.
  unfold positions, label_in. generalize 0%nat.
  induction cols as [|c cs IH]; intros a H; [discriminate |].
  cbn [existsb] in H. cbn [length seq combine List.filter snd].
  destruct (value_eqb l c); [discriminate |].
  apply (IH (Datatypes.S a)). exact H.
Qed.

Lemma nth_insert_same {A} (l : list A) (j : nat) (v d : A) :
  (j < length l)%nat -> nth j (<[j := v]> l) d = v.
Proof.
  revert j. induction l as [|x l IH]; intros [|j] H; simpl in *; try lia; [reflexivity |].
  apply IH. lia.
Qed.

Lemma nth_insert_other {A} (l : list A) (i j : nat) (v d : A) :
  i <> j -> nth i (<[j := v]> l) d = nth i l d.
Proof.
  revert i j. induction l as [|x l IH]; intros [|i] [|j] H; simpl; try reflexivity; try lia.
  apply IH. lia.
Qed.

Lemma dates_of_rows (y : Z) (jy : nat) (rs : list (value * list value))
    (dates : list value) :
  mapM (fun r => to_datetime_ym (cell (snd r) jy) (cell (snd r) 0)) rs = Ok dates ->
  Forall (fun r => cell (snd r) jy = VInt y) rs ->
  Forall (fun r => is_month_or_missing (cell (snd r) 0) = true) rs /\
  dates = map (fun r => date_of y (cell (snd r) 0)) rs /\
  length dates = length rs.
Proof.
  revert dates. induction rs as [|r rs IH]; intros dates H Hy.
  - injection H as <-. now repeat split.
  - cbn [mapM] in H.
    apply bind_Ok in H as (d & Hd & H).
    apply bind_Ok in H as (ds & Hds & H).
    injection H as <-.
    inversion Hy as [|? ? Hr Hrs]; subst.
    rewrite Hr in Hd. apply to_datetime_ym_inv in Hd as (Hm & ->).
    destruct (IH ds Hds Hrs) as (Hcells & -> & Hlen).
    split; [now constructor |].
    split; [reflexivity |]. cbn [map length]. now f_equal.
Qed.

(** The index [index_by_date] builds: the first of the month of the given
    year, for the month cell of each row. *)
Lemma index_by_date_dates (y : Z) (df out : DataFrame) (first : list value) :
  columns df = VStr "month" :: first ->
  label_in (VStr "month") first = false ->
  Forall (fun r => length (snd r) = Datatypes.S (length first)) (rows df) ->
  index_by_date y df = Ok out ->
  Forall (fun c => is_month_or_missing c = true)
         (map (fun r => hd VNaN (snd r)) (rows df)) /\
  index out = map (date_of y) (map (fun r => hd VNaN (snd r)) (rows df)).
Proof.
  intros Hcols Hmonth Hwf H. unfold index_by_date in H.
  apply bind_Ok in H as (dates & Hdates & H). injection H as <-.
  assert (Hhd : forall r : value * list value,
             In r (rows df) -> cell (snd r) 0 = hd VNaN (snd r) /\ snd r <> []).
  { intros r Hr. rewrite List.Forall_forall in Hwf. specialize (Hwf r Hr).
    destruct (snd r); [discriminate | split; [reflexivity | discriminate]]. }
  assert (Hshape : exists jy g,
             positions (VStr "year") (columns (setitem_scalar (VStr "year") (VInt y) df))
               = [jy] /\
             positions (VStr "month") (columns (setitem_scalar (VStr "year") (VInt y) df))
               = [0%nat] /\
             rows (setitem_scalar (VStr "year") (VInt y) df) = map g (rows df) /\
             forall r, In r (rows df) ->
                       cell (snd (g r)) jy = VInt y /\
                       cell (snd (g r)) 0 = hd VNaN (snd r)).
  { unfold setitem_scalar.
    destruct (label_in (VStr "year") (columns df)) eqn:Hyear.
    - pose proof (positions_present _ _ Hyear) as Hne.
      unfold to_datetime_year_month, setitem_scalar in Hdates.
      destruct (positions (VStr "year") (columns df)) as [|jy ps] eqn:Hps; [congruence |].
      cbn [columns] in Hdates. rewrite Hps in Hdates.
      assert (Hm0 : positions (VStr "month") (columns df) = [0%nat])
        by (rewrite Hcols; now apply positions_cons_same).
      rewrite Hm0 in Hdates.
      destruct ps as [|j2 ps]; [| discriminate].
      assert (Hjy : In jy (positions (VStr "year") (columns df)))
        by (rewrite Hps; now left).
      pose proof (positions_in_range _ _ _ Hjy) as Hrange.
      rewrite Hcols, positions_cons_other in Hjy by reflexivity.
      apply in_map_iff in Hjy as (k & <- & _).
      exists (Datatypes.S k),
             (fun r => (fst r, fold_right (fun j acc => set_cell j (VInt y) acc)
                                         (snd r) [Datatypes.S k])).
      cbn [columns rows]. rewrite Hps.
      repeat split; try assumption; try reflexivity.
      + cbn [snd fold_right]. unfold cell, set_cell. apply nth_insert_same.
        rewrite List.Forall_forall in Hwf. rewrite (Hwf r H).
        rewrite Hcols in Hrange. exact Hrange.
      + cbn [snd fold_right]. unfold cell at 1, set_cell.
        rewrite nth_insert_other by discriminate. now apply Hhd.
    - rewrite (positions_absent _ _ Hyear).
      exists (length (columns df)), (fun r => (fst r, snd r ++ [VInt y])).
      cbn [columns rows].
      split; [now apply positions_snoc_fresh |].
      split.
      { rewrite positions_snoc_other by reflexivity. rewrite Hcols.
        now apply positions_cons_same. }
      split; [reflexivity |].
      intros r Hr. cbn [snd]. unfold cell. split.
      + rewrite List.Forall_forall in Hwf. specialize (Hwf r Hr).
        replace (length (columns df)) with (length (snd r))
          by (rewrite Hwf, Hcols; reflexivity).
        apply nth_middle.
      + destruct (Hhd r Hr) as [_ Hne]. now destruct (snd r). }
  destruct Hshape as (jy & g & Hjy & Hjm & Hrows & Hg).
  unfold to_datetime_year_month in Hdates. rewrite Hjy, Hjm, Hrows in Hdates.
  apply (dates_of_rows y) in Hdates as (Hcells & -> & Hlen).
  2:{ apply List.Forall_forall. intros r' Hr'.
      apply in_map_iff in Hr' as (r & <- & Hr). now apply Hg. }
  split.
  - apply List.Forall_forall. intros c Hc.
    apply in_map_iff in Hc as (r & <- & Hr).
    rewrite <- (proj2 (Hg r Hr)).
    apply (proj1 (List.Forall_forall _ _) Hcells (g r)). now apply in_map.
  - unfold index, set_index. cbn [rows]. rewrite Hrows.
    rewrite map_fst_combine_same_length
      by (rewrite !length_map; reflexivity).
    rewrite !map_map. apply map_ext_in. intros r Hr. f_equal. now apply Hg.
Qed.

Lemma NoDup_map_injective {A B} (f : A -> B) (l : list A) :
  (forall x y, f x = f y -> x = y) -> NoDup l -> NoDup (map f l).
Proof.
  intros Hinj. induction 1 as [|x l Hx Hl IH]; simpl; constructor; [| exact IH].
  rewrite list_elem_of_In. intros Hin. apply in_map_iff in Hin as (z & Hz & Hin).
  apply Hinj in Hz. subst z. apply Hx. now apply list_elem_of_In.
Qed.

Lemma NoDup_map_inverse {A B} (f : A -> B) (l : list A) :
  NoDup (map f l) -> NoDup l.
Proof.
  induction l as [|x l IH]; simpl; intros H; constructor;
    apply NoDup_cons in H as [Hx Hl]; [| auto].
  intros Hin. apply Hx. apply list_elem_of_In. apply in_map.
  now apply list_elem_of_In.
Qed.

Lemma index_flat_map_rows (frames : list DataFrame) :
  map fst (flat_map rows frames) = flat_map index frames.
Proof.
  induction frames as [|f frames IH]; [reflexivity |].
  simpl. rewrite map_app. now rewrite IH.
Qed.

Lemma index_flat_map_reindexed (g : DataFrame -> list value -> list value)
    (frames : list DataFrame) :
  map fst (flat_map (fun d => map (fun r => (fst r, g d (snd r))) (rows d)) frames)
  = flat_map index frames.
Proof.
  induction frames as [|f frames IH]; [reflexivity |].
  simpl. rewrite map_app, IH. f_equal.
  unfold index. rewrite map_map. reflexivity.
Qed.

Lemma concat_index (frames : list DataFrame) (out : DataFrame) :
  concat frames = Ok out -> index out = flat_map index frames.
Proof.
  unfold concat. destruct frames as [|d ds]; [discriminate |].
  destruct (forallb _ ds).
  - intros [= <-]. apply (index_flat_map_rows (d :: ds)).
  - destruct (forallb _ (d :: ds)); [| discriminate].
    intros [= <-].
    apply (index_flat_map_reindexed
             (fun d' => reindex_row (columns d') (union_columns (d :: ds))) (d :: ds)).
Qed.

(** The orders left open: a choice rearranges and nothing more, and any
    arrangement is some choice. *)
Lemma exchange_perm {A} (k : nat) (l : list A) : exchange k l ≡ₚ l.
Proof.
  revert k. induction l as [|a r IH]; intros k; [reflexivity |].
  destruct k as [|k]; cbn [exchange].
  - destruct r as [|b r']; [reflexivity | apply Permutation_swap].
  - now rewrite IH.
Qed.

Lemma rearrange_perm {A} (choice : list nat) (l : list A) : rearrange choice l ≡ₚ l.
Proof.
  unfold rearrange. revert l.
  induction choice as [|k choice IH]; intros l; [reflexivity |].
  cbn [fold_left]. rewrite IH. apply exchange_perm.
Qed.

Lemma rearrange_cons {A} (choice : list nat) (a : A) (l : list A) :
  rearrange (map Datatypes.S choice) (a :: l) = a :: rearrange choice l.
Proof.
  unfold rearrange. revert l.
  induction choice as [|k choice IH]; intros l; [reflexivity |].
  cbn [map fold_left exchange]. apply IH.
Qed.

Lemma rearrange_any {A} (l l' : list A) :
  l ≡ₚ l' -> exists choice, rearrange choice l = l'.
Proof.
  induction 1 as [|a l l' _ [c IH]|a b l|l1 l2 l3 _ [c1 IH1] _ [c2 IH2]].
  - now exists [].
  - exists (map Datatypes.S c). now rewrite rearrange_cons, IH.
  - now exists [0%nat].
  - exists (c1 ++ c2). unfold rearrange in *. now rewrite fold_left_app, IH1.
Qed.

Lemma insert_row_perm (r : value * list value) (rs : list (value * list value)) :
  insert_row r rs ≡ₚ r :: rs.
Proof.
  induction rs as [|r' rs IH]; simpl; [reflexivity |].
  destruct (_ && _); [reflexivity |].
  rewrite IH. apply Permutation_swap.
Qed.

Lemma sort_rows_perm (rs : list (value * list value)) : sort_rows rs ≡ₚ rs.
Proof.
  unfold sort_rows.
  assert (H : forall acc, fold_left (fun acc r => insert_row r acc) rs acc ≡ₚ rs ++ acc).
  { induction rs as [|r rs IH]; intros acc; simpl; [reflexivity |].
    rewrite IH, insert_row_perm. symmetry. apply Permutation_middle. }
  rewrite H. now rewrite app_nil_r.
Qed.

Lemma sort_index_rows (ties : list (value * list value) -> list nat)
    (df out : DataFrame) :
  sort_index ties df = Ok out ->
  columns out = columns df /\ rows out ≡ₚ rows df /\
  Forall (fun l => is_time_or_nat l = true) (index df).
Proof.
  unfold sort_index. destruct (forallb _ _) eqn:Hall; [| discriminate].
  intros [= <-]. cbn [columns rows]. split; [reflexivity |]. split.
  - rewrite sort_rows_perm. apply rearrange_perm.
  - apply List.Forall_forall. now apply forallb_forall.
Qed.

Lemma sort_index_perm (ties : list (value * list value) -> list nat)
    (df out : DataFrame) :
  sort_index ties df = Ok out -> index out ≡ₚ index df.
Proof.
  intros H. apply sort_index_rows in H as (_ & H & _).
  unfold index. now apply Permutation_map.
Qed.

(** The order of sorted dates. *)
Lemma ts_leb_spec (a b : Timestamp) :
  ts_leb a b = true <->
  ts_year a < ts_year b \/
  (ts_year a = ts_year b /\
   (ts_month a < ts_month b \/
    (ts_month a = ts_month b /\
     (ts_day a < ts_day b \/ (ts_day a = ts_day b /\ ts_nanos a <= ts_nanos b))))).
Proof.
  unfold ts_leb.
  destruct (Z.ltb_spec (ts_year a) (ts_year b)); [intuition lia |].
  destruct (Z.ltb_spec (ts_year b) (ts_year a)); [split; [discriminate | lia] |].
  destruct (Z.ltb_spec (ts_month a) (ts_month b)); [intuition lia |].
  destruct (Z.ltb_spec (ts_month b) (ts_month a)); [split; [discriminate | lia] |].
  destruct (Z.ltb_spec (ts_day a) (ts_day b)); [intuition lia |].
  destruct (Z.ltb_spec (ts_day b) (ts_day a)); [split; [discriminate | lia] |].
  rewrite Z.leb_le. lia.
Qed.

Lemma ts_leb_trans (a b c : Timestamp) :
  ts_leb a b = true -> ts_leb b c = true -> ts_leb a c = true.
Proof. rewrite !ts_leb_spec. lia. Qed.

Lemma ts_leb_total (a b : Timestamp) : ts_leb a b = false -> ts_leb b a = true.
Proof.
  intros H. assert (Hn : ~ ts_leb a b = true) by congruence.
  rewrite ts_leb_spec in *. lia.
Qed.

Lemma ts_leb_antisym (a b : Timestamp) :
  ts_leb a b = true -> ts_leb b a = true -> a = b.
Proof.
  rewrite !ts_leb_spec. intros H1 H2.
  destruct a, b; simpl in *.
  f_equal; lia.
Qed.

Lemma label_leb_trans (a b c : value) :
  is_time_or_nat b = true ->
  label_leb a b = true -> label_leb b c = true -> label_leb a c = true.
Proof.
  destruct a, b, c; cbn [label_leb is_time_or_nat]; try discriminate; try reflexivity.
  intros _. apply ts_leb_trans.
Qed.

Lemma label_leb_total (a b : value) : label_leb a b = false -> label_leb b a = true.
Proof.
  destruct a, b; cbn [label_leb]; try discriminate; try reflexivity.
  apply ts_leb_total.
Qed.

Lemma label_leb_antisym (a b : value) :
  is_time_or_nat a = true -> is_time_or_nat b = true ->
  label_leb a b = true -> label_leb b a = true -> a = b.
Proof.
  destruct a, b; cbn [label_leb is_time_or_nat]; try discriminate; try reflexivity.
  intros _ _ H1 H2. f_equal. now apply ts_leb_antisym.
Qed.

Lemma insert_row_sorted (r : value * list value) (rs : list (value * list value)) :
  Forall (fun x => is_time_or_nat (fst x) = true) (r :: rs) ->
  sorted_labels (map fst rs) ->
  sorted_labels (map fst (insert_row r rs)).
Proof.
  unfold sorted_labels. intros Hall.
  inversion Hall as [|? ? Hr Hrs]; subst. clear Hall.
  induction rs as [|r' rs IH]; intros Hs.
  - cbn. constructor; constructor.
  - inversion Hrs as [|? ? Hr' Hrs']; subst.
    cbn [map] in Hs. apply StronglySorted_inv in Hs as [Hs Hle].
    cbn [insert_row].
    destruct (label_leb (fst r) (fst r') && negb (label_leb (fst r') (fst r))) eqn:Hc.
    + apply andb_true_iff in Hc as [Hc _].
      cbn [map]. constructor.
      * now constructor.
      * constructor; [exact Hc |].
        eapply List.Forall_impl; [| exact Hle].
        intros x Hx. now apply (label_leb_trans _ (fst r')).
    + cbn [map]. constructor.
      * now apply IH.
      * apply (Permutation_Forall
                 (Permutation_sym (Permutation_map fst (insert_row_perm r rs)))).
        cbn [map]. constructor; [| exact Hle].
        destruct (label_leb (fst r) (fst r')) eqn:H1; [| now apply label_leb_total].
        cbn [andb] in Hc. now apply negb_false_iff in Hc.
Qed.

Lemma sort_rows_sorted (rs : list (value * list value)) :
  Forall (fun x => is_time_or_nat (fst x) = true) rs ->
  sorted_labels (map fst (sort_rows rs)).
Proof.
  unfold sort_rows.
  assert (H : forall acc,
             Forall (fun x => is_time_or_nat (fst x) = true) rs ->
             Forall (fun x => is_time_or_nat (fst x) = true) acc ->
             sorted_labels (map fst acc) ->
             sorted_labels (map fst (fold_left (fun acc r => insert_row r acc) rs acc))).
  { induction rs as [|r rs IH]; intros acc Hrs Hacc Hs; [exact Hs |].
    inversion Hrs; subst. cbn [fold_left]. apply IH; [assumption | |].
    - apply (Permutation_Forall (Permutation_sym (insert_row_perm r acc))).
      now constructor.
    - apply insert_row_sorted; [now constructor | exact Hs]. }
  intros Hrs. apply H; [exact Hrs | constructor | constructor].
Qed.

Lemma sort_index_sorted (ties : list (value * list value) -> list nat)
    (df out : DataFrame) :
  sort_index ties df = Ok out ->
  sorted_labels (index out) /\ Forall (fun l => is_time_or_nat l = true) (index out).
Proof.
  intros H. pose proof (sort_index_rows _ _ _ H) as (_ & Hperm & Hall).
  unfold sort_index in H. destruct (forallb _ _); [| discriminate].
  injection H as <-. unfold index in *. cbn [rows] in *. split.
  - apply sort_rows_sorted.
    apply (Permutation_Forall (Permutation_sym (rearrange_perm _ _))).
    apply List.Forall_forall. intros x Hx.
    apply (proj1 (List.Forall_forall _ _) Hall). now apply in_map.
  - apply (Permutation_Forall (Permutation_sym (Permutation_map fst Hperm))).
    exact Hall.
Qed.

(** Rows in sorted order with pairwise distinct dates are determined by
    what they are, whatever order they came in. *)
Lemma sorted_rows_unique (rs1 rs2 : list (value * list value)) :
  rs1 ≡ₚ rs2 ->
  Forall (fun x => is_time_or_nat (fst x) = true) rs1 ->
  NoDup (map fst rs1) ->
  sorted_labels (map fst rs1) -> sorted_labels (map fst rs2) ->
  rs1 = rs2.
Proof.
  unfold sorted_labels.
  revert rs2. induction rs1 as [|r rs1 IH]; intros rs2 Hperm Hall Hnd Hs1 Hs2.
  - apply Permutation_nil in Hperm. now subst.
  - destruct rs2 as [|r' rs2].
    { apply Permutation_sym, Permutation_nil in Hperm. discriminate. }
    cbn [map] in *.
    apply StronglySorted_inv in Hs1 as [Hs1 Hle1].
    apply StronglySorted_inv in Hs2 as [Hs2 Hle2].
    apply NoDup_cons in Hnd as [Hfresh Hnd].
    inversion Hall as [|? ? Hr Hall']; subst.
    assert (Heq : r = r').
    { assert (Hin : In r (r' :: rs2))
        by (apply (Permutation_in _ Hperm); now left).
      assert (Hin' : In r' (r :: rs1))
        by (apply (Permutation_in _ (Permutation_sym Hperm)); now left).
      destruct Hin as [<- | Hin]; [reflexivity |].
      destruct Hin' as [-> | Hin']; [reflexivity |].
      exfalso. apply Hfresh. apply list_elem_of_In.
      assert (fst r = fst r') as ->; [| now apply in_map].
      apply label_leb_antisym.
      - exact Hr.
      - apply (proj1 (List.Forall_forall _ _) Hall' r' Hin').
      - apply (proj1 (List.Forall_forall _ _) Hle1). now apply in_map.
      - apply (proj1 (List.Forall_forall _ _) Hle2). now apply in_map. }
    subst r'. f_equal.
    apply IH; try assumption. now apply Permutation_cons_inv in Hperm.
Qed.

Lemma select_columns_index (labels : list string) (df out : DataFrame) :
  select_columns labels df = Ok out -> index out = index df.
Proof.
  unfold select_columns. destruct (List.filter _ labels); [| discriminate].
  intros [= <-]. unfold index. cbn [rows]. now rewrite map_map.
Qed.

(** The dates among the labels [date_of] gives are those of the month
    numbers. *)
Lemma dated_of_months (y : Z) (cs : list value) :
  List.filter is_time (map (date_of y) cs) =
  map (date_of y) (List.filter (fun l => match l with VInt _ => true | _ => false end) cs).
Proof.
  induction cs as [|c cs IH]; [reflexivity |].
  cbn [map List.filter]. rewrite IH. now destruct c.
Qed.

Lemma date_of_is_time_or_nat (y : Z) (cs : list value) :
  Forall (fun l => is_time_or_nat l = true) (map (date_of y) cs).
Proof.
  apply List.Forall_forall. intros l Hl. apply in_map_iff in Hl as (c & <- & _).
  now destruct c.
Qed.

Lemma date_of_all_times (y : Z) (cs : list value) :
  ~ In VNaN cs -> Forall (fun c => is_month_or_missing c = true) cs ->
  Forall (fun l => is_time l = true) (map (date_of y) cs).
Proof.
  intros Hno Hall. apply List.Forall_forall. intros l Hl.
  apply in_map_iff in Hl as (c & <- & Hc).
  pose proof (proj1 (List.Forall_forall _ _) Hall c Hc) as Hm.
  destruct c; try discriminate; [reflexivity | contradiction].
Qed.

Lemma filter_sublist {A} (f : A -> bool) (l : list A) : List.filter f l `sublist_of` l.
Proof.
  induction l as [|x l IH]; [constructor |].
  cbn [List.filter]. destruct (f x); [now apply sublist_skip | now apply sublist_cons].
Qed.

Lemma sublist_In {A} (l k : list A) (x : A) : l `sublist_of` k -> In x l -> In x k.
Proof.
  intros Hs Hx. apply list_elem_of_In. apply list_elem_of_In in Hx.
  exact (elem_of_sublist _ _ _ Hx Hs).
Qed.

Lemma filter_perm {A} (f : A -> bool) (l l' : list A) :
  l ≡ₚ l' -> List.filter f l ≡ₚ List.filter f l'.
Proof.
  induction 1 as [|x l l' _ IH|x y l|l1 l2 l3 _ IH1 _ IH2].
  - reflexivity.
  - cbn [List.filter]. destruct (f x); [now constructor | exact IH].
  - cbn [List.filter]. destruct (f x), (f y); try reflexivity. apply Permutation_swap.
  - now transitivity (List.filter f l2).
Qed.

Lemma date_of_NoDup (y : Z) (ms : list value) :
  NoDup ms ->
  Forall (fun l => match l with VInt _ => true | _ => false end = true) ms ->
  NoDup (map (date_of y) ms).
Proof.
  induction 1 as [|c ms Hc Hnd IH]; intros Hall; [constructor |].
  inversion Hall as [|? ? Hci Hall']; subst.
  cbn [map]. constructor; [| now apply IH].
  rewrite list_elem_of_In. intros Hin.
  apply in_map_iff in Hin as (c' & Heq & Hin).
  apply Hc. apply list_elem_of_In.
  pose proof (proj1 (List.Forall_forall _ _) Hall' c' Hin) as Hc'i.
  destruct c, c'; try discriminate. injection Heq as ->. exact Hin.
Qed.

Section CanonicalSeriesProperties.

Variable edge_case_rain : string.
Variable edge_case_temp : string.
Variable order_col : list string.
Variable unidecode_table : ascii -> string.
Variable float_repr : Z -> string.
Variable time_repr : Timestamp -> string.
Variable read_excel : string -> bytes -> result DataFrame.
Variable iterdir_order : FS -> node -> list nat.
Variable ties : list (value * list value) -> list nat.

Local Abbreviation canonical :=
  (canonical_table edge_case_rain edge_case_temp unidecode_table float_repr time_repr).
Local Abbreviation clean :=
  (clean_year edge_case_rain edge_case_temp unidecode_table float_repr time_repr).
Local Abbreviation tables :=
  (process_tables edge_case_rain edge_case_temp order_col unidecode_table
     float_repr time_repr ties).
Local Abbreviation load := (load_directory read_excel iterdir_order).
Local Abbreviation process :=
  (process_data edge_case_rain edge_case_temp order_col unidecode_table
     float_repr time_repr read_excel iterdir_order ties).

Lemma canonical_table_year (name : string) (df T : DataFrame) (y : Z) :
  canonical name df = Ok (y, T) -> search_year name = Some y.
Proof.
  unfold canonical_table. intros H.
  apply bind_Ok in H as (lower_cols & _ & H).
  apply bind_Ok in H as (year_int & Hy & H).
  apply bind_Ok in H as (df1 & _ & H).
  apply bind_Ok in H as (df2 & _ & H).
  injection H as -> _.
  destruct (search_year name); [now injection Hy as -> | discriminate].
Qed.

(** The labels of one normalised table: for each header of the canonical
    table that is a month number or unknown, in header order, the first
    of that month in the year of the file name, or the missing date. *)
Lemma clean_year_dates (name : string) (df out : DataFrame) :
  clean name df = Ok out ->
  exists y T cs,
    canonical name df = Ok (y, T) /\
    search_year name = Some y /\
    index out = map (date_of y) cs /\
    cs `sublist_of` List.filter is_month_or_missing (columns T).
Proof.
  unfold clean_year. intros H.
  apply bind_Ok in H as ([y T] & Hc & H).
  apply bind_Ok in H as (df1 & Hm & H). cbn [fst snd] in *.
  apply months_as_rows_shape in Hm as (first & cols & Hsub & Hcols & Hmonth & Hcells & Hwf).
  apply (index_by_date_dates y df1 out first Hcols Hmonth Hwf) in H as (Hms & Hidx).
  exists y, T, (map (fun r => hd VNaN (snd r)) (rows df1)).
  split; [exact Hc |].
  split; [now apply canonical_table_year in Hc |].
  split; [exact Hidx |].
  apply sublist_of_filter; [| exact Hms].
  rewrite Hcells. etransitivity; [apply tl_sublist | exact Hsub].
Qed.

Lemma cleaned_labels (dict : list (string * DataFrame)) (outs : list DataFrame) :
  Forall2 (fun kv out => clean (fst kv) (snd kv) = Ok out) dict outs ->
  Forall (fun l => is_time_or_nat l = true) (flat_map index outs).
Proof.
  induction 1 as [|kv out dict outs Hk _ IH]; [constructor |].
  cbn [flat_map]. apply Forall_app. split; [| exact IH].
  apply clean_year_dates in Hk as (y & T & cs & _ & _ & -> & _).
  apply date_of_is_time_or_nat.
Qed.

Lemma cleaned_dates_years (dict : list (string * DataFrame)) (outs : list DataFrame) :
  Forall2 (fun kv out => clean (fst kv) (snd kv) = Ok out) dict outs ->
  forall x, In x (flat_map index outs) -> is_time x = true ->
            exists kv y m, In kv dict /\ search_year (fst kv) = Some y /\
                           x = VTime (first_of_month y m).
Proof.
  induction 1 as [|kv out dict outs Hk _ IH]; intros x Hx Ht; [destruct Hx |].
  simpl in Hx. apply in_app_or in Hx as [Hx | Hx].
  - apply clean_year_dates in Hk as (y & T & cs & _ & Hy & Hidx & _).
    rewrite Hidx in Hx. apply in_map_iff in Hx as (c & <- & _).
    destruct c; try discriminate Ht.
    exists kv, y, z. split; [now left | auto].
  - destruct (IH x Hx Ht) as (kv' & y & m & Hin & Hy & ->).
    exists kv', y, m. split; [now right | auto].
Qed.

(** Tables of pairwise distinct years, each with pairwise distinct month
    headers, yield pairwise distinct dates. *)
Lemma cleaned_dates_distinct (dict : list (string * DataFrame)) (outs : list DataFrame) :
  Forall2 (fun kv out => clean (fst kv) (snd kv) = Ok out) dict outs ->
  NoDup (map (fun kv => search_year (fst kv)) dict) ->
  (forall name df y T, In (name, df) dict -> canonical name df = Ok (y, T) ->
                       NoDup (month_labels T)) ->
  NoDup (List.filter is_time (flat_map index outs)).
Proof.
  induction 1 as [|kv out dict outs Hk Hrest IH]; intros Hyears Hmonths; [constructor |].
  simpl in Hyears. apply NoDup_cons in Hyears as [Hfresh Hyears].
  cbn [flat_map]. rewrite List.filter_app. apply NoDup_app. split; [| split].
  - pose proof Hk as Hk'.
    apply clean_year_dates in Hk' as (y & T & cs & Hc & _ & -> & Hsub).
    rewrite dated_of_months. apply date_of_NoDup.
    + eapply sublist_NoDup;
        [apply (Hmonths (fst kv) (snd kv) y T); [left; now destruct kv | exact Hc] |].
      unfold month_labels. apply sublist_of_filter.
      * etransitivity; [apply filter_sublist |].
        etransitivity; [exact Hsub | apply filter_sublist].
      * apply List.Forall_forall. intros x Hx. now apply filter_In in Hx.
    + apply List.Forall_forall. intros x Hx. now apply filter_In in Hx.
  - intros x Hx Hx'. apply list_elem_of_In in Hx, Hx'.
    apply filter_In in Hx as [Hx Ht]. apply filter_In in Hx' as [Hx' _].
    pose proof Hk as Hk'.
    apply clean_year_dates in Hk' as (y & T & cs & _ & Hy & Hidx & _).
    rewrite Hidx in Hx. apply in_map_iff in Hx as (c & <- & _).
    destruct (cleaned_dates_years dict outs Hrest _ Hx' Ht)
      as (kv' & y' & m' & Hin & Hy' & Heq).
    destruct c; try discriminate Ht.
    injection Heq as -> _.
    apply Hfresh. apply list_elem_of_In. rewrite Hy, <- Hy'.
    now apply (in_map (fun kv => search_year (fst kv))).
  - apply IH; [exact Hyears |].
    intros name df y T Hin. apply Hmonths. now right.
Qed.

(** Tables none of whose headers is unknown yield dates only. *)
Lemma cleaned_dates_all_times (dict : list (string * DataFrame)) (outs : list DataFrame) :
  Forall2 (fun kv out => clean (fst kv) (snd kv) = Ok out) dict outs ->
  (forall name df y T, In (name, df) dict -> canonical name df = Ok (y, T) ->
                       label_in VNaN (columns T) = false) ->
  Forall (fun l => is_time l = true) (flat_map index outs).
Proof.
  induction 1 as [|kv out dict outs Hk Hrest IH]; intros Hknown; [constructor |].
  cbn [flat_map]. apply Forall_app. split.
  - apply clean_year_dates in Hk as (y & T & cs & Hc & _ & -> & Hsub).
    assert (Hno : label_in VNaN (columns T) = false)
      by (apply (Hknown (fst kv) (snd kv) y T); [left; now destruct kv | exact Hc]).
    apply date_of_all_times.
    + intros Hin. apply (sublist_In _ _ _ Hsub) in Hin.
      apply filter_In in Hin as [Hin _].
      assert (Habs : label_in VNaN (columns T) = true); [| congruence].
      apply existsb_exists. exists VNaN. split; [exact Hin |].
      now apply bool_decide_eq_true_2.
    + apply List.Forall_forall. intros c Hc'. apply (sublist_In _ _ _ Hsub) in Hc'.
      now apply filter_In in Hc'.
  - apply IH. intros name df y T Hin. apply Hknown. now right.
Qed.

Lemma process_tables_index (order_cols : bool)
    (df_dict : list (string * DataFrame)) (series : DataFrame) :
  tables order_cols df_dict = Ok series ->
  exists outs,
    Forall2 (fun kv out => clean (fst kv) (snd kv) = Ok out) df_dict outs /\
    index series ≡ₚ flat_map index outs /\
    sorted_labels (index series).
Proof.
  unfold process_tables, _clean_data. intros H.
  apply bind_Ok in H as (cleaned & Hclean & H).
  apply bind_Ok in H as (sorted & Hsort & H).
  apply bind_Ok in Hclean as (outs & Houts & Hconcat).
  apply mapM_Ok_Forall2 in Houts. exists outs. split; [exact Houts |].
  assert (Hidx : index series = index sorted).
  { destruct order_cols; [now apply select_columns_index in H | now injection H as <-]. }
  rewrite Hidx. split.
  - now rewrite (sort_index_perm _ _ _ Hsort), (concat_index _ _ Hconcat).
  - now apply sort_index_sorted in Hsort.
Qed.

Lemma process_data_load (directory : Path) (order_cols : bool) (w : World) :
  process directory order_cols w =
  match load directory w with
  | (Ok df_dict, w') => (tables order_cols df_dict, w')
  | (Raise e, w') => (Raise e, w')
  end.
Proof.
  unfold process_data, load_directory, mbind, M_bind, lift.
  destruct (get_list_files_in_directory iterdir_order directory w) as [[files|e] w1];
    [| reflexivity].
  destruct (get_dataframes_files_path read_excel directory files w1) as [[d|e] w2];
    reflexivity.
Qed.

(** C6 (as the code has it): the code neither merges nor rejects repeated
    dates, and a header it does not know yields a row without a date.
    When the tables read from the directory come from files whose names
    carry pairwise distinct years and no table has two headers mapped
    to the same month, the dates among the keys of the series
    [process_data] returns are pairwise distinct, the other keys being
    missing dates; when moreover no table has a header the mapping does
    not know, every key is a date and the keys are pairwise distinct. *)
Theorem dates_distinct_for_distinct_years_and_months
    (w : World) (directory : Path) (order_cols : bool)
    (df_dict : list (string * DataFrame)) (series : DataFrame) :
  fst (load directory w) = Ok df_dict ->
  fst (process directory order_cols w) = Ok series ->
  NoDup (map (fun kv => search_year (fst kv)) df_dict) ->
  (forall name df y T, In (name, df) df_dict -> canonical name df = Ok (y, T) ->
                       NoDup (month_labels T)) ->
  NoDup (List.filter is_time (index series)) /\
  Forall (fun l => is_time_or_nat l = true) (index series) /\
  ((forall name df y T, In (name, df) df_dict -> canonical name df = Ok (y, T) ->
                        label_in VNaN (columns T) = false) ->
   Forall (fun l => is_time l = true) (index series) /\ NoDup (index series)).
Proof.
  intros Hload Hrun Hyears Hmonths. rewrite process_data_load in Hrun.
  destruct (load directory w) as [[d|e] w']; [| discriminate].
  cbn [fst] in *. injection Hload as ->.
  apply process_tables_index in Hrun as (outs & Houts & Hperm & _).
  pose proof (cleaned_dates_distinct _ _ Houts Hyears Hmonths) as Hnd.
  assert (Hdated : NoDup (List.filter is_time (index series))).
  { rewrite (filter_perm is_time _ _ Hperm). exact Hnd. }
  split; [exact Hdated |].
  split.
  { apply (Permutation_Forall (Permutation_sym Hperm)). now apply cleaned_labels with df_dict. }
  intros Hknown.
  assert (Htimes : Forall (fun l => is_time l = true) (index series)).
  { apply (Permutation_Forall (Permutation_sym Hperm)).
    now apply cleaned_dates_all_times with df_dict. }
  split; [exact Htimes |].
  replace (index series) with (List.filter is_time (index series)); [exact Hdated |].
  clear -Htimes. induction Htimes as [|x l Hx _ IH]; [reflexivity |].
  cbn [List.filter]. rewrite Hx. now f_equal.
Qed.

End CanonicalSeriesProperties.

Lemma NoDup_by_computation (l : list value) : bool_decide (NoDup l) = true -> NoDup l.
Proof. apply bool_decide_eq_true_1. Qed.

Lemma dates_distinct_for_distinct_years_and_months_witness :
  exists series,
    process_directory [("2023.xls", [Byte.x41]); ("2024Precip.xlsx", [Byte.x42])]
      = Ok series /\
    length (rows series) = 24%nat /\
    NoDup (index series).
Proof.
  eexists. split; [vm_compute; reflexivity |]. split; [reflexivity |].
  eapply (dates_distinct_for_distinct_years_and_months
            rain_banner temp_banner ["year"; "month"; "sonora"]
            (fun c => String c EmptyString) (fun _ => "x") (fun _ => "t")
            sonora_reader listed_as_stored input_order
            (directory_world [("2023.xls", [Byte.x41]); ("2024Precip.xlsx", [Byte.x42])])
            (parse_path "Precipitacion") true).
  - vm_compute. reflexivity.
  - vm_compute. reflexivity.
  - vm_compute. repeat constructor; rewrite list_elem_of_In; simpl; intuition discriminate.
  - intros name df y T Hin Hc.
    repeat (destruct Hin as [[= <- <-] | Hin];
            [vm_compute in Hc; injection Hc as <- <-;
             apply NoDup_by_computation; vm_compute; reflexivity |]).
    destruct Hin.
  - intros name df y T Hin Hc.
    repeat (destruct Hin as [[= <- <-] | Hin];
            [vm_compute in Hc; injection Hc as <- <-; vm_compute; reflexivity |]).
    destruct Hin.
Defined.

(** C6, as stated, fails twice.  A directory holding the archive's table
    for 2024 and the bulletin table written for 2024 is accepted, and
    every date of 2024 occurs twice in the series.  And two tables of
    different years, each with a header that is no month, are accepted
    too: the series has two rows whose key is no date but the missing
    date. *)
Lemma two_files_of_one_year_repeat_dates :
  (exists series,
     process_directory [("2024.xls", [Byte.x41]); ("2024Precip.xlsx", [Byte.x42])]
       = Ok series /\
     length (rows series) = 24%nat /\
     ~ NoDup (index series)) /\
  (exists series,
     process_listed notes_reader listed_as_stored
       [("2023.xls", [Byte.x41]); ("2024.xls", [Byte.x42])] = Ok series /\
     List.filter (fun l => negb (is_time l)) (index series) = [VNaT; VNaT] /\
     ~ NoDup (index series)).
Proof.
  split.
  - eexists. split; [vm_compute; reflexivity |]. split; [reflexivity |].
    apply (bool_decide_eq_false_1 (NoDup _)). vm_compute. reflexivity.
  - eexists. split; [vm_compute; reflexivity |]. split; [reflexivity |].
    apply (bool_decide_eq_false_1 (NoDup _)). vm_compute. reflexivity.
Qed.

(** ** Repeating the normalisation *)

Lemma mapM_perm {A B} (f : A -> result B) (l l' : list A) :
  l ≡ₚ l' ->
  forall outs, mapM f l = Ok outs ->
               exists outs', mapM f l' = Ok outs' /\ outs ≡ₚ outs'.
Proof.
  induction 1 as [|x l l' _ IH|x y l|l1 l2 l3 _ IH1 _ IH2]; intros outs H.
  - exists outs. split; [exact H | reflexivity].
  - cbn [mapM] in *.
    apply bind_Ok in H as (b & Hb & H). apply bind_Ok in H as (bs & Hbs & H).
    injection H as <-.
    destruct (IH bs Hbs) as (bs' & Hbs' & Hp).
    exists (b :: bs'). rewrite Hb. cbn [mbind result_bind]. rewrite Hbs'.
    split; [reflexivity | now constructor].
  - cbn [mapM] in *.
    apply bind_Ok in H as (b & Hb & H). apply bind_Ok in H as (bs & Hbs & H).
    injection H as <-.
    apply bind_Ok in Hbs as (c & Hc & H). apply bind_Ok in H as (cs & Hcs & H).
    injection H as <-.
    exists (c :: b :: cs). rewrite Hc. cbn [mbind result_bind]. rewrite Hb.
    cbn [mbind result_bind]. rewrite Hcs.
    split; [reflexivity | apply Permutation_swap].
  - destruct (IH1 outs H) as (outs2 & H2 & Hp2).
    destruct (IH2 outs2 H2) as (outs3 & H3 & Hp3).
    exists outs3. split; [exact H3 | now transitivity outs2].
Qed.

Lemma omap_cons_eq {A B} (g : A -> option B) (x : A) (l : list A) :
  omap g (x :: l) = match g x with
                    | Some y => y :: omap g l
                    | None => omap g l
                    end.
Proof. reflexivity. Qed.

(** The names a directory lists are pairwise distinct. *)
Lemma file_names_in_NoDup (f : FS) (d : node) : NoDup (file_names_in f d).
Proof.
  unfold file_names_in.
  pose proof (NoDup_fst_map_to_list (files f)) as Hnd.
  induction (map_to_list (files f)) as [|kv l IH]; [constructor |].
  rewrite fmap_cons in Hnd. apply NoDup_cons in Hnd as [Hfresh Hnd].
  rewrite omap_cons_eq. cbv beta. specialize (IH Hnd).
  destruct kv as [k data]. cbn [fst] in *.
  destruct (last k) as [name|] eqn:Hlast; [| exact IH].
  destruct (bool_decide (removelast k = d)) eqn:Hd; [| exact IH].
  apply bool_decide_eq_true_1 in Hd.
  constructor; [| exact IH].
  intros Hin. apply Hfresh.
  apply list_elem_of_omap in Hin as ([k' data'] & Hin & Hkv'). cbn [fst] in Hkv'.
  destruct (last k') as [name'|] eqn:Hlast'; [| discriminate].
  destruct (bool_decide (removelast k' = d)) eqn:Hd'; [| discriminate].
  apply bool_decide_eq_true_1 in Hd'. injection Hkv' as ->.
  assert (Hkey : forall n : node, last n = Some name -> n = removelast n ++ [name]).
  { intros n Hn. apply last_Some in Hn as [l' ->].
    now rewrite removelast_last. }
  rewrite list_elem_of_fmap. exists (k', data'). split; [| exact Hin].
  cbn [fst]. rewrite (Hkey _ Hlast), (Hkey _ Hlast'). congruence.
Qed.

Lemma label_in_In (l : value) (ls : list value) : label_in l ls = true <-> In l ls.
Proof.
  unfold label_in, value_eqb. rewrite existsb_exists. split.
  - intros (x & Hx & Heq). apply bool_decide_eq_true_1 in Heq. now subst.
  - intros H. exists l. split; [exact H |]. now apply bool_decide_eq_true_2.
Qed.

(** Among columns without a repeated label each label has one position. *)
Lemma positions_single (l : value) (cols : list value) :
  NoDup cols -> In l cols ->
  exists j, positions l cols = [j] /\ (j < length cols)%nat /\ nth j cols VNaN = l.
Proof.
  unfold positions.
  assert (H : forall a,
             NoDup cols -> In l cols ->
             exists k, map fst (List.filter (fun p => value_eqb l (snd p))
                                  (combine (seq a (length cols)) cols)) = [(a + k)%nat] /\
                       (k < length cols)%nat /\ nth k cols VNaN = l).
  { induction cols as [|c cs IH]; intros a Hnd Hin; [destruct Hin |].
    apply NoDup_cons in Hnd as [Hc Hnd].
    cbn [length seq combine List.filter snd].
    destruct (value_eqb l c) eqn:Heq.
    - apply bool_decide_eq_true_1 in Heq. subst c. exists 0%nat.
      cbn [map fst nth length]. rewrite positions_from_absent.
      + rewrite Nat.add_0_r. split; [reflexivity |]. split; [lia | reflexivity].
      + destruct (label_in l cs) eqn:Hl; [| reflexivity].
        apply label_in_In in Hl. exfalso. apply Hc. now apply list_elem_of_In.
    - destruct Hin as [-> | Hin].
      { unfold value_eqb in Heq. now rewrite bool_decide_eq_true_2 in Heq. }
      destruct (IH (Datatypes.S a) Hnd Hin) as (k & Hk & Hlt & Hnth).
      exists (Datatypes.S k). rewrite Hk. cbn [nth length].
      split; [f_equal; lia |]. split; [lia | exact Hnth]. }
  intros Hnd Hin. destruct (H 0%nat Hnd Hin) as (k & Hk & Hlt & Hnth).
  exists k. auto.
Qed.

(** The union of the columns of frames: no label twice, and the labels
    of the frames. *)
Lemma add_labels_spec (cs acc : list value) :
  NoDup acc ->
  NoDup (fold_left (fun acc c => if label_in c acc then acc else acc ++ [c]) cs acc) /\
  forall x, In x (fold_left (fun acc c => if label_in c acc then acc else acc ++ [c]) cs acc)
            <-> In x acc \/ In x cs.
Proof.
  revert acc. induction cs as [|c cs IH]; intros acc Hnd.
  - cbn [fold_left]. split; [exact Hnd |]. intros x. cbn [In]. tauto.
  - cbn [fold_left]. destruct (label_in c acc) eqn:Hc.
    + destruct (IH acc Hnd) as [H1 H2]. split; [exact H1 |].
      intros x. rewrite H2. cbn [In]. apply label_in_In in Hc.
      split; [tauto |]. intros [H | [<- | H]]; auto.
    + assert (Hnd' : NoDup (acc ++ [c])).
      { apply NoDup_app. split; [exact Hnd |]. split; [| apply NoDup_singleton].
        intros x Hx Hx'. apply list_elem_of_singleton in Hx'. subst x.
        apply list_elem_of_In, label_in_In in Hx. congruence. }
      destruct (IH _ Hnd') as [H1 H2]. split; [exact H1 |].
      intros x. rewrite H2, in_app_iff. cbn [In]. tauto.
Qed.

Lemma union_columns_spec (frames : list DataFrame) :
  NoDup (union_columns frames) /\
  forall x, In x (union_columns frames) <-> exists d, In d frames /\ In x (columns d).
Proof.
  unfold union_columns.
  assert (H : forall acc,
             NoDup acc ->
             NoDup (fold_left
                      (fun acc df =>
                         fold_left (fun acc c => if label_in c acc then acc else acc ++ [c])
                                   (columns df) acc) frames acc) /\
             forall x,
               In x (fold_left
                       (fun acc df =>
                          fold_left (fun acc c => if label_in c acc then acc else acc ++ [c])
                                    (columns df) acc) frames acc)
               <-> In x acc \/ exists d, In d frames /\ In x (columns d)).
  { induction frames as [|d ds IH]; intros acc Hnd.
    - cbn [fold_left]. split; [exact Hnd |]. intros x. split; [tauto |].
      intros [H | (d & [] & _)]. exact H.
    - cbn [fold_left]. destruct (add_labels_spec (columns d) acc Hnd) as [H1 H2].
      destruct (IH _ H1) as [H3 H4]. split; [exact H3 |].
      intros x. rewrite H4, H2. split.
      + intros [[H | H] | (d' & Hd' & H)]; [tauto | right | right].
        * exists d. split; [now left | exact H].
        * exists d'. split; [now right | exact H].
      + intros [H | (d' & [<- | Hd'] & H)]; [tauto | tauto |].
        right. exists d'. tauto. }
  destruct (H [] (NoDup_nil_2)) as [H1 H2]. split; [exact H1 |].
  intros x. rewrite H2. cbn [In]. tauto.
Qed.

Lemma same_columns_spec (frames : list DataFrame) :
  same_columns frames = true <->
  forall d d', In d frames -> In d' frames -> columns d = columns d'.
Proof.
  destruct frames as [|d ds]; cbn [same_columns].
  - split; [intros _ d d' [] | reflexivity].
  - rewrite forallb_forall. split.
    + intros H.
      assert (Hd : forall x, In x (d :: ds) -> columns x = columns d).
      { intros x [<- | Hx]; [reflexivity |]. specialize (H x Hx).
        now apply bool_decide_eq_true_1 in H. }
      intros x y Hx Hy. now rewrite (Hd x Hx), (Hd y Hy).
    + intros H x Hx. apply bool_decide_eq_true_2. apply H; [now right | now left].
Qed.

Lemma same_columns_perm (frames frames' : list DataFrame) :
  frames ≡ₚ frames' -> same_columns frames = same_columns frames'.
Proof.
  intros Hp.
  destruct (same_columns frames) eqn:H, (same_columns frames') eqn:H';
    try reflexivity; exfalso.
  - apply not_true_iff_false in H'. apply H'. apply same_columns_spec.
    intros d d' Hd Hd'. apply (proj1 (same_columns_spec frames) H);
      now apply (Permutation_in _ (Permutation_sym Hp)).
  - apply not_true_iff_false in H. apply H. apply same_columns_spec.
    intros d d' Hd Hd'. apply (proj1 (same_columns_spec frames') H');
      now apply (Permutation_in _ Hp).
Qed.

(** The two ways of [concat]. *)
Lemma concat_cases (frames : list DataFrame) (t : DataFrame) :
  concat frames = Ok t ->
  frames <> [] /\
  (same_columns frames = true /\
   (forall d, In d frames -> columns t = columns d) /\
   rows t = flat_map rows frames \/
   same_columns frames = false /\
   (forall d, In d frames -> NoDup (columns d)) /\
   columns t = union_columns frames /\
   rows t = flat_map (fun d => map (fun r => (fst r, reindex_row (columns d)
                                                        (union_columns frames) (snd r)))
                                   (rows d)) frames).
Proof.
  unfold concat. destruct frames as [|d ds]; [discriminate |].
  intros H. split; [discriminate |].
  change (forallb (fun d' => bool_decide (columns d' = columns d)) ds)
    with (same_columns (d :: ds)) in H.
  destruct (same_columns (d :: ds)) eqn:Hsame.
  - injection H as <-. left. split; [reflexivity |]. split; [| reflexivity].
    intros x Hx. cbn [columns].
    apply (proj1 (same_columns_spec _) Hsame); [now left | exact Hx].
  - destruct (forallb _ (d :: ds)) eqn:Hnd; [| discriminate].
    injection H as <-. right. split; [reflexivity |]. split; [| split; reflexivity].
    intros x Hx. rewrite forallb_forall in Hnd. specialize (Hnd x Hx).
    unfold nodup_labels in Hnd. now apply bool_decide_eq_true_1 in Hnd.
Qed.

Lemma concat_perm_ok (frames frames' : list DataFrame) (t : DataFrame) :
  frames ≡ₚ frames' -> concat frames = Ok t -> exists t', concat frames' = Ok t'.
Proof.
  intros Hp H. pose proof (same_columns_perm _ _ Hp) as Hsame.
  unfold concat in *. destruct frames as [|d ds]; [discriminate |].
  destruct frames' as [|d' ds'].
  { apply Permutation_sym, Permutation_nil in Hp. discriminate. }
  change (forallb (fun x => bool_decide (columns x = columns d)) ds)
    with (same_columns (d :: ds)) in H.
  change (forallb (fun x => bool_decide (columns x = columns d')) ds')
    with (same_columns (d' :: ds')).
  rewrite <- Hsame.
  destruct (same_columns (d :: ds)); [eauto |].
  destruct (forallb _ (d :: ds)) eqn:Hnd; [| discriminate].
  assert (Hnd' : forallb (fun x => nodup_labels (columns x)) (d' :: ds') = true).
  { rewrite forallb_forall in *. intros x Hx. apply Hnd.
    now apply (Permutation_in _ (Permutation_sym Hp)). }
  rewrite Hnd'. eauto.
Qed.

Lemma select_columns_inv (labels : list string) (df out : DataFrame) :
  select_columns labels df = Ok out ->
  (forall l, In l labels -> In (VStr l) (columns df)) /\
  columns out = map (cell (columns df))
                    (flat_map (fun l => positions (VStr l) (columns df)) labels) /\
  rows out = map (selected labels (columns df)) (rows df).
Proof.
  unfold select_columns.
  destruct (List.filter _ labels) as [|l0 ?] eqn:Hf; [| discriminate].
  intros [= <-]. cbn [columns rows]. split; [| split; reflexivity].
  intros l Hl. apply label_in_In.
  destruct (label_in (VStr l) (columns df)) eqn:Hin; [reflexivity |].
  assert (Habs : In l (List.filter
                         (fun l => negb (label_in (VStr l) (columns df))) labels)).
  { apply filter_In. split; [exact Hl |]. now rewrite Hin. }
  rewrite Hf in Habs. destruct Habs.
Qed.

Lemma select_columns_ok (labels : list string) (df : DataFrame) :
  (forall l, In l labels -> In (VStr l) (columns df)) ->
  select_columns labels df =
  Ok {| columns := map (cell (columns df))
                       (flat_map (fun l => positions (VStr l) (columns df)) labels);
        rows := map (selected labels (columns df)) (rows df) |}.
Proof.
  intros H. unfold select_columns.
  destruct (List.filter _ labels) as [|l0 ?] eqn:Hf; [reflexivity |].
  assert (Hin : In l0 (List.filter
                         (fun l => negb (label_in (VStr l) (columns df))) labels))
    by (rewrite Hf; now left).
  apply filter_In in Hin as [Hin Hno]. apply H, label_in_In in Hin.
  now rewrite Hin in Hno.
Qed.

Lemma map_flat_map_rows {A B C} (f : B -> C) (g : A -> list B) (l : list A) :
  map f (flat_map g l) = flat_map (fun d => map f (g d)) l.
Proof.
  induction l as [|x l IH]; [reflexivity |].
  cbn [flat_map]. now rewrite map_app, IH.
Qed.

(** The cells selected from a reindexed row do not depend on the order
    of the union of the columns. *)
Lemma reindexed_selection (labels : list string) (U cd x : list value) :
  NoDup U -> (forall l, In l labels -> In (VStr l) U) ->
  map (cell (reindex_row cd U x)) (flat_map (fun l => positions (VStr l) U) labels)
  = map (fun l => match positions (VStr l) cd with
                  | j :: _ => cell x j
                  | [] => VNaN
                  end) labels /\
  map (cell U) (flat_map (fun l => positions (VStr l) U) labels) = map VStr labels.
Proof.
  intros Hnd. induction labels as [|l labels IH]; intros Hin; [now split |].
  destruct IH as [IH1 IH2]; [intros l' Hl'; apply Hin; now right |].
  destruct (positions_single (VStr l) U Hnd (Hin l (or_introl eq_refl)))
    as (j & Hj & Hlt & Hnth).
  cbn [flat_map map]. rewrite Hj. cbn [app map]. rewrite IH1, IH2.
  split; f_equal.
  - unfold cell at 1, reindex_row.
    set (F := fun c => match positions c cd with
                       | j' :: _ => cell x j'
                       | [] => VNaN
                       end).
    rewrite (nth_indep _ VNaN (F VNaN)) by (now rewrite length_map).
    rewrite map_nth. now rewrite Hnth.
  - exact Hnth.
Qed.

(** What [process_data] selects from the concatenation of the same
    frames in another order: the same columns and the same rows, up to
    their order. *)
Lemma select_concat_perm (labels : list string) (frames frames' : list DataFrame)
    (t t' : DataFrame) :
  frames ≡ₚ frames' -> concat frames = Ok t -> concat frames' = Ok t' ->
  (forall l, In l labels -> In (VStr l) (columns t)) ->
  (forall l, In l labels -> In (VStr l) (columns t')) /\
  map (cell (columns t)) (flat_map (fun l => positions (VStr l) (columns t)) labels)
  = map (cell (columns t')) (flat_map (fun l => positions (VStr l) (columns t')) labels) /\
  map (selected labels (columns t)) (rows t)
  ≡ₚ map (selected labels (columns t')) (rows t').
Proof.
  intros Hp H H' Hin.
  pose proof (same_columns_perm _ _ Hp) as Hsame.
  apply concat_cases in H as [Hne H]. apply concat_cases in H' as [Hne' H'].
  destruct H as [(Hs & Hcols & Hrows) | (Hs & Hnd & Hcols & Hrows)];
    destruct H' as [(Hs' & Hcols' & Hrows') | (Hs' & Hnd' & Hcols' & Hrows')];
    try congruence.
  - assert (Heq : columns t' = columns t).
    { destruct frames as [|d ds]; [congruence |].
      rewrite (Hcols d (or_introl eq_refl)).
      apply Hcols'. apply (Permutation_in _ Hp). now left. }
    rewrite Heq. split; [exact Hin |]. split; [reflexivity |].
    apply Permutation_map. rewrite Hrows, Hrows'.
    now apply Permutation_flat_map.
  - destruct (union_columns_spec frames) as [HU Hmem].
    destruct (union_columns_spec frames') as [HU' Hmem'].
    assert (Hin' : forall l, In l labels -> In (VStr l) (columns t')).
    { intros l Hl. rewrite Hcols'. apply Hmem'.
      specialize (Hin l Hl). rewrite Hcols in Hin. apply Hmem in Hin as (d & Hd & Hx).
      exists d. split; [now apply (Permutation_in _ Hp) | exact Hx]. }
    split; [exact Hin' |].
    rewrite Hcols in Hin |- *. rewrite Hcols' in Hin' |- *.
    split.
    { rewrite (proj2 (reindexed_selection labels _ [] [] HU Hin)).
      now rewrite (proj2 (reindexed_selection labels _ [] [] HU' Hin')). }
    rewrite Hrows, Hrows', !map_flat_map_rows.
    etransitivity; [| apply Permutation_flat_map; exact Hp].
    assert (Hsame_rows :
              forall d : DataFrame,
                map (selected labels (union_columns frames))
                    (map (fun r => (fst r, reindex_row (columns d) (union_columns frames)
                                                       (snd r))) (rows d))
                = map (selected labels (union_columns frames'))
                      (map (fun r => (fst r, reindex_row (columns d) (union_columns frames')
                                                         (snd r))) (rows d))).
    { intros d. rewrite !map_map. apply map_ext. intros r. unfold selected. cbn [fst snd].
      f_equal.
      rewrite (proj1 (reindexed_selection labels _ (columns d) (snd r) HU Hin)).
      now rewrite (proj1 (reindexed_selection labels _ (columns d) (snd r) HU' Hin')). }
    now rewrite (flat_map_ext _ _ Hsame_rows).
Qed.

Section ProcessDataProperties.

Variable edge_case_rain : string.
Variable edge_case_temp : string.
Variable order_col : list string.
Variable unidecode_table : ascii -> string.
Variable float_repr : Z -> string.
Variable time_repr : Timestamp -> string.
Variable read_excel : string -> bytes -> result DataFrame.

Local Abbreviation clean :=
  (clean_year edge_case_rain edge_case_temp unidecode_table float_repr time_repr).
Local Abbreviation tables :=
  (process_tables edge_case_rain edge_case_temp order_col unidecode_table
     float_repr time_repr).
Local Abbreviation process :=
  (process_data edge_case_rain edge_case_temp order_col unidecode_table
     float_repr time_repr read_excel).
Local Abbreviation kept_table := (table_in read_excel).

Lemma load_file_reads_only (directory : Path) (d : list (string * DataFrame))
    (file : string) (w : World) :
  snd (load_file read_excel directory d file w) = w.
Proof.
  unfold load_file, try_read.
  destruct (Py.endswith ".xls" file).
  - destruct (read_file _ w) as [[data|e] w1]; [destruct (read_excel _ data) |]; reflexivity.
  - destruct (Py.endswith ".xlsx" file); [| reflexivity].
    destruct (read_file _ w) as [[data|e] w1]; [destruct (read_excel _ data) |]; reflexivity.
Qed.

Lemma get_dataframes_files_path_reads_only (directory : Path) (files : list string)
    (w : World) :
  snd (get_dataframes_files_path read_excel directory files w) = w.
Proof.
  unfold get_dataframes_files_path.
  assert (H : forall (acc : M (list (string * DataFrame))),
             snd (acc w) = w ->
             snd (foldl (fun acc file => d ← acc; load_file read_excel directory d file)
                        acc files w) = w).
  { induction files as [|f files IH]; intros acc Hacc; [exact Hacc |].
    cbn [foldl]. apply IH. unfold mbind, M_bind.
    destruct (acc w) as [[d|e] w1] eqn:Ha; cbn [snd] in Hacc; subst w1; [| reflexivity].
    apply load_file_reads_only. }
  apply H. reflexivity.
Qed.

(** Normalising reads the directory and changes nothing. *)
Lemma process_data_reads_only (iterdir_order : FS -> node -> list nat)
    (ties : list (value * list value) -> list nat)
    (directory : Path) (order_cols : bool) (w : World) :
  snd (process iterdir_order ties directory order_cols w) = w.
Proof.
  rewrite process_data_load. unfold load_directory, mbind, M_bind.
  unfold get_list_files_in_directory at 1.
  destruct (enter _ _ _) as [d|]; [| reflexivity].
  pose proof (get_dataframes_files_path_reads_only directory
                (rearrange (iterdir_order (fs w) d) (file_names_in (fs w) d)) w) as H.
  destruct (get_dataframes_files_path _ _ _ w) as [[dict|e] w1]; cbn [snd] in *; exact H.
Qed.

(** The dictionary of a listing without repeated names: the tables kept,
    in the order of the listing. *)
Lemma load_file_table (directory : Path) (d : list (string * DataFrame))
    (file : string) (w : World) :
  load_file read_excel directory d file w =
  (Ok match kept_table directory w file with
      | Some df => dict_insert file df d
      | None => d
      end, w).
Proof.
  unfold load_file, table_in, try_read.
  destruct (Py.endswith ".xls" file).
  - destruct (read_file _ w) as [[data|e] w1]; [destruct (read_excel _ data) |]; reflexivity.
  - destruct (Py.endswith ".xlsx" file); [| reflexivity].
    destruct (read_file _ w) as [[data|e] w1]; [destruct (read_excel _ data) |]; reflexivity.
Qed.

Lemma get_dataframes_files_path_tables (directory : Path) (files : list string)
    (w : World) :
  NoDup files ->
  get_dataframes_files_path read_excel directory files w =
  (Ok (omap (fun file => df ← kept_table directory w file; Some (file, df)) files), w).
Proof.
  unfold get_dataframes_files_path.
  assert (H : forall acc : list (string * DataFrame),
             NoDup files ->
             (forall k, In k (map fst acc) -> ~ In k files) ->
             foldl (fun acc file => d ← acc; load_file read_excel directory d file)
                   (mret acc) files w
             = (Ok (acc ++ omap (fun file => df ← kept_table directory w file;
                                             Some (file, df)) files), w)).
  { induction files as [|f files IH]; intros acc Hnd Hacc.
    - cbn [foldl]. now rewrite app_nil_r.
    - apply NoDup_cons in Hnd as [Hf Hnd]. cbn [foldl]. rewrite omap_cons_eq. cbv beta.
      assert (Hstep : (d ← mret acc; load_file read_excel directory d f)
                      = load_file read_excel directory acc f) by reflexivity.
      pose proof (load_file_table directory acc f w) as Hload.
      destruct (kept_table directory w f) as [df|] eqn:Hk; cbn [mbind option_bind].
      + assert (Hins : dict_insert f df acc = acc ++ [(f, df)]).
        { unfold dict_insert.
          destruct (existsb _ acc) eqn:Hex; [| reflexivity].
          exfalso. apply existsb_exists in Hex as (kv & Hin & Heq).
          apply String.eqb_eq in Heq.
          apply (Hacc f); [| now left].
          rewrite <- Heq. now apply in_map. }
        rewrite Hins in Hload.
        transitivity (foldl (fun acc file => d ← acc; load_file read_excel directory d file)
                            (mret (acc ++ [(f, df)])) files w).
        * clear IH. generalize dependent files. intros files _ _ _.
          assert (Hgen : forall m m' : M (list (string * DataFrame)),
                     m w = m' w ->
                     foldl (fun acc file => d ← acc; load_file read_excel directory d file)
                           m files w =
                     foldl (fun acc file => d ← acc; load_file read_excel directory d file)
                           m' files w).
          { induction files as [|g files IH]; intros m m' Hm; [exact Hm |].
            cbn [foldl]. apply IH. unfold mbind, M_bind. now rewrite Hm. }
          apply Hgen. rewrite Hstep. exact Hload.
        * rewrite IH; [now rewrite <- app_assoc | exact Hnd |].
          intros k Hk' Hin. rewrite map_app in Hk'. apply in_app_or in Hk' as [Hk' | Hk'].
          -- apply (Hacc k Hk'). now right.
          -- destruct Hk' as [<- | []]. apply Hf. now apply list_elem_of_In.
      + transitivity (foldl (fun acc file => d ← acc; load_file read_excel directory d file)
                            (mret acc) files w).
        * clear IH. generalize dependent files. intros files _ _ _.
          assert (Hgen : forall m m' : M (list (string * DataFrame)),
                     m w = m' w ->
                     foldl (fun acc file => d ← acc; load_file read_excel directory d file)
                           m files w =
                     foldl (fun acc file => d ← acc; load_file read_excel directory d file)
                           m' files w).
          { induction files as [|g files IH]; intros m m' Hm; [exact Hm |].
            cbn [foldl]. apply IH. unfold mbind, M_bind. now rewrite Hm. }
          apply Hgen. rewrite Hstep. exact Hload.
        * apply IH; [exact Hnd |]. intros k Hk' Hin. apply (Hacc k Hk'). now right. }
  intros Hnd. rewrite (H [] Hnd); [reflexivity |]. intros k [].
Qed.

Lemma selected_labels (labels : list string) (cols : list value)
    (rs : list (value * list value)) :
  map fst (map (selected labels cols) rs) = map fst rs.
Proof. rewrite map_map. reflexivity. Qed.

(** With the columns ordered as configured and pairwise distinct dates,
    the series does not depend on the order of the dictionary, nor on
    what the sort does with equal dates. *)
Lemma process_tables_perm (ties ties' : list (value * list value) -> list nat)
    (dict dict' : list (string * DataFrame)) (series : DataFrame) :
  dict ≡ₚ dict' ->
  tables ties true dict = Ok series ->
  NoDup (index series) ->
  tables ties' true dict' = Ok series.
Proof.
  intros Hp H Hnd. unfold process_tables, _clean_data in *.
  apply bind_Ok in H as (cleaned & Hclean & H).
  apply bind_Ok in H as (sorted & Hsort & H).
  apply bind_Ok in Hclean as (outs & Houts & Hconcat).
  destruct (mapM_perm _ _ _ Hp _ Houts) as (outs' & Houts' & Hpo).
  rewrite Houts'. cbn [mbind result_bind].
  destruct (concat_perm_ok _ _ _ Hpo Hconcat) as (cleaned' & Hconcat').
  rewrite Hconcat'. cbn [mbind result_bind].
  pose proof (sort_index_rows _ _ _ Hsort) as (Hc & Hr & Hall).
  pose proof (sort_index_sorted _ _ _ Hsort) as (Hsorted & Hlabels).
  assert (Hall' : Forall (fun l => is_time_or_nat l = true) (index cleaned')).
  { rewrite (concat_index _ _ Hconcat').
    rewrite (concat_index _ _ Hconcat) in Hall.
    apply (Permutation_Forall (Permutation_flat_map index Hpo)). exact Hall. }
  unfold sort_index at 1.
  replace (forallb is_time_or_nat (index cleaned')) with true
    by (symmetry; apply forallb_forall; now apply List.Forall_forall).
  cbn [mbind result_bind].
  apply select_columns_inv in H as (Hin & Hcols & Hrows).
  rewrite Hc in Hin, Hcols, Hrows.
  destruct (select_concat_perm order_col _ _ _ _ Hpo Hconcat Hconcat' Hin)
    as (Hin' & Hcoleq & Hrowperm).
  rewrite select_columns_ok by (cbn [columns]; exact Hin').
  cbn [columns rows]. destruct series as [sc sr]. cbn [columns rows index] in *.
  subst sc sr. f_equal. f_equal; [now symmetry |].
  symmetry. apply sorted_rows_unique.
  - rewrite (Permutation_map _ Hr), Hrowperm.
    apply Permutation_map. symmetry.
    rewrite sort_rows_perm. apply rearrange_perm.
  - apply Forall_map in Hlabels.
    apply List.Forall_forall. intros x Hx. apply in_map_iff in Hx as (r & <- & Hr').
    apply (proj1 (List.Forall_forall _ _) Hlabels r Hr').
  - exact Hnd.
  - rewrite selected_labels. exact Hsorted.
  - rewrite selected_labels. apply sort_rows_sorted.
    apply (Permutation_Forall (Permutation_sym (rearrange_perm _ _))).
    apply List.Forall_forall. intros x Hx.
    apply (proj1 (List.Forall_forall _ _) Hall'). now apply in_map.
Qed.


End ProcessDataProperties.



(** ** The downloader: what a run records *)

Lemma M_bind_inv {A B} (m : M A) (k : A -> M B) (w w' : World) (r : result B) :
  (m ≫= k) w = (r, w') ->
  (exists a w1, m w = (Ok a, w1) /\ k a w1 = (r, w')) \/
  (exists e, m w = (Raise e, w') /\ r = Raise e).
Proof.
  unfold mbind, M_bind. destruct (m w) as [[a|e] w1].
  - intros H. left. eauto.
  - intros [= <- <-]. right. eauto.
Qed.

Lemma keeps_logs_ret {A} (a : A) : keeps_logs (mret a : M A).
Proof. intros w r w' [= _ <-]. auto. Qed.

Lemma keeps_logs_raise {A} (e : exn) : keeps_logs (raise e : M A).
Proof. intros w r w' [= _ <-]. auto. Qed.

Lemma keeps_logs_lift {A} (x : result A) : keeps_logs (lift x).
Proof. intros w r w' [= _ <-]. auto. Qed.

Lemma keeps_logs_bind {A B} (m : M A) (k : A -> M B) :
  keeps_logs m -> (forall a, keeps_logs (k a)) -> keeps_logs (m ≫= k).
Proof.
  intros Hm Hk w r w' H. unfold mbind, M_bind in H.
  destruct (m w) as [[a|e] w1] eqn:Hw; destruct (Hm _ _ _ Hw) as [H1 H2].
  - destruct (Hk a _ _ _ H) as [H3 H4]. split; congruence.
  - injection H as _ <-. auto.
Qed.

Lemma keeps_logs_mkdir_walk (cs : list string) (cur : node) :
  keeps_logs (mkdir_walk cur cs).
Proof.
  revert cur. induction cs as [|c cs IH]; intros cur w r w' H.
  - injection H as _ <-. auto.
  - simpl in H. destruct (is_dotdot c); [exact (IH _ _ _ _ H) |].
    destruct (is_file _ _); [injection H as _ <-; auto |].
    destruct (is_dir _ _); [exact (IH _ _ _ _ H) |].
    apply IH in H. exact H.
Qed.

Lemma keeps_logs_mkdir_p (p : Path) : keeps_logs (mkdir_p p).
Proof. intros w r w' H. exact (keeps_logs_mkdir_walk _ _ _ _ _ H). Qed.

Lemma keeps_logs_write_file (p : Path) (data : bytes) : keeps_logs (write_file p data).
Proof.
  intros w r w'. unfold write_file.
  destruct (last (parts p)); [| intros [= _ <-]; auto].
  destruct (is_dotdot _); [intros [= _ <-]; auto |].
  destruct (enter _ _ _); [| intros [= _ <-]; auto].
  destruct (is_dir _ _); intros [= _ <-]; auto.
Qed.

Lemma keeps_logs_read_file (p : Path) : keeps_logs (read_file p).
Proof.
  intros w r w'. unfold read_file.
  destruct (last (parts p)); [| intros [= _ <-]; auto].
  destruct (enter _ _ _); [| intros [= _ <-]; auto].
  destruct (files _ !! _); intros [= _ <-]; auto.
Qed.

Lemma keeps_logs_unlink (p : Path) : keeps_logs (unlink p).
Proof.
  intros w r w'. unfold unlink.
  destruct (last (parts p)); [| intros [= _ <-]; auto].
  destruct (enter _ _ _); [| intros [= _ <-]; auto].
  destruct (is_file _ _); intros [= _ <-]; auto.
Qed.

Lemma keeps_logs_for_each {A} (body : A -> M unit) (xs : list A) :
  (forall x, keeps_logs (body x)) -> keeps_logs (for_each body xs).
Proof.
  intros Hb. induction xs as [|x xs IH]; [apply keeps_logs_ret |].
  simpl. apply keeps_logs_bind; auto.
Qed.

Lemma keeps_logs_extract_zip_file (zip_parse : bytes -> option (list ZipInfo))
    (zip_file_path dest_dir : Path) :
  keeps_logs (_extract_zip_file zip_parse zip_file_path dest_dir).
Proof.
  unfold _extract_zip_file. apply keeps_logs_bind; [apply keeps_logs_read_file |].
  intros data. destruct (zip_parse data); [| apply keeps_logs_raise].
  unfold extract_members. apply keeps_logs_for_each. intros m.
  unfold extract_member. destruct (member_is_dir m); [apply keeps_logs_mkdir_p |].
  apply keeps_logs_bind; [apply keeps_logs_mkdir_p |].
  intros _. apply keeps_logs_write_file.
Qed.

Lemma keeps_logs_download_zip_file
    (http_get : string -> result (list bytes * option exn))
    (url : string) (zip_file_path : Path) :
  keeps_logs (_download_zip_file http_get url zip_file_path).
Proof.
  unfold _download_zip_file. apply keeps_logs_bind; [apply keeps_logs_lift |].
  intros response. apply keeps_logs_bind; [apply keeps_logs_write_file |].
  intros _. destruct (snd response); [apply keeps_logs_raise | apply keeps_logs_ret].
Qed.

Section DownloaderProperties.

Variable rain_url : string.
Variable temp_url : string.
Variable new_info_url : string.
Variable pronostic_url : string.
Variable now_year : Z.
Variable now_month : Z.
Variable read_pdf : string -> result DataFrame.
Variable http_get : string -> result (list bytes * option exn).
Variable zip_parse : bytes -> option (list ZipInfo).
Variable read_csv : bytes -> result DataFrame.
Variable excel_bytes : list value -> list (list value) -> bytes.
Variable unidecode_table : ascii -> string.
Variable float_repr : Z -> string.
Variable time_repr : Timestamp -> string.

Local Abbreviation run :=
  (download_conagua rain_url temp_url new_info_url pronostic_url now_year now_month
     read_pdf http_get zip_parse read_csv excel_bytes unidecode_table float_repr
     time_repr).
Local Abbreviation datatype_values :=
  (_get_datatype_values rain_url temp_url new_info_url now_year read_pdf).
Local Abbreviation bulletin := (temperature_bulletin new_info_url read_pdf).

Lemma temperature_config (data_type : string) :
  is_temperature data_type ->
  _get_datatype_config rain_url temp_url data_type =
    Ok {| zip_url := temp_url; pdf_folder := "TMED";
          default_folder := "Temperatura"; cfg_filename := "Tmed.xlsx" |}.
Proof.
  unfold is_temperature, _get_datatype_config, Py.str_in. intros H.
  rewrite H. cbn [existsb] in H.
  repeat (apply orb_true_iff in H as [H | H];
          [apply String.eqb_eq in H; rewrite H; reflexivity |]).
  discriminate.
Qed.

Lemma temperature_values (data_type : string) (url folder filename : string)
    (new_info_dict : list (Z * DataFrame)) :
  is_temperature data_type ->
  datatype_values data_type = Ok (url, new_info_dict, folder, filename) ->
  url = temp_url /\ folder = "Temperatura" /\ filename = "Tmed.xlsx" /\
  map fst new_info_dict = py_range 2024 (now_year + 1) /\
  Forall (fun kv => bulletin (fst kv) = Ok (snd kv)) new_info_dict.
Proof.
  intros Ht H. unfold _get_datatype_values in H.
  rewrite (temperature_config _ Ht) in H. cbn [mbind result_bind] in H.
  apply bind_Ok in H as (d & Hd & H). cbn in H. injection H as <- <- <- <-.
  repeat split; try reflexivity.
  - apply mapM_Ok_Forall2 in Hd. induction Hd as [|y kv ys kvs Hkv _ IH]; [reflexivity |].
    apply bind_Ok in Hkv as (df & _ & [= <-]). simpl. now f_equal.
  - apply mapM_Ok_Forall2 in Hd.
    induction Hd as [|y kv ys kvs Hkv _ IH]; constructor; [| exact IH].
    apply bind_Ok in Hkv as (df & Hdf & [= <-]). exact Hdf.
Qed.

(** [_save_new_info] hands the tables of the dictionary to the writer in
    order, each under its year and the file name; it stops at the first
    file it cannot write. *)
Lemma save_new_info_writes (directory : Path) (filename : string)
    (new_info_dict : list (Z * DataFrame)) :
  forall w r w',
    _save_new_info excel_bytes new_info_dict directory filename w = (r, w') ->
    forecast_requests w' = forecast_requests w /\
    exists written rest,
      new_info_dict = written ++ rest /\
      excel_writes w' = excel_writes w ++ map (saved_as directory filename) written /\
      (r = Ok tt -> rest = []).
Proof.
  unfold _save_new_info.
  induction new_info_dict as [|kv d IH]; intros w r w' H.
  - injection H as <- <-. split; [reflexivity |].
    exists [], []. cbn [map app]. rewrite app_nil_r. auto.
  - cbn [for_each] in H. unfold mbind at 1, M_bind at 1 in H.
    unfold to_excel at 1 in H. unfold mbind at 1, M_bind at 1 in H.
    destruct (write_file _ _ w) as [[[]|e] w1] eqn:Hw;
      destruct (keeps_logs_write_file _ _ _ _ _ Hw) as [Hf1 He1].
    + unfold record_excel_write in H. cbn [forecast_requests excel_writes] in H.
      apply IH in H as (Hf & written & rest & -> & He & Hok).
      cbn [forecast_requests excel_writes] in Hf, He.
      split; [congruence |].
      exists (kv :: written), rest. split; [reflexivity |].
      split; [| exact Hok].
      rewrite He, He1. cbn [map]. rewrite <- app_assoc. reflexivity.
    + injection H as <- <-. split; [exact Hf1 |].
      exists [], (kv :: d). cbn [map app]. rewrite app_nil_r. split; [reflexivity |].
      split; [exact He1 | discriminate].
Qed.

(** C8: a run of [download_conagua] for a temperature data kind does
    what the run without forecast does, whatever [include_pronostico]
    says: it asks nothing of the forecast server, and when it completes
    the tables handed to the writer are exactly the bulletin tables of
    the years 2024 to the current one, as read from the PDF bulletins,
    each saved in the destination directory under its year followed by
    Tmed.xlsx. *)
Theorem temperature_run_skips_forecast (file_location : option string)
    (data_type : string) (include_pronostico : bool) (w : World) :
  is_temperature data_type ->
  let outcome := run file_location data_type include_pronostico w in
  outcome = run file_location data_type false w /\
  forecast_requests (snd outcome) = forecast_requests w /\
  forall dest_dir,
    fst outcome = Ok dest_dir ->
    exists new_info_dict,
      map fst new_info_dict = py_range 2024 (now_year + 1) /\
      Forall (fun kv => bulletin (fst kv) = Ok (snd kv)) new_info_dict /\
      excel_writes (snd outcome) =
        excel_writes w ++ map (saved_as dest_dir "Tmed.xlsx") new_info_dict.
Proof.
  intros Ht. cbv zeta.
  assert (Hsame : run file_location data_type include_pronostico w =
                  run file_location data_type false w).
  { unfold download_conagua, mbind at 1 3, M_bind at 1 3, lift.
    destruct (datatype_values data_type) as [[[[url d] folder] filename]|e] eqn:Hv;
      [| reflexivity].
    destruct (temperature_values _ _ _ _ _ Ht Hv) as (_ & -> & _).
    now rewrite andb_false_r. }
  split; [exact Hsame |]. rewrite Hsame. clear Hsame include_pronostico.
  destruct (run file_location data_type false w) as [r w'] eqn:Hrun. cbn [fst snd].
  unfold download_conagua in Hrun.
  apply M_bind_inv in Hrun as [(v & w0 & Hv & Hrun) | (e & Hv & ->)];
    injection Hv as Hv <-; [| split; [reflexivity | discriminate]].
  destruct v as [[[url d] folder] filename].
  destruct (temperature_values _ _ _ _ _ Ht Hv) as (-> & -> & -> & Hyears & Hpdf).
  apply M_bind_inv in Hrun as [([dest zip] & w1 & H1 & Hrun) | (e & H1 & ->)];
    apply (keeps_logs_bind _ _ (keeps_logs_mkdir_p _) (fun _ => keeps_logs_ret _))
      in H1 as [F1 E1];
    [| split; [exact F1 | discriminate]].
  apply M_bind_inv in Hrun as [([] & w2 & H2 & Hrun) | (e & H2 & ->)];
    apply keeps_logs_download_zip_file in H2 as [F2 E2];
    [| split; [congruence | discriminate]].
  apply M_bind_inv in Hrun as [([] & w3 & H3 & Hrun) | (e & H3 & ->)];
    apply keeps_logs_extract_zip_file in H3 as [F3 E3];
    [| split; [congruence | discriminate]].
  cbn [andb] in Hrun.
  apply M_bind_inv in Hrun as [(d' & w3' & H3' & Hrun) | (e & H3' & ->)];
    [injection H3' as <- <- | unfold mret, M_ret in H3'; discriminate H3'].
  apply M_bind_inv in Hrun as [([] & w4 & H4 & Hrun) | (e & H4 & ->)];
    apply save_new_info_writes in H4 as (F4 & written & rest & Hd & E4 & Hok);
    [| split; [congruence | discriminate]].
  apply M_bind_inv in Hrun as [([] & w5 & H5 & Hrun) | (e & H5 & ->)];
    apply keeps_logs_unlink in H5 as [F5 E5];
    [| split; [congruence | discriminate]].
  injection Hrun as <- <-.
  split; [congruence |].
  intros dest_dir [= <-]. exists d.
  split; [exact Hyears |]. split; [exact Hpdf |].
  rewrite (Hok eq_refl), app_nil_r in Hd. subst written. congruence.
Qed.

End DownloaderProperties.

Lemma temperature_run_skips_forecast_witness :
  temperature_run true = temperature_run false /\
  forecast_requests (snd (temperature_run true)) = [] /\
  fst (temperature_run true) =
    Ok {| anchored := true; parts := ["home"; "u"; "Temperatura"] |}.
Proof.
  destruct (temperature_run_skips_forecast
              "https://smn/lluvia.zip" "https://smn/temp.zip"
              "https://smn/boletin/" "https://smn/" 2025 3
              bulletin_reader bundle_response (fun _ => Some plain_archive)
              (fun _ => Ok brumario_csv) (fun _ _ => [Byte.x58])
              no_transliteration (fun _ => "x") (fun _ => "t")
              None "Temperatura" true home_world) as (Hsame & Hreq & _).
  { reflexivity. }
  split; [exact Hsame |]. split; [exact Hreq |]. reflexivity.
Defined.

(** ** Filtering by date *)

Lemma S_bind_inv {A B} (m : S A) (k : A -> S B) (h h' : Store) (r : result B) :
  (m ≫= k) h = (r, h') ->
  (exists a h1, m h = (Ok a, h1) /\ k a h1 = (r, h')) \/
  (exists e, m h = (Raise e, h') /\ r = Raise e).
Proof.
  unfold mbind, S_bind. destruct (m h) as [[a|e] h1].
  - intros H. left. eauto.
  - intros [= <- <-]. right. eauto.
Qed.

Lemma keeps_objects_refl (h : Store) : keeps_objects h h.
Proof. intros l obj H. exact H. Qed.

Lemma keeps_objects_new (h h1 : Store) (df : DataFrame) :
  keeps_objects h h1 -> keeps_objects h (<[fresh (dom h1) := df]> h1).
Proof.
  intros Hk l obj Hl. rewrite lookup_insert_ne; [now apply Hk |].
  intros <-. apply Hk in Hl.
  apply (is_fresh (dom h1)). apply elem_of_dom. eauto.
Qed.

Section FilterDataProperties.

Variable to_datetime_index : list value -> result (list value).
Variable to_datetime_text : string -> result Timestamp.

Local Abbreviation filtrar := (filtrar_datos to_datetime_index to_datetime_text).

Lemma convert_date_pure (date : option string) (h h' : Store)
    (r : result (option Timestamp)) :
  convert_date to_datetime_text date h = (r, h') -> h' = h.
Proof.
  unfold convert_date. destruct date as [s|]; [| now intros [= _ <-]].
  destruct (nonempty s); [| now intros [= _ <-]].
  intros H. apply S_bind_inv in H as [(t & h1 & [= _ <-] & [= _ <-]) | (e & [= _ <-] & _)];
    reflexivity.
Qed.

Lemma convert_date_untruthy (date : option string) (h : Store) :
  truthy date = false -> convert_date to_datetime_text date h = (Ok None, h).
Proof.
  unfold truthy, convert_date. destruct date as [s|]; [| reflexivity].
  now intros ->.
Qed.

Lemma copy_store (df : ref) (h h' : Store) (r : result ref) :
  copy df h = (r, h') ->
  (exists o, h !! df = Some o /\ r = Ok (fresh (dom h)) /\
             h' = <[fresh (dom h) := o]> h) \/
  (h' = h /\ exists e, r = Raise e).
Proof.
  unfold copy, deref, new_object, mbind, S_bind.
  destruct (h !! df) as [o|]; intros [= <- <-]; [left | right]; eauto.
Qed.

Lemma ensure_datetime_index_store (clima : ref) (h h' : Store) (r : result unit) :
  ensure_datetime_index to_datetime_index clima h = (r, h') ->
  h' = h \/ exists o, h' = <[clima := o]> h.
Proof.
  unfold ensure_datetime_index, deref, assign, s_lift, mbind, S_bind.
  destruct (h !! clima) as [t|]; [| intros [= _ <-]; now left].
  destruct (is_datetime_index t); [intros [= _ <-]; now left |].
  destruct (to_datetime_index (index t)) as [labels|e]; [| intros [= _ <-]; now left].
  destruct (bool_decide _); intros [= _ <-]; [right; eauto | now left].
Qed.

Lemma select_store (clima : ref) (keep : value -> bool) (h h' : Store) (r : result ref) :
  (t ← deref clima; new_object (loc_mask keep t)) h = (r, h') ->
  h' = h \/ exists o, h' = <[fresh (dom h) := o]> h.
Proof.
  unfold deref, new_object, mbind, S_bind.
  destruct (h !! clima) as [t|]; intros [= _ <-]; [right; eauto | now left].
Qed.

(** The copy made at entry is a new object; everything the function
    changes afterwards is that copy or newer. *)
Lemma filtrar_datos_keeps_objects (df : ref) (start_date end_date : option string)
    (h h' : Store) (r : result ref) :
  filtrar df start_date end_date h = (r, h') -> keeps_objects h h'.
Proof.
  unfold filtrar_datos. intros H.
  apply S_bind_inv in H as [(clima & h1 & Hcopy & H) | (e & Hcopy & _)].
  2:{ apply copy_store in Hcopy as [(o & _ & [=] & _) | (-> & _)].
      apply keeps_objects_refl. }
  apply copy_store in Hcopy as [(o & _ & [= ->] & ->) | (_ & e' & [=])].
  assert (Hk1 : forall o', keeps_objects h (<[fresh (dom h) := o']> h))
    by (intros o'; apply keeps_objects_new, keeps_objects_refl).
  assert (Hens : forall h2 (r2 : result unit),
             ensure_datetime_index to_datetime_index (fresh (dom h))
               (<[fresh (dom h) := o]> h) = (r2, h2) ->
             exists o', h2 = <[fresh (dom h) := o']> h).
  { intros h2 r2 Hens. apply ensure_datetime_index_store in Hens as [-> | (o' & ->)];
      [eauto |]. rewrite insert_insert_eq. eauto. }
  apply S_bind_inv in H as [([] & h2 & H2 & H) | (e & H2 & _)];
    apply Hens in H2 as (o' & ->); [| apply Hk1].
  apply S_bind_inv in H as [(s & h3 & Hs & H) | (e & Hs & _)];
    apply convert_date_pure in Hs; subst; [| apply Hk1].
  apply S_bind_inv in H as [(e & h4 & He & H) | (e & He & _)];
    apply convert_date_pure in He; subst; [| apply Hk1].
  assert (Hsel : forall keep,
             (t ← deref (fresh (dom h)); new_object (loc_mask keep t))
               (<[fresh (dom h) := o']> h) = (r, h') ->
             keeps_objects h h').
  { intros keep Hsel. apply select_store in Hsel as [-> | (o2 & ->)]; [apply Hk1 |].
    apply keeps_objects_new, Hk1. }
  destruct s as [s|], e as [e|]; try (eapply Hsel; exact H).
  injection H as _ <-. apply Hk1.
Qed.

(** C10 (as the code has it): [filtrar_datos] works on a copy, so the
    table passed in, like every other table of the store, is left as it
    was, whatever the dates and whatever the outcome.  Called with
    neither a start nor an end date on a table whose index already holds
    timestamps, it returns a new table equal to the input. *)
Theorem filtrar_datos_leaves_input (df : ref) (start_date end_date : option string)
    (h : Store) (input : DataFrame) :
  h !! df = Some input ->
  let outcome := filtrar df start_date end_date h in
  snd outcome !! df = Some input /\
  (truthy start_date = false -> truthy end_date = false ->
   is_datetime_index input = true ->
   exists l, fst outcome = Ok l /\ l <> df /\ snd outcome !! l = Some input).
Proof.
  intros Hdf. cbv zeta. split.
  - destruct (filtrar df start_date end_date h) as [r h'] eqn:H.
    apply filtrar_datos_keeps_objects in H. now apply H.
  - intros Hs He Hidx. exists (fresh (dom h)).
    assert (Hrun : filtrar df start_date end_date h =
                   (Ok (fresh (dom h)), <[fresh (dom h) := input]> h)).
    { unfold filtrar_datos, copy, deref, new_object, mbind, S_bind.
      rewrite Hdf. unfold ensure_datetime_index, deref, mbind, S_bind.
      rewrite lookup_insert_eq, Hidx. unfold mret, S_ret.
      rewrite (convert_date_untruthy _ _ Hs), (convert_date_untruthy _ _ He).
      reflexivity. }
    rewrite Hrun. cbn [fst snd].
    split; [reflexivity |]. split; [| apply lookup_insert_eq].
    intros Heq. apply (is_fresh (dom h)). rewrite Heq.
    apply elem_of_dom. eauto.
Qed.

End FilterDataProperties.

Lemma filtrar_datos_leaves_input_witness :
  let outcome := filtrar_datos parse_iso_index parse_iso_date 1%positive None None
                   {[ 1%positive := dated_series ]} in
  snd outcome !! 1%positive = Some dated_series /\
  exists l, fst outcome = Ok l /\ l <> 1%positive /\ snd outcome !! l = Some dated_series.
Proof.
  destruct (filtrar_datos_leaves_input parse_iso_index parse_iso_date 1%positive
              None None {[ 1%positive := dated_series ]} dated_series)
    as [Hinput Hequal].
  { reflexivity. }
  split; [exact Hinput |]. apply Hequal; reflexivity.
Defined.

(** C10, as stated, fails in its second half: called with no dates on a
    table indexed by date texts, [filtrar_datos] returns a table whose
    index has been converted to timestamps, which is not the input table
    (the input itself stays as it was). *)
Lemma text_index_is_converted_without_dates :
  let outcome := filtrar_datos parse_iso_index parse_iso_date 1%positive None None
                   {[ 1%positive := text_indexed_series ]} in
  fst outcome = Ok 2%positive /\
  snd outcome !! 2%positive = Some dated_series /\
  dated_series <> text_indexed_series /\
  snd outcome !! 1%positive = Some text_indexed_series.
Proof.
  cbv zeta. repeat split; try (vm_compute; reflexivity). discriminate.
Qed.

(** * Further properties of the code *)

(** ** The retrieval loop, from any month *)

Section RetrievalProperties.

Variable pronostic_url : string.
Variable dataset : Type.
Variable retrieve : string -> result dataset.

Local Abbreviation url := (_generate_pronostic_url pronostic_url).
Local Abbreviation latest :=
  (get_latest_valid_pronostic pronostic_url dataset retrieve).

(** X1: started in any month, [get_latest_valid_pronostic] asks for the
    bundle of the current month first and then for that of the month
    before, which is again a month of the calendar, and for nothing
    else.  What it returns is what the last location asked for yielded,
    every location before it having failed; when it raises, both
    locations failed and the error is the generic one, whatever the
    retrievals raised. *)
Theorem retrieval_asks_backwards_from_now (now_year now_month : Z) (tipo : string)
    (r : retrieval dataset) :
  1 <= now_month <= 12 ->
  latest now_year now_month tipo = Some r ->
  let previous := step_back now_year now_month in
  1 <= snd previous <= 12 /\
  tried dataset r `prefix_of`
    [url now_year now_month tipo; url (fst previous) (snd previous) tipo] /\
  (forall d, outcome dataset r = Ok d ->
     exists front u,
       tried dataset r = front ++ [u] /\ retrieve u = Ok d /\
       Forall (fun u' => exists e, retrieve u' = Raise e) front) /\
  (forall e, outcome dataset r = Raise e ->
     e = PlainException "No valid pronostic file found in the last 2 months." /\
     length (tried dataset r) = 2%nat /\
     Forall (fun u' => exists e', retrieve u' = Raise e') (tried dataset r)).
Proof.
  intros Hm Hrun. cbv zeta.
  split.
  { unfold step_back. destruct (Z.ltb_spec (now_month - 1) 1); simpl; lia. }
  revert Hrun. unfold get_latest_valid_pronostic.
  change (Z.to_nat max_attempts) with 2%nat.
  cbn [retrieval_loop]. change (0 <? max_attempts) with true. cbv iota.
  destruct (retrieve (url now_year now_month tipo)) as [d1|e1] eqn:H1.
  - intros [= <-]. cbn [tried outcome app]. split; [| split].
    + now exists [url (fst (step_back now_year now_month))
                      (snd (step_back now_year now_month)) tipo].
    + intros d [= <-]. exists [], (url now_year now_month tipo).
      split; [reflexivity |]. split; [exact H1 | constructor].
    + intros e [=].
  - destruct (step_back now_year now_month) as [y m] eqn:Hstep. cbn [fst snd].
    change (0 + 1 <? max_attempts) with true. cbv iota.
    destruct (retrieve (url y m tipo)) as [d2|e2] eqn:H2.
    + intros [= <-]. cbn [tried outcome app]. split; [| split].
      * now exists [].
      * intros d [= <-]. exists [url now_year now_month tipo], (url y m tipo).
        split; [reflexivity |]. split; [exact H2 |].
        constructor; [eauto | constructor].
      * intros e [=].
    + destruct (step_back y m) as [y' m']. cbv iota beta.
      change (0 + 1 + 1 <? max_attempts) with false. cbv iota.
      intros [= <-]. cbn [tried outcome app]. split; [| split].
      * now exists [].
      * intros d [=].
      * intros e [= <-]. split; [reflexivity |]. split; [reflexivity |].
        repeat constructor; eauto.
Qed.

End RetrievalProperties.

Lemma retrieval_asks_backwards_from_now_witness :
  tried nat {| outcome := Ok 7%nat;
               tried := ["https://smn/01-EFM-Pronostico-de-Enero-2025-Lluvia.zip";
                         "https://smn/12-DEF-Pronostico-de-Diciembre-2024-Lluvia.zip"] |}
    `prefix_of`
    [_generate_pronostic_url "https://smn/" 2025 1 "Lluvia";
     _generate_pronostic_url "https://smn/" 2024 12 "Lluvia"].
Proof.
  refine (proj1 (proj2 (retrieval_asks_backwards_from_now "https://smn/" nat
                          only_december_2024 2025 1 "Lluvia" _ _ _))).
  - lia.
  - reflexivity.
Defined.

(** ** The month tables of the two modules *)

(** X2: the month tables agree.  The name that [_generate_pronostic_url]
    gives a month number is, in lower case, a key of [month_map], and the
    abbreviation found there is the header that [_clean_data] maps back
    to that month number; and every abbreviation of [month_map] is such a
    header. *)
Theorem month_tables_agree (month : Z) (name : string) :
  month_names month = Some name ->
  1 <= month <= 12 /\
  exists abbr,
    month_map !! Py.lower name = Some abbr /\
    header_map (VStr abbr) = VInt month /\
    forall key, month_map !! key = Some abbr -> key = Py.lower name.
Proof.
  intros H.
  assert (Hcases : In (month, name)
                     [(1, "Enero"); (2, "Febrero"); (3, "Marzo"); (4, "Abril");
                      (5, "Mayo"); (6, "Junio"); (7, "Julio"); (8, "Agosto");
                      (9, "Septiembre"); (10, "Octubre"); (11, "Noviembre");
                      (12, "Diciembre")]%string).
  { destruct month as [|p|p]; try discriminate H.
    do 4 (try destruct p as [p|p|]); try discriminate H;
      injection H as <-; cbn [In]; tauto. }
  assert (Hkeys : forall key abbr,
             month_map !! key = Some abbr ->
             In (key, abbr)
                [("enero", "ene"); ("febrero", "feb"); ("marzo", "mar");
                 ("abril", "abr"); ("mayo", "may"); ("junio", "jun");
                 ("julio", "jul"); ("agosto", "ago"); ("septiembre", "sep");
                 ("octubre", "oct"); ("noviembre", "nov"); ("diciembre", "dic")]%string).
  { intros key abbr Hk. apply elem_of_list_to_map_2 in Hk.
    now apply list_elem_of_In in Hk. }
  cbn [In] in Hcases.
  assert (Hcase : forall abbr,
             month_map !! Py.lower name = Some abbr ->
             header_map (VStr abbr) = VInt month ->
             (forall key, In (key, abbr)
                [("enero", "ene"); ("febrero", "feb"); ("marzo", "mar");
                 ("abril", "abr"); ("mayo", "may"); ("junio", "jun");
                 ("julio", "jul"); ("agosto", "ago"); ("septiembre", "sep");
                 ("octubre", "oct"); ("noviembre", "nov"); ("diciembre", "dic")]%string ->
                key = Py.lower name) ->
             exists abbr,
               month_map !! Py.lower name = Some abbr /\
               header_map (VStr abbr) = VInt month /\
               forall key, month_map !! key = Some abbr -> key = Py.lower name).
  { intros abbr H1 H2 H3. exists abbr. repeat split; auto. }
  assert (Hrange : 1 <= month <= 12).
  { repeat (destruct Hcases as [[= <- _] | Hcases]; [lia |]). destruct Hcases. }
  split; [exact Hrange |]. clear Hrange H.
  repeat (destruct Hcases as [[= <- <-] | Hcases];
          [eapply Hcase; [vm_compute; reflexivity | reflexivity |];
           intros key Hk; cbn [In] in Hk;
           repeat (destruct Hk as [Hk | Hk];
                   [pose proof (f_equal fst Hk) as Hkey; apply (f_equal snd) in Hk;
                    cbn [fst snd] in Hk, Hkey; subst key;
                    first [discriminate Hk | reflexivity] |]);
           destruct Hk |]).
  destruct Hcases.
Qed.

Lemma month_tables_agree_witness :
  exists abbr,
    month_map !! Py.lower "Marzo" = Some abbr /\
    header_map (VStr abbr) = VInt 3 /\
    forall key, month_map !! key = Some abbr -> key = Py.lower "Marzo".
Proof.
  exact (proj2 (month_tables_agree 3 "Marzo" eq_refl)).
Defined.

(** ** From the saved bulletins back to the normaliser *)

Lemma search_year_app (s t : string) (y : Z) :
  search_year s = Some y -> search_year (s +:+ t) = Some y.
Proof.
  induction s as [|a s IH]; [discriminate |].
  destruct s as [|b [|c [|d s']]]; try discriminate.
  intros H. cbn [search_year] in H.
  change (String a (String b (String c (String d s'))) +:+ t)
    with (String a (String b (String c (String d (s' +:+ t))))).
  cbn [search_year].
  destruct (Py.is_digit a && Py.is_digit b && Py.is_digit c && Py.is_digit d);
    [exact H |].
  apply IH in H. exact H.
Qed.

(** Checking a property of integers on a whole range by running it. *)
Lemma checked_on_range (check : Z -> bool) (lo : Z) (n : nat) :
  let st := Nat.iter n (fun st => (fst st + 1, snd st && check (fst st))) (lo, true) in
  fst st = lo + Z.of_nat n /\
  (snd st = true -> forall y, lo <= y < lo + Z.of_nat n -> check y = true).
Proof.
  cbv zeta. set (f := fun st : Z * bool => (fst st + 1, snd st && check (fst st))).
  induction n as [|n [IHc IHs]].
  - split; [simpl; lia | intros _ y Hy; lia].
  - change (Nat.iter (Datatypes.S n) f (lo, true)) with (f (Nat.iter n f (lo, true))).
    unfold f at 1 3. cbn [fst snd]. split; [rewrite IHc; lia |].
    intros H y Hy. apply andb_true_iff in H as [Hs Hlast].
    destruct (Z.eq_dec y (lo + Z.of_nat n)) as [-> | Hne].
    + now rewrite <- IHc.
    + apply IHs; [exact Hs | lia].
Qed.

Lemma search_year_str_of_Z (year : Z) :
  1000 <= year <= 9999 -> search_year (Py.str_of_Z year) = Some year.
Proof.
  intros H.
  pose proof (checked_on_range
                (fun y => match search_year (Py.str_of_Z y) with
                          | Some y' => y' =? y
                          | None => false
                          end) 1000 (Z.to_nat 9000)) as [_ Hall].
  specialize (Hall ltac:(vm_compute; reflexivity) year ltac:(lia)).
  cbv beta in Hall. destruct (search_year (Py.str_of_Z year)); [| discriminate].
  apply Z.eqb_eq in Hall. now subst.
Qed.

Lemma length_append (s t : string) :
  String.length (s +:+ t) = (String.length s + String.length t)%nat.
Proof. induction s as [|a s IH]; [reflexivity |]. simpl. now rewrite IH. Qed.

Lemma drop_append (s t : string) : Py.drop (String.length s) (s +:+ t) = t.
Proof. induction s as [|a s IH]; [now destruct t | exact IH]. Qed.

Lemma drop_drop (n m : nat) (s : string) :
  Py.drop n (Py.drop m s) = Py.drop (m + n) s.
Proof.
  revert s. induction m as [|m IH]; intros s; [reflexivity |].
  destruct s as [|a s]; [now destruct n |]. exact (IH s).
Qed.

(** [(s + t).endswith(p)] looks at [t] alone when [p] is not longer. *)
Lemma endswith_append (p s t : string) :
  (String.length p <= String.length t)%nat ->
  Py.endswith p (s +:+ t) = Py.endswith p t.
Proof.
  intros H. unfold Py.endswith. rewrite length_append.
  destruct (Nat.leb_spec (String.length p) (String.length t)); [| lia].
  destruct (Nat.leb_spec (String.length p) (String.length s + String.length t)); [| lia].
  replace (String.length s + String.length t - String.length p)%nat
    with (String.length s + (String.length t - String.length p))%nat by lia.
  now rewrite <- drop_drop, drop_append.
Qed.

Section SavedBulletins.

Variable rain_url : string.
Variable temp_url : string.

(** X3: the name under which [_save_new_info] stores the bulletin of a
    four-digit year, for either data kind, is one that
    [get_dataframes_files_path] reads with the openpyxl engine and in
    which [_clean_data] finds that year. *)
Theorem saved_bulletin_is_read_back_with_its_year (data_type : string)
    (config : datatype_config) (year : Z) :
  _get_datatype_config rain_url temp_url data_type = Ok config ->
  1000 <= year <= 9999 ->
  let name := Py.str_of_Z year +:+ cfg_filename config in
  search_year name = Some year /\
  Py.endswith ".xls" name = false /\
  Py.endswith ".xlsx" name = true.
Proof.
  intros Hc Hy. cbv zeta.
  split; [apply search_year_app, search_year_str_of_Z, Hy |].
  unfold _get_datatype_config in Hc.
  destruct (Py.str_in _ _); [injection Hc as <- |
    destruct (Py.str_in _ _); [injection Hc as <- | discriminate Hc]];
    cbn [cfg_filename]; rewrite !endswith_append by (simpl; lia); split; reflexivity.
Qed.

End SavedBulletins.

Lemma saved_bulletin_is_read_back_with_its_year_witness :
  search_year "2025Precip.xlsx" = Some 2025 /\
  Py.endswith ".xls" "2025Precip.xlsx" = false /\
  Py.endswith ".xlsx" "2025Precip.xlsx" = true.
Proof.
  apply (saved_bulletin_is_read_back_with_its_year "r" "t" "Lluvia"
           {| zip_url := "r"; pdf_folder := "PREC";
              default_folder := "Precipitacion"; cfg_filename := "Precip.xlsx" |} 2025).
  - reflexivity.
  - lia.
Defined.

(** ** Normalising a directory: what is loaded, what fails, the order *)

Lemma read_file_reads_only (p : Path) (w w' : World) (r : result bytes) :
  read_file p w = (r, w') -> w' = w.
Proof.
  unfold read_file.
  destruct (last (parts p)); [| now intros [= _ <-]].
  destruct (enter _ _ _); [| now intros [= _ <-]].
  destruct (files _ !! _); now intros [= _ <-].
Qed.

Lemma dict_insert_In {V} (k : string) (v : V) (d : list (string * V)) (kv : string * V) :
  In kv (dict_insert k v d) -> kv = (k, v) \/ In kv d.
Proof.
  unfold dict_insert. destruct (existsb _ d).
  - rewrite in_map_iff. intros (kv' & <- & Hin).
    destruct (String.eqb (fst kv') k); auto.
  - rewrite in_app_iff. cbn [In]. intuition.
Qed.

Lemma dict_insert_keys {V} (k : string) (v : V) (d : list (string * V)) :
  map fst (dict_insert k v d) = map fst d \/ map fst (dict_insert k v d) = map fst d ++ [k].
Proof.
  unfold dict_insert. destruct (existsb _ d).
  - left. rewrite map_map. apply map_ext. intros kv.
    destruct (String.eqb_spec (fst kv) k); [now subst | reflexivity].
  - right. now rewrite map_app.
Qed.

Lemma dict_insert_nonempty {V} (k : string) (v : V) (d : list (string * V)) :
  dict_insert k v d <> [].
Proof.
  unfold dict_insert. destruct d as [|kv d]; [discriminate |].
  destruct (existsb _ _); [discriminate |]. now destruct d.
Qed.

Lemma mapM_Raise {A B} (f : A -> result B) (l : list A) (x : A) (e : exn) :
  In x l -> f x = Raise e -> exists e', mapM f l = Raise e'.
Proof.
  induction l as [|x0 l IH]; intros Hin Hx; [destruct Hin |].
  cbn [mapM]. destruct (f x0) as [y|e0] eqn:H0; [| now exists e0].
  destruct Hin as [-> | Hin]; [congruence |].
  destruct (IH Hin Hx) as [e' He']. exists e'.
  cbn [mbind result_bind]. now rewrite He'.
Qed.

Lemma not_later_trans (a b c : value) : not_later a b -> not_later b c -> not_later a c.
Proof.
  destruct a, b, c; cbn [not_later]; try contradiction. apply ts_leb_trans.
Qed.

Lemma combine_seq_nth {A} (l : list A) (a j : nat) (c d : A) :
  In (j, c) (combine (seq a (length l)) l) -> (a <= j)%nat /\ nth (j - a) l d = c.
Proof.
  revert a. induction l as [|x l IH]; intros a Hin; [destruct Hin |].
  cbn [length seq combine] in Hin. destruct Hin as [[= <- <-] | Hin].
  - split; [lia |]. now rewrite Nat.sub_diag.
  - apply IH in Hin as [Hle Hnth]. split; [lia |].
    replace (j - a)%nat with (Datatypes.S (j - Datatypes.S a)) by lia. exact Hnth.
Qed.

Lemma positions_cell (l : value) (cols : list value) (j : nat) :
  In j (positions l cols) -> cell cols j = l.
Proof.
  unfold positions, cell. rewrite in_map_iff.
  intros ([j' c] & <- & Hin). apply filter_In in Hin as [Hin Heq].
  cbn [fst snd] in *. apply bool_decide_eq_true_1 in Heq. subst c.
  apply (combine_seq_nth _ _ _ _ VNaN) in Hin as [_ Hnth].
  now rewrite Nat.sub_0_r in Hnth.
Qed.

Lemma select_columns_columns (labels : list string) (df out : DataFrame) :
  select_columns labels df = Ok out ->
  (forall l, In l labels -> In (VStr l) (columns out)) /\
  (forall c, In c (columns out) -> exists l, In l labels /\ c = VStr l).
Proof.
  unfold select_columns.
  destruct (List.filter _ labels) as [|l0 ?] eqn:Hf; [| discriminate].
  intros [= <-]. cbn [columns]. split.
  - intros l Hl.
    assert (Hin : label_in (VStr l) (columns df) = true).
    { destruct (label_in (VStr l) (columns df)) eqn:Hin; [reflexivity |].
      assert (Habs : In l (List.filter
                             (fun l => negb (label_in (VStr l) (columns df))) labels)).
      { apply filter_In. split; [exact Hl |]. now rewrite Hin. }
      rewrite Hf in Habs. destruct Habs. }
    apply positions_present in Hin.
    destruct (positions (VStr l) (columns df)) as [|j ps] eqn:Hp; [contradiction |].
    apply in_map_iff. exists j. split.
    + apply positions_cell. rewrite Hp. now left.
    + apply in_flat_map. exists l. split; [exact Hl |]. rewrite Hp. now left.
  - intros c Hc. apply in_map_iff in Hc as (j & <- & Hj).
    apply in_flat_map in Hj as (l & Hl & Hj).
    exists l. split; [exact Hl |]. now apply positions_cell.
Qed.

(** Sorted labels of an index of dates: the timestamps in chronological
    order, then the missing dates. *)
Lemma sorted_labels_dated (ls : list value) :
  sorted_labels ls -> Forall (fun l => is_time_or_nat l = true) ls ->
  exists dated undated,
    ls = dated ++ undated /\
    chronological dated /\
    Forall (fun l => is_time l = true) dated /\
    Forall (fun l => l = VNaT) undated.
Proof.
  unfold sorted_labels, chronological.
  induction ls as [|a ls IH]; intros Hs Hall.
  - exists [], []. repeat split; constructor.
  - apply StronglySorted_inv in Hs as [Hs Hle].
    inversion Hall as [|? ? Ha Hall']; subst.
    destruct (IH Hs Hall') as (dated & undated & -> & Hd & Ht & Hu).
    destruct a; try discriminate Ha.
    + exists (VTime t :: dated), undated. split; [reflexivity |].
      split; [| split; [now constructor | exact Hu]].
      constructor; [exact Hd |].
      apply Forall_app in Hle as [Hle _].
      apply List.Forall_forall. intros x Hx.
      pose proof (proj1 (List.Forall_forall _ _) Hle x Hx) as H1.
      pose proof (proj1 (List.Forall_forall _ _) Ht x Hx) as H2.
      destruct x; try discriminate H2. exact H1.
    + exists [], (VNaT :: dated ++ undated). split; [reflexivity |].
      split; [constructor |]. split; [constructor |].
      constructor; [reflexivity |].
      apply List.Forall_forall. intros x Hx.
      pose proof (proj1 (List.Forall_forall _ _) Hle x Hx) as H1.
      pose proof (proj1 (List.Forall_forall _ _) Hall' x Hx) as H2.
      destruct x; try discriminate H2; [discriminate H1 | reflexivity].
Qed.

Section DirectoryProperties.

Variable edge_case_rain : string.
Variable edge_case_temp : string.
Variable order_col : list string.
Variable unidecode_table : ascii -> string.
Variable float_repr : Z -> string.
Variable time_repr : Timestamp -> string.
Variable read_excel : string -> bytes -> result DataFrame.
Variable iterdir_order : FS -> node -> list nat.
Variable ties : list (value * list value) -> list nat.

Local Abbreviation clean_data :=
  (_clean_data edge_case_rain edge_case_temp unidecode_table float_repr time_repr).
Local Abbreviation clean :=
  (clean_year edge_case_rain edge_case_temp unidecode_table float_repr time_repr).
Local Abbreviation tables :=
  (process_tables edge_case_rain edge_case_temp order_col unidecode_table
     float_repr time_repr ties).
Local Abbreviation process :=
  (process_data edge_case_rain edge_case_temp order_col unidecode_table
     float_repr time_repr read_excel iterdir_order ties).

Local Abbreviation loaded_from := (loaded_from read_excel).

Lemma load_file_result (directory : Path) (d : list (string * DataFrame))
    (file : string) (w : World) :
  load_file read_excel directory d file w = (Ok d, w) \/
  exists df, load_file read_excel directory d file w = (Ok (dict_insert file df d), w) /\
             loaded_from directory w file df.
Proof.
  unfold load_file, try_read, loaded_from.
  destruct (Py.endswith ".xls" file) eqn:Hxls.
  - destruct (read_file _ w) as [[data|e] w1] eqn:Hr; [| now left].
    pose proof (read_file_reads_only _ _ _ _ Hr) as ->.
    destruct (read_excel "xlrd" data) as [df|e] eqn:Hx; [| now left].
    right. exists df. split; [reflexivity |]. exists "xlrd"%string, data. auto.
  - destruct (Py.endswith ".xlsx" file) eqn:Hxlsx; [| now left].
    destruct (read_file _ w) as [[data|e] w1] eqn:Hr; [| now left].
    pose proof (read_file_reads_only _ _ _ _ Hr) as ->.
    destruct (read_excel "openpyxl" data) as [df|e] eqn:Hx; [| now left].
    right. exists df. split; [reflexivity |]. exists "openpyxl"%string, data. auto.
Qed.

(** X4: [get_dataframes_files_path] never raises and changes nothing.
    The names of the tables it returns are names of the list it was
    given, in the order of the list, and each table is what the reader
    made, with the engine the extension selects (xlrd for .xls, openpyxl
    for .xlsx), of the file of that name in the directory; files of
    another extension and files that cannot be read are left out. *)
Theorem unreadable_files_are_skipped (directory : Path) (list_files : list string)
    (w : World) :
  exists dict_of_files,
    get_dataframes_files_path read_excel directory list_files w = (Ok dict_of_files, w) /\
    map fst dict_of_files `sublist_of` list_files /\
    forall file df, In (file, df) dict_of_files -> loaded_from directory w file df.
Proof.
  unfold get_dataframes_files_path.
  assert (H : forall (names done : list string) (acc : M (list (string * DataFrame))) d0,
             acc w = (Ok d0, w) ->
             map fst d0 `sublist_of` done ->
             (forall file df, In (file, df) d0 -> loaded_from directory w file df) ->
             exists d,
               foldl (fun acc file => d ← acc; load_file read_excel directory d file)
                     acc names w = (Ok d, w) /\
               map fst d `sublist_of` done ++ names /\
               forall file df, In (file, df) d -> loaded_from directory w file df).
  { induction names as [|f names IH]; intros done acc d0 Hacc Hsub Hfrom.
    - exists d0. rewrite app_nil_r. auto.
    - cbn [foldl].
      replace (done ++ f :: names) with ((done ++ [f]) ++ names)
        by now rewrite <- app_assoc.
      destruct (load_file_result directory d0 f w) as [Hl | (df & Hl & Hdf)].
      + apply (IH (done ++ [f]) _ d0).
        * unfold mbind, M_bind. now rewrite Hacc.
        * now apply sublist_inserts_r.
        * exact Hfrom.
      + apply (IH (done ++ [f]) _ (dict_insert f df d0)).
        * unfold mbind, M_bind. now rewrite Hacc.
        * destruct (dict_insert_keys f df d0) as [-> | ->].
          { now apply sublist_inserts_r. }
          { now apply sublist_app. }
        * intros file df' Hin. apply dict_insert_In in Hin as [[= -> ->] | Hin]; auto. }
  apply (H list_files [] (mret []) []); [reflexivity | constructor |].
  intros file df [].
Qed.

(** X5: on a directory that holds no file named *.xls or *.xlsx, an
    empty directory included, [process_data] raises the [ValueError] of
    [pd.concat] on no tables, "No objects to concatenate", and leaves the
    world as it was. *)
Theorem directory_without_spreadsheets (directory : Path) (order_cols : bool)
    (w : World) (d : node) :
  enter (fs w) (start_of w directory) (parts directory) = Some d ->
  (forall file, In file (file_names_in (fs w) d) ->
                Py.endswith ".xls" file = false /\ Py.endswith ".xlsx" file = false) ->
  process directory order_cols w = (Raise (ValueError "No objects to concatenate"), w).
Proof.
  intros Hd Hnone. rewrite process_data_load.
  assert (H : forall names (acc : M (list (string * DataFrame))),
             (forall file, In file names ->
                Py.endswith ".xls" file = false /\ Py.endswith ".xlsx" file = false) ->
             acc w = (Ok [], w) ->
             foldl (fun acc file => d ← acc; load_file read_excel directory d file)
                   acc names w = (Ok [], w)).
  { induction names as [|f names IH]; intros acc Hf Hacc; [exact Hacc |].
    cbn [foldl]. apply IH; [intros file Hin; apply Hf; now right |].
    unfold mbind, M_bind. rewrite Hacc. unfold load_file.
    destruct (Hf f) as [-> ->]; [now left | reflexivity]. }
  assert (Hload : get_dataframes_files_path read_excel directory
                    (rearrange (iterdir_order (fs w) d) (file_names_in (fs w) d)) w
                  = (Ok [], w)).
  { apply (H _ (mret [])); [| reflexivity].
    intros file Hin. apply Hnone.
    exact (Permutation_in _ (rearrange_perm _ _) Hin). }
  unfold load_directory, mbind, M_bind, get_list_files_in_directory.
  rewrite Hd, Hload. reflexivity.
Qed.

(** X6: a file whose name holds no four consecutive digits cannot be
    normalised: its entry alone raises [AttributeError] (the year is
    looked up with [re.search(...).group(0)]), and a dictionary that
    holds such an entry makes [_clean_data] raise. *)
Theorem file_name_without_year_fails (climate_dict : list (string * DataFrame))
    (name : string) (df : DataFrame) :
  search_year name = None ->
  clean name df = Raise AttributeError /\
  (In (name, df) climate_dict -> exists e, clean_data climate_dict = Raise e).
Proof.
  intros Hy.
  assert (Hclean : clean name df = Raise AttributeError).
  { unfold clean_year, canonical_table, str_lower_strip. rewrite Hy.
    destruct (columns df); [reflexivity |].
    destruct (_ || _); reflexivity. }
  split; [exact Hclean |].
  intros Hin. unfold _clean_data.
  destruct (mapM_Raise (fun kv => clean (fst kv) (snd kv)) climate_dict (name, df)
              AttributeError Hin Hclean) as [e He].
  exists e. now rewrite He.
Qed.

Lemma process_tables_sorted (order_cols : bool)
    (df_dict : list (string * DataFrame)) (series : DataFrame) :
  tables order_cols df_dict = Ok series ->
  sorted_labels (index series) /\
  Forall (fun l => is_time_or_nat l = true) (index series).
Proof.
  unfold process_tables. intros H.
  apply bind_Ok in H as (cleaned & _ & H).
  apply bind_Ok in H as (sorted & Hs & H).
  apply sort_index_sorted in Hs.
  destruct order_cols; [| now injection H as <-].
  apply select_columns_index in H. now rewrite H.
Qed.

Lemma process_data_sorted (directory : Path) (order_cols : bool)
    (w : World) (series : DataFrame) :
  fst (process directory order_cols w) = Ok series ->
  sorted_labels (index series) /\
  Forall (fun l => is_time_or_nat l = true) (index series).
Proof.
  rewrite process_data_load.
  destruct (load_directory read_excel iterdir_order directory w) as [[df_dict|e] w1];
    [| discriminate].
  cbn [fst]. apply process_tables_sorted.
Qed.

(** X7: the rows of the table that [process_data] returns come in date
    order: first the rows labelled with a timestamp, in chronological
    order, then the rows without a date, which the months under a
    header the code does not know become; no row carries another label.
    This holds whatever the order in which the directory lists its
    files and whatever the sort does with equal dates. *)
Theorem process_data_rows_in_date_order (directory : Path) (order_cols : bool)
    (w : World) (series : DataFrame) :
  fst (process directory order_cols w) = Ok series ->
  exists dated undated,
    index series = dated ++ undated /\
    chronological dated /\
    Forall (fun l => is_time l = true) dated /\
    Forall (fun l => l = VNaT) undated.
Proof.
  intros H. apply process_data_sorted in H as [Hs Hall].
  now apply sorted_labels_dated.
Qed.

(** X8: with [order_cols] the columns of the result are those named by
    the configured [order_col]: each configured name heads a column, and
    no column has another name. *)
Theorem process_data_columns_as_configured (directory : Path) (w : World)
    (series : DataFrame) :
  fst (process directory true w) = Ok series ->
  (forall l, In l order_col -> In (VStr l) (columns series)) /\
  (forall c, In c (columns series) -> exists l, In l order_col /\ c = VStr l).
Proof.
  rewrite process_data_load.
  destruct (load_directory read_excel iterdir_order directory w) as [[df_dict|e] w1];
    [| discriminate].
  cbn [fst]. unfold process_tables. intros H.
  apply bind_Ok in H as (cleaned & _ & H).
  apply bind_Ok in H as (sorted & _ & H).
  now apply select_columns_columns in H.
Qed.

End DirectoryProperties.

Lemma directory_without_spreadsheets_witness :
  process_directory [("notas.txt", [Byte.x41])]
  = Raise (ValueError "No objects to concatenate").
Proof.
  unfold process_directory.
  refine (f_equal fst
            (directory_without_spreadsheets
               rain_banner temp_banner ["year"; "month"; "sonora"]
               (fun c => String c EmptyString) (fun _ => "x") (fun _ => "t")
               sonora_reader listed_as_stored input_order
               (parse_path "Precipitacion") true
               (directory_world [("notas.txt", [Byte.x41])])
               ["home"; "u"; "Precipitacion"] _ _)).
  - vm_compute. reflexivity.
  - intros file Hin.
    assert (Hnames : file_names_in
                       (fs (directory_world [("notas.txt", [Byte.x41])]))
                       ["home"; "u"; "Precipitacion"] = ["notas.txt"])
      by (vm_compute; reflexivity).
    rewrite Hnames in Hin. destruct Hin as [<- | []].
    split; vm_compute; reflexivity.
Defined.

Lemma file_name_without_year_fails_witness :
  clean_year rain_banner temp_banner (fun c => String c EmptyString)
    (fun _ => "x") (fun _ => "t") "lluvia.xls"
    (sonora_nacional sonora_cells nacional_cells)
  = Raise AttributeError.
Proof.
  apply (file_name_without_year_fails rain_banner temp_banner
           (fun c => String c EmptyString) (fun _ => "x") (fun _ => "t")
           [] "lluvia.xls" (sonora_nacional sonora_cells nacional_cells)).
  reflexivity.
Defined.

Lemma process_data_rows_in_date_order_witness :
  exists series dated,
    process_listed notes_reader listed_in_reverse
      [("2024.xls", [Byte.x42]); ("2023.xls", [Byte.x41])] = Ok series /\
    index series = dated ++ [VNaT; VNaT] /\
    chronological dated.
Proof.
  destruct (process_data_rows_in_date_order
              rain_banner temp_banner ["year"; "month"; "sonora"]
              (fun c => String c EmptyString) (fun _ => "x") (fun _ => "t")
              notes_reader listed_in_reverse input_order
              (parse_path "Precipitacion") true
              (directory_world [("2024.xls", [Byte.x42]); ("2023.xls", [Byte.x41])])
              {| columns := [VStr "year"; VStr "month"; VStr "sonora"];
                 rows := [(VTime (first_of_month 2023 1),
                           [VInt 2023; VInt 1; VFloat 4625759767262920704]);
                          (VTime (first_of_month 2024 1),
                           [VInt 2024; VInt 1; VFloat 4625759767262920704]);
                          (VNaT, [VInt 2023; VNaN; VStr "revisado"]);
                          (VNaT, [VInt 2024; VNaN; VStr "revisado"])] |})
    as (dated & undated & Hidx & Hsorted & Htimes & Hnat).
  { vm_compute. reflexivity. }
  eexists. exists dated. split; [vm_compute; reflexivity |].
  cbn [index rows map fst] in Hidx |- *.
  destruct dated as [|d1 [|d2 [|d3 dated]]]; cbn [app] in Hidx.
  - exfalso. destruct undated; [discriminate |].
    injection Hidx as <- _. inversion Hnat as [|? ? Habs _]. discriminate Habs.
  - exfalso. injection Hidx as <- Hidx. destruct undated; [discriminate |].
    injection Hidx as <- _. inversion Hnat as [|? ? Habs _]. discriminate Habs.
  - injection Hidx as <- <- <-. split; [reflexivity | exact Hsorted].
  - exfalso. injection Hidx as <- <- <- _.
    inversion Htimes as [|? ? _ H2]. inversion H2 as [|? ? _ H3].
    inversion H3 as [|? ? Habs _]. discriminate Habs.
Defined.

Lemma process_data_columns_as_configured_witness :
  exists series,
    process_directory [("2024Precip.xlsx", [Byte.x42])] = Ok series /\
    In (VStr "sonora") (columns series).
Proof.
  eexists. split; [vm_compute; reflexivity |].
  eapply (process_data_columns_as_configured
            rain_banner temp_banner ["year"; "month"; "sonora"]
            (fun c => String c EmptyString) (fun _ => "x") (fun _ => "t")
            sonora_reader listed_as_stored input_order (parse_path "Precipitacion")
            (directory_world [("2024Precip.xlsx", [Byte.x42])])).
  - vm_compute. reflexivity.
  - cbn [In]. tauto.
Defined.

(** ** Filtering by date: what is kept *)

Lemma map_sublist {A B} (g : A -> B) (l k : list A) :
  l `sublist_of` k -> map g l `sublist_of` map g k.
Proof. induction 1; cbn [map]; now constructor. Qed.

Lemma filter_filter {A} (f g : A -> bool) (l : list A) :
  List.filter g (List.filter f l) = List.filter (fun x => f x && g x) l.
Proof.
  induction l as [|x l IH]; [reflexivity |].
  cbn [List.filter]. destruct (f x); cbn [List.filter andb]; now rewrite IH.
Qed.

Lemma StronglySorted_filter {A} (R : A -> A -> Prop) (f : A -> bool) (l : list A) :
  StronglySorted R l -> StronglySorted R (List.filter f l).
Proof.
  induction 1 as [|a l Hs IH Hall]; [constructor |].
  cbn [List.filter]. destruct (f a); [| exact IH].
  constructor; [exact IH |].
  apply List.Forall_forall. intros x Hx. apply filter_In in Hx as [Hx _].
  rewrite List.Forall_forall in Hall. now apply Hall.
Qed.

Lemma map_fst_filter_fst {A B} (keep : A -> bool) (l : list (A * B)) :
  map fst (List.filter (fun r => keep (fst r)) l) = List.filter keep (map fst l).
Proof.
  induction l as [|x l IH]; [reflexivity |].
  cbn [List.filter map]. destruct (keep (fst x)); cbn [map]; now rewrite IH.
Qed.

Lemma map_snd_combine_same_length {A B} (l : list A) (k : list B) :
  length l = length k -> map snd (combine l k) = k.
Proof.
  revert k. induction l as [|x l IH]; intros [|y k] Hlen; try discriminate Hlen;
    [reflexivity |].
  cbn [combine map snd]. f_equal. apply IH. now injection Hlen.
Qed.

Section FilterProperties.

Variable to_datetime_index : list value -> result (list value).
Variable to_datetime_text : string -> result Timestamp.

Local Abbreviation filtrar := (filtrar_datos to_datetime_index to_datetime_text).
Local Abbreviation bound := (convert_date to_datetime_text).

(** The rows kept for the bounds [s] and [e]: lines 25-35 of
    filter_data.py. *)
Local Abbreviation kept s e t :=
  (match s, e with
   | Some a, Some b => loc_mask (fun i => label_ge a i && label_le b i) t
   | Some a, None => loc_mask (label_ge a) t
   | None, Some b => loc_mask (label_le b) t
   | None, None => t
   end).

Lemma convert_date_result (date : option string) (h h0 : Store) :
  bound date h = (fst (bound date h0), h).
Proof.
  unfold convert_date. destruct date as [s|]; [| reflexivity].
  destruct (nonempty s); [| reflexivity].
  unfold mbind, S_bind, s_lift. now destruct (to_datetime_text s).
Qed.

(** What a successful call has done: the table with its index made of
    timestamps, the two bounds, and the rows kept. *)
Lemma filtrar_datos_inv (df l : ref) (start_date end_date : option string)
    (h h' : Store) :
  filtrar df start_date end_date h = (Ok l, h') ->
  exists input t s e,
    h !! df = Some input /\
    (is_datetime_index input = true /\ t = input \/
     is_datetime_index input = false /\
     exists labels, to_datetime_index (index input) = Ok labels /\
                    length labels = length (rows input) /\
                    t = set_index labels input) /\
    fst (bound start_date h) = Ok s /\
    fst (bound end_date h) = Ok e /\
    h' !! l = Some (kept s e t).
Proof.
  unfold filtrar_datos. intros H.
  apply S_bind_inv in H as [(clima & h1 & Hcopy & H) | (e & _ & [=])].
  apply copy_store in Hcopy as [(input & Hin & [= ->] & ->) | (_ & e' & [=])].
  exists input.
  apply S_bind_inv in H as [([] & h2 & Hens & H) | (e & _ & [=])].
  assert (Ht : exists t,
             h2 = <[fresh (dom h) := t]> h /\
             (is_datetime_index input = true /\ t = input \/
              is_datetime_index input = false /\
              exists labels, to_datetime_index (index input) = Ok labels /\
                             length labels = length (rows input) /\
                             t = set_index labels input)).
  { unfold ensure_datetime_index, deref, mbind, S_bind in Hens.
    rewrite lookup_insert_eq in Hens.
    destruct (is_datetime_index input) eqn:Hidx.
    - injection Hens as <-. exists input. auto.
    - unfold s_lift in Hens.
      destruct (to_datetime_index (index input)) as [labels|e] eqn:Hl; [| discriminate].
      destruct (bool_decide _) eqn:Hlen; [| discriminate].
      apply bool_decide_eq_true_1 in Hlen.
      unfold assign in Hens. injection Hens as <-.
      exists (set_index labels input). rewrite insert_insert_eq. split; [reflexivity |].
      right. split; [reflexivity |]. exists labels. auto. }
  destruct Ht as (t & -> & Ht). exists t.
  apply S_bind_inv in H as [(s & h3 & Hs & H) | (e & _ & [=])].
  rewrite (convert_date_result _ _ h) in Hs. injection Hs as Hs <-.
  apply S_bind_inv in H as [(e & h4 & He & H) | (e & _ & [=])].
  rewrite (convert_date_result _ _ h) in He. injection He as He <-.
  exists s, e. split; [exact Hin |]. split; [exact Ht |].
  split; [exact Hs |]. split; [exact He |].
  destruct s as [a|], e as [b|];
    try (unfold deref, new_object, mbind, S_bind in H; rewrite lookup_insert_eq in H);
    injection H as <- <-; apply lookup_insert_eq.
Qed.

Lemma kept_within (s e : option Timestamp) (t : DataFrame) :
  s <> None \/ e <> None -> Forall (within s e) (index (kept s e t)).
Proof.
  intros Hse. unfold index.
  assert (H : forall keep,
             (forall i, keep i = true -> within s e i) ->
             Forall (within s e) (map fst (rows (loc_mask keep t)))).
  { intros keep Hk. unfold loc_mask. cbn [rows].
    apply List.Forall_forall. intros i Hi.
    apply in_map_iff in Hi as (r & <- & Hr). apply filter_In in Hr as [_ Hr]. auto. }
  destruct s as [a|], e as [b|]; [| | | tauto]; apply H; intros i Hi;
    destruct i; try discriminate Hi; cbn [within label_ge label_le] in *.
  - apply andb_true_iff in Hi as [Ha Hb]. split; intros ? [= <-]; assumption.
  - split; [intros ? [= <-]; assumption | discriminate].
  - split; [discriminate | intros ? [= <-]; assumption].
Qed.

Lemma kept_rows (s e : option Timestamp) (t : DataFrame) :
  columns (kept s e t) = columns t /\
  rows (kept s e t) `sublist_of` rows t /\
  forall r, In r (rows t) -> within s e (fst r) -> In r (rows (kept s e t)).
Proof.
  assert (H : forall keep,
             (forall i, within s e i -> keep i = true) ->
             columns (loc_mask keep t) = columns t /\
             rows (loc_mask keep t) `sublist_of` rows t /\
             forall r, In r (rows t) -> within s e (fst r) ->
                       In r (rows (loc_mask keep t))).
  { intros keep Hk. unfold loc_mask. cbn [rows columns].
    split; [reflexivity |]. split; [apply filter_sublist |].
    intros r Hr Hw. apply filter_In. auto. }
  destruct s as [a|], e as [b|]; [| | | now repeat split]; apply H; intros i Hi;
    destruct i; try contradiction; cbn [within label_ge label_le] in *;
    destruct Hi as [Ha Hb].
  - now rewrite (Ha _ eq_refl), (Hb _ eq_refl).
  - exact (Ha _ eq_refl).
  - exact (Hb _ eq_refl).
Qed.

(** X9: the table that [filtrar_datos] returns has the columns of its
    argument and a selection of its rows, cells unchanged and in their
    order.  On an argument indexed by timestamps the rows returned are
    rows of the argument, and every row whose date lies within the
    bounds, ends included, is among them.  As soon as one bound is given
    every row returned carries a timestamp within the bounds, so that
    rows without a date are dropped. *)
Theorem filtrar_datos_rows_within_bounds (df l : ref)
    (start_date end_date : option string) (h h' : Store) :
  filtrar df start_date end_date h = (Ok l, h') ->
  exists input out s e,
    h !! df = Some input /\ h' !! l = Some out /\
    fst (bound start_date h) = Ok s /\ fst (bound end_date h) = Ok e /\
    columns out = columns input /\
    map snd (rows out) `sublist_of` map snd (rows input) /\
    (is_datetime_index input = true ->
     rows out `sublist_of` rows input /\
     forall r, In r (rows input) -> within s e (fst r) -> In r (rows out)) /\
    (s <> None \/ e <> None -> Forall (within s e) (index out)).
Proof.
  intros H. apply filtrar_datos_inv in H as (input & t & s & e & Hin & Ht & Hs & He & Hout).
  exists input, (kept s e t), s, e.
  destruct (kept_rows s e t) as (Hcols & Hsub & Hall).
  repeat (split; [assumption |]).
  assert (Hcells : columns t = columns input /\ map snd (rows t) = map snd (rows input)).
  { destruct Ht as [[_ ->] | (_ & labels & _ & Hlen & ->)]; [now split |].
    split; [reflexivity |]. unfold set_index. cbn [rows].
    apply map_snd_combine_same_length. now rewrite length_map. }
  destruct Hcells as [Hc Hr].
  split; [congruence |].
  split; [rewrite <- Hr; now apply map_sublist |].
  split; [| apply kept_within].
  intros Hidx. destruct Ht as [[_ ->] | (Hno & _)]; [now split | congruence].
Qed.

(** [filtrar_datos] returns once the index is or becomes an index of
    dates and both dates are read. *)
Lemma filtrar_datos_returns (df : ref) (start_date end_date : option string)
    (h : Store) (input t : DataFrame) (s e : option Timestamp) :
  h !! df = Some input ->
  (is_datetime_index input = true /\ t = input \/
   is_datetime_index input = false /\
   exists labels, to_datetime_index (index input) = Ok labels /\
                  length labels = length (rows input) /\
                  t = set_index labels input) ->
  fst (bound start_date h) = Ok s ->
  fst (bound end_date h) = Ok e ->
  exists l h', filtrar df start_date end_date h = (Ok l, h') /\
               h' !! l = Some (kept s e t).
Proof.
  intros Hin Ht Hs He.
  unfold filtrar_datos, copy, deref, new_object, mbind, S_bind.
  rewrite Hin.
  set (clima := fresh (dom h)).
  assert (Hens : exists h2,
             ensure_datetime_index to_datetime_index clima (<[clima := input]> h)
             = (Ok tt, h2) /\ h2 !! clima = Some t).
  { unfold ensure_datetime_index, deref, assign, s_lift, mbind, S_bind.
    rewrite lookup_insert_eq.
    destruct Ht as [[Hidx ->] | (Hidx & labels & Hl & Hlen & ->)]; rewrite Hidx.
    - eexists. split; [reflexivity |]. apply lookup_insert_eq.
    - rewrite Hl. rewrite bool_decide_eq_true_2 by exact Hlen.
      eexists. split; [reflexivity |]. apply lookup_insert_eq. }
  destruct Hens as (h2 & -> & Hclima).
  rewrite (convert_date_result _ h2 h), Hs.
  rewrite (convert_date_result _ h2 h), He.
  destruct s as [a|], e as [b|]; rewrite ?Hclima;
    eexists; eexists; (split; [reflexivity |]);
    first [apply lookup_insert_eq | exact Hclima].
Qed.


(** X11: filtering in two steps, from the start date first and up to
    the end date next, returns the table that one call with both dates
    returns. *)
Theorem filtrar_datos_in_two_steps (df l1 l2 l3 : ref)
    (start_date end_date : option string) (h h1 h2 h3 : Store) :
  truthy start_date = true ->
  filtrar df start_date None h = (Ok l1, h1) ->
  filtrar l1 None end_date h1 = (Ok l2, h2) ->
  filtrar df start_date end_date h = (Ok l3, h3) ->
  is_Some (h3 !! l3) /\ h2 !! l2 = h3 !! l3.
Proof.
  intros Htruthy H1 H2 H3.
  apply filtrar_datos_inv in H1
    as (input & t & s & e1 & Hin & Ht & Hs & He1 & Hout1).
  apply filtrar_datos_inv in H2
    as (input2 & t2 & s2 & e & Hin2 & Ht2 & Hs2 & He & Hout2).
  apply filtrar_datos_inv in H3
    as (input3 & t3 & s3 & e3 & Hin3 & Ht3 & Hs3 & He3 & Hout3).
  rewrite Hout3. split; [eauto |]. rewrite Hout2. f_equal.
  assert (input3 = input) by congruence. subst input3.
  assert (t3 = t).
  { destruct Ht as [[Hi ->] | (Hi & labels & Hl & _ & ->)];
      destruct Ht3 as [[Hi3 ->] | (Hi3 & labels3 & Hl3 & _ & ->)];
      congruence. }
  subst t3.
  assert (s3 = s) by congruence. subst s3.
  assert (e3 = e).
  { rewrite (convert_date_result _ h1 h) in He. cbn [fst] in He. congruence. }
  subst e3.
  cbn in He1, Hs2. injection He1 as <-. injection Hs2 as <-.
  assert (exists a, s = Some a) as [a ->].
  { unfold truthy in Htruthy. unfold convert_date in Hs.
    destruct start_date as [txt|]; [| discriminate]. rewrite Htruthy in Hs.
    unfold mbind, S_bind, s_lift in Hs.
    destruct (to_datetime_text txt); [| discriminate].
    injection Hs as <-. eauto. }
  rewrite Hout1 in Hin2. injection Hin2 as <-.
  assert (t2 = loc_mask (label_ge a) t).
  { destruct Ht2 as [[_ ->] | (Hno & _)]; [reflexivity |].
    exfalso. revert Hno. unfold is_datetime_index, index, loc_mask. cbn [rows].
    intros Hno. apply not_true_iff_false in Hno. apply Hno.
    apply forallb_forall. intros i Hi. apply in_map_iff in Hi as (r & <- & Hr).
    apply filter_In in Hr as [_ Hr]. now destruct (fst r). }
  subst t2. destruct e as [b|]; [| reflexivity].
  unfold loc_mask. cbn [rows columns]. f_equal.
  rewrite filter_filter. reflexivity.
Qed.

End FilterProperties.

Lemma filtrar_datos_rows_within_bounds_witness :
  let outcome := filtrar_datos parse_iso_index parse_iso_date 1%positive
                   (Some "2024-02-01") None {[ 1%positive := dated_series ]} in
  exists l out,
    fst outcome = Ok l /\ snd outcome !! l = Some out /\
    Forall (within (Some (first_of_month 2024 2)) None) (index out).
Proof.
  cbv zeta.
  destruct (filtrar_datos parse_iso_index parse_iso_date 1%positive
              (Some "2024-02-01") None {[ 1%positive := dated_series ]})
    as [r h'] eqn:Hrun.
  assert (Hr : r = Ok 3%positive).
  { pose proof (f_equal fst Hrun) as H. cbn [fst] in H. rewrite <- H.
    vm_compute. reflexivity. }
  subst r.
  destruct (filtrar_datos_rows_within_bounds _ _ _ _ _ _ _ _ Hrun)
    as (input & out & s & e & _ & Hout & Hs & He & _ & _ & _ & Hw).
  exists 3%positive, out. split; [reflexivity |]. split; [exact Hout |].
  assert (Hs' : fst (convert_date parse_iso_date (Some "2024-02-01")
                       {[ 1%positive := dated_series ]})
                = Ok (Some (first_of_month 2024 2))) by (vm_compute; reflexivity).
  rewrite Hs' in Hs. injection Hs as <-. injection He as <-.
  apply Hw. left. discriminate.
Defined.


Lemma filtrar_datos_in_two_steps_witness :
  let h := {[ 1%positive := dated_series ]} in
  let first := filtrar_datos parse_iso_index parse_iso_date 1%positive
                 (Some "2024-01-15") None h in
  let second := filtrar_datos parse_iso_index parse_iso_date 3%positive
                  None (Some "2024-02-15") (snd first) in
  let both := filtrar_datos parse_iso_index parse_iso_date 1%positive
                (Some "2024-01-15") (Some "2024-02-15") h in
  snd second !! 5%positive = snd both !! 3%positive.
Proof.
  cbv zeta.
  destruct (filtrar_datos parse_iso_index parse_iso_date 1%positive
              (Some "2024-01-15") None {[ 1%positive := dated_series ]})
    as [r1 h1] eqn:H1.
  assert (Hr1 : r1 = Ok 3%positive).
  { pose proof (f_equal fst H1) as H. cbn [fst] in H. rewrite <- H.
    vm_compute. reflexivity. }
  assert (Hh1 : h1 = snd (filtrar_datos parse_iso_index parse_iso_date 1%positive
                            (Some "2024-01-15") None {[ 1%positive := dated_series ]}))
    by now rewrite H1.
  subst r1. cbn [snd].
  destruct (filtrar_datos parse_iso_index parse_iso_date 3%positive
              None (Some "2024-02-15") h1) as [r2 h2] eqn:H2.
  assert (Hr2 : r2 = Ok 5%positive).
  { pose proof (f_equal fst H2) as H. cbn [fst] in H. rewrite <- H, Hh1.
    vm_compute. reflexivity. }
  subst r2. cbn [snd].
  destruct (filtrar_datos parse_iso_index parse_iso_date 1%positive
              (Some "2024-01-15") (Some "2024-02-15") {[ 1%positive := dated_series ]})
    as [r3 h3] eqn:H3.
  assert (Hr3 : r3 = Ok 3%positive).
  { pose proof (f_equal fst H3) as H. cbn [fst] in H. rewrite <- H.
    vm_compute. reflexivity. }
  subst r3. cbn [snd].
  exact (proj2 (filtrar_datos_in_two_steps parse_iso_index parse_iso_date
                  1%positive 3%positive 5%positive 3%positive
                  (Some "2024-01-15") (Some "2024-02-15")
                  {[ 1%positive := dated_series ]} h1 h2 h3 eq_refl H1 H2 H3)).
Defined.

(** ** The file system: writing, reading back, and what is never removed *)

Lemma enter_same_dirs (f f' : FS) (cs : list string) (cur : node) :
  dirs f = dirs f' -> enter f cur cs = enter f' cur cs.
Proof.
  intros Hd. revert cur. induction cs as [|c cs IH]; intros cur; [reflexivity |].
  cbn [enter]. unfold is_dir. rewrite Hd.
  destruct (_ || _); [apply IH | reflexivity].
Qed.

Lemma write_file_inv (p : Path) (data : bytes) (w w' : World) :
  write_file p data w = (Ok tt, w') ->
  exists front name d,
    parts p = front ++ [name] /\ is_dotdot name = false /\
    enter (fs w) (start_of w p) front = Some d /\
    is_dir (fs w) (d ++ [name]) = false /\
    w' = with_fs {| dirs := dirs (fs w);
                    files := <[ d ++ [name] := data ]> (files (fs w)) |} w.
Proof.
  unfold write_file.
  destruct (last (parts p)) as [name|] eqn:Hlast; [| discriminate].
  destruct (is_dotdot name) eqn:Hdd; [discriminate |].
  destruct (enter _ _ _) as [d|] eqn:He; [| discriminate].
  destruct (is_dir _ _) eqn:Hd; [discriminate |].
  intros [= <-]. apply last_Some in Hlast as [front Hfront].
  rewrite Hfront, removelast_last in He.
  exists front, name, d. auto.
Qed.

Lemma write_file_failed (p : Path) (data : bytes) (w w' : World) (e : exn) :
  write_file p data w = (Raise e, w') -> w' = w.
Proof.
  unfold write_file.
  destruct (last (parts p)); [| now intros [= _ <-]].
  destruct (is_dotdot _); [now intros [= _ <-] |].
  destruct (enter _ _ _); [| now intros [= _ <-]].
  destruct (is_dir _ _); [now intros [= _ <-] | discriminate].
Qed.

(** What [open(p, "wb")] wrote, [open(p, "rb")] reads. *)
Lemma write_then_read (p : Path) (data : bytes) (w w' : World) :
  write_file p data w = (Ok tt, w') -> read_file p w' = (Ok data, w').
Proof.
  intros H. apply write_file_inv in H as (front & name & d & Hp & Hdd & He & _ & ->).
  unfold read_file. rewrite Hp, last_snoc, removelast_last.
  change (start_of (with_fs _ w) p) with (start_of w p).
  cbn [fs with_fs].
  rewrite (enter_same_dirs _ (fs w)) by reflexivity. rewrite He.
  unfold walk_step. rewrite Hdd. cbn [files]. now rewrite lookup_insert_eq.
Qed.

Lemma concat_nonempty_chunks (chunks : list bytes) :
  List.concat (List.filter (fun chunk => negb (bool_decide (chunk = []))) chunks)
  = List.concat chunks.
Proof.
  induction chunks as [|c chunks IH]; [reflexivity |].
  destruct c as [|b c]; [exact IH |].
  change (List.filter (fun chunk => negb (bool_decide (chunk = []))) ((b :: c) :: chunks))
    with ((b :: c) ::
          List.filter (fun chunk => negb (bool_decide (chunk = []))) chunks).
  cbn [List.concat]. now rewrite IH.
Qed.

Lemma nothing_removed_refl (w : World) : nothing_removed w w.
Proof. repeat split; auto. Qed.

Lemma nothing_removed_trans (w1 w2 w3 : World) :
  nothing_removed w1 w2 -> nothing_removed w2 w3 -> nothing_removed w1 w3.
Proof.
  intros (C1 & D1 & F1) (C2 & D2 & F2). split; [congruence |].
  split; [now transitivity (dirs (fs w2)) | auto].
Qed.

Lemma never_removes_ret {A} (a : A) : never_removes (mret a : M A).
Proof. intros w r w' [= _ <-]. apply nothing_removed_refl. Qed.

Lemma never_removes_raise {A} (e : exn) : never_removes (raise e : M A).
Proof. intros w r w' [= _ <-]. apply nothing_removed_refl. Qed.

Lemma never_removes_lift {A} (x : result A) : never_removes (lift x).
Proof. intros w r w' [= _ <-]. apply nothing_removed_refl. Qed.

Lemma never_removes_bind {A B} (m : M A) (k : A -> M B) :
  never_removes m -> (forall a, never_removes (k a)) -> never_removes (m ≫= k).
Proof.
  intros Hm Hk w r w' H.
  apply M_bind_inv in H as [(a & w1 & H1 & H2) | (e & H1 & _)].
  - eapply nothing_removed_trans; [exact (Hm _ _ _ H1) | exact (Hk _ _ _ _ H2)].
  - exact (Hm _ _ _ H1).
Qed.

Lemma mkdir_walk_grows (cs : list string) :
  forall (cur : node) (w w' : World) (r : result unit),
    mkdir_walk cur cs w = (r, w') ->
    cwd w' = cwd w /\ dirs (fs w) ⊆ dirs (fs w') /\ files (fs w') = files (fs w).
Proof.
  induction cs as [|c cs IH]; intros cur w w' r H.
  - injection H as _ <-. auto.
  - cbn [mkdir_walk] in H. destruct (is_dotdot c); [exact (IH _ _ _ _ H) |].
    destruct (is_file _ _); [injection H as _ <-; auto |].
    destruct (is_dir _ _); [exact (IH _ _ _ _ H) |].
    apply IH in H as (Hc & Hd & Hf). cbn in Hc, Hd, Hf.
    split; [exact Hc |]. split; [| exact Hf].
    etransitivity; [| exact Hd]. apply union_subseteq_r.
Qed.

Lemma never_removes_mkdir_p (p : Path) : never_removes (mkdir_p p).
Proof.
  intros w r w' H. apply mkdir_walk_grows in H as (Hc & Hd & Hf).
  split; [exact Hc |]. split; [exact Hd |]. unfold is_file. now rewrite Hf.
Qed.

Lemma never_removes_write_file (p : Path) (data : bytes) :
  never_removes (write_file p data).
Proof.
  intros w [[]|e] w' H.
  - apply write_file_inv in H as (front & name & d & _ & _ & _ & _ & ->).
    split; [reflexivity |]. split; [reflexivity |].
    intros n. unfold is_file. cbn [fs with_fs files].
    intros Hn. apply bool_decide_eq_true_1 in Hn. apply bool_decide_eq_true_2.
    apply lookup_insert_is_Some'. now right.
  - apply write_file_failed in H as ->. apply nothing_removed_refl.
Qed.

Lemma never_removes_read_file (p : Path) : never_removes (read_file p).
Proof.
  intros w r w' H. apply read_file_reads_only in H as ->. apply nothing_removed_refl.
Qed.

Lemma never_removes_for_each {A} (body : A -> M unit) (xs : list A) :
  (forall x, never_removes (body x)) -> never_removes (for_each body xs).
Proof.
  intros Hb. induction xs as [|x xs IH]; [apply never_removes_ret |].
  cbn [for_each]. apply never_removes_bind; auto.
Qed.

Lemma never_removes_extract_zip_file (zip_parse : bytes -> option (list ZipInfo))
    (zip_file_path dest_dir : Path) :
  never_removes (_extract_zip_file zip_parse zip_file_path dest_dir).
Proof.
  unfold _extract_zip_file. apply never_removes_bind; [apply never_removes_read_file |].
  intros data. destruct (zip_parse data); [| apply never_removes_raise].
  unfold extract_members. apply never_removes_for_each. intros m.
  unfold extract_member. destruct (member_is_dir m); [apply never_removes_mkdir_p |].
  apply never_removes_bind; [apply never_removes_mkdir_p |].
  intros _. apply never_removes_write_file.
Qed.

(** A second [mkdir(parents=True, exist_ok=True)] finds everything in
    place. *)
Lemma mkdir_walk_again (cs : list string) :
  forall (cur : node) (w w' : World),
    mkdir_walk cur cs w = (Ok tt, w') ->
    forall v, files (fs v) = files (fs w') -> dirs (fs w') ⊆ dirs (fs v) ->
              mkdir_walk cur cs v = (Ok tt, v).
Proof.
  induction cs as [|c cs IH]; intros cur w w' H v Hf Hd; [reflexivity |].
  cbn [mkdir_walk] in *. destruct (is_dotdot c); [exact (IH _ _ _ H v Hf Hd) |].
  destruct (is_file (fs w) (cur ++ [c])) eqn:Hfile; [discriminate |].
  assert (Hstep : exists w1,
             mkdir_walk (cur ++ [c]) cs w1 = (Ok tt, w') /\
             files (fs w1) = files (fs w) /\ cur ++ [c] ∈ dirs (fs w1)).
  { destruct (is_dir (fs w) (cur ++ [c])) eqn:Hdir.
    - exists w. split; [exact H |]. split; [reflexivity |].
      unfold is_dir in Hdir. apply orb_true_iff in Hdir as [Hdir | Hdir];
        apply bool_decide_eq_true_1 in Hdir; [now destruct cur | exact Hdir].
    - eexists. split; [exact H |]. split; [reflexivity |].
      cbn. apply elem_of_union_l. now apply elem_of_singleton. }
  destruct Hstep as (w1 & Hrest & Hf1 & Hin).
  pose proof (mkdir_walk_grows _ _ _ _ _ Hrest) as (_ & Hd1 & Hf').
  assert (Hfile_v : is_file (fs v) (cur ++ [c]) = false).
  { unfold is_file in *. now rewrite Hf, Hf', Hf1. }
  assert (Hdir_v : is_dir (fs v) (cur ++ [c]) = true).
  { unfold is_dir. apply orb_true_iff. right. apply bool_decide_eq_true_2. auto. }
  rewrite Hfile_v, Hdir_v. exact (IH _ _ _ Hrest v Hf Hd).
Qed.

Lemma unlink_inv (p : Path) (w w' : World) (r : result unit) :
  unlink p w = (r, w') ->
  (w' = w /\ exists e, r = Raise e) \/
  exists front name d,
    parts p = front ++ [name] /\
    enter (fs w) (start_of w p) front = Some d /\
    r = Ok tt /\
    w' = with_fs {| dirs := dirs (fs w);
                    files := delete (walk_step d name) (files (fs w)) |} w.
Proof.
  unfold unlink.
  destruct (last (parts p)) as [name|] eqn:Hlast; [| intros [= <- <-]; left; eauto].
  apply last_Some in Hlast as [front Hfront]. rewrite Hfront, removelast_last.
  destruct (enter _ _ _) as [d|] eqn:He; [| intros [= <- <-]; left; eauto].
  destruct (is_file _ _); intros [= <- <-]; [| left; eauto].
  right. exists front, name, d. auto.
Qed.

Lemma asks_at_most_bind {A B} (a b : nat) (m : M A) (k : A -> M B) :
  asks_at_most a m -> (forall x, asks_at_most b (k x)) -> asks_at_most (a + b) (m ≫= k).
Proof.
  intros Hm Hk w r w' H.
  apply M_bind_inv in H as [(x & w1 & H1 & H2) | (e & H1 & _)].
  - destruct (Hm _ _ _ H1) as (l1 & E1 & L1). destruct (Hk _ _ _ _ H2) as (l2 & E2 & L2).
    exists (l1 ++ l2). rewrite E2, E1, app_assoc, length_app. split; [reflexivity | lia].
  - destruct (Hm _ _ _ H1) as (l1 & E1 & L1). exists l1. split; [exact E1 | lia].
Qed.

Lemma keeps_logs_asks_nothing {A} (m : M A) : keeps_logs m -> asks_at_most 0 m.
Proof.
  intros Hm w r w' H. destruct (Hm _ _ _ H) as [E _].
  exists []. rewrite app_nil_r. auto.
Qed.

Lemma asks_at_most_more {A} (a b : nat) (m : M A) :
  (a <= b)%nat -> asks_at_most a m -> asks_at_most b m.
Proof.
  intros Hab Hm w r w' H. destruct (Hm _ _ _ H) as (l & E & L).
  exists l. split; [exact E | lia].
Qed.

Section RunProperties.

Variable rain_url : string.
Variable temp_url : string.
Variable new_info_url : string.
Variable pronostic_url : string.
Variable now_year : Z.
Variable now_month : Z.
Variable read_pdf : string -> result DataFrame.
Variable http_get : string -> result (list bytes * option exn).
Variable zip_parse : bytes -> option (list ZipInfo).
Variable read_csv : bytes -> result DataFrame.
Variable excel_bytes : list value -> list (list value) -> bytes.
Variable unidecode_table : ascii -> string.
Variable float_repr : Z -> string.
Variable time_repr : Timestamp -> string.

Local Abbreviation run :=
  (download_conagua rain_url temp_url new_info_url pronostic_url now_year now_month
     read_pdf http_get zip_parse read_csv excel_bytes unidecode_table float_repr
     time_repr).
Local Abbreviation datatype_config := (_get_datatype_config rain_url temp_url).
Local Abbreviation datatype_values :=
  (_get_datatype_values rain_url temp_url new_info_url now_year read_pdf).
Local Abbreviation download := (_download_zip_file http_get).
Local Abbreviation extract := (_extract_zip_file zip_parse).
Local Abbreviation forecast :=
  (add_pronostico pronostic_url now_year now_month http_get zip_parse read_csv
     unidecode_table float_repr time_repr).
Local Abbreviation save := (_save_new_info excel_bytes).

Lemma download_then_extract (url : string) (zip_file_path dest_dir : Path)
    (w w' : World) (chunks : list bytes) (broken : option exn) (r : result unit) :
  http_get url = Ok (chunks, broken) ->
  download url zip_file_path w = (r, w') ->
  (r = Raise FileSystemError /\ w' = w) \/
  (r = match broken with
       | Some e => Raise e
       | None => Ok tt
       end /\
   read_file zip_file_path w' = (Ok (List.concat chunks), w') /\
   extract zip_file_path dest_dir w' =
     match zip_parse (List.concat chunks) with
     | Some members => extract_members dest_dir members w'
     | None => (Raise BadZipFile, w')
     end).
Proof.
  unfold _download_zip_file, _extract_zip_file, mbind, M_bind, lift.
  intros -> H. cbn [fst snd] in H. rewrite concat_nonempty_chunks in H.
  destruct (write_file zip_file_path (List.concat chunks) w) as [[[]|e] w1] eqn:Hw.
  - right. apply write_then_read in Hw.
    assert (Hr : r = match broken with Some e => Raise e | None => Ok tt end /\ w' = w1)
      by (destruct broken; now injection H as <- <-).
    destruct Hr as [-> ->]. split; [reflexivity |]. rewrite Hw.
    split; [reflexivity |]. now destruct (zip_parse _).
  - left. injection H as <- <-.
    pose proof (write_file_failed _ _ _ _ _ Hw) as ->.
    split; [| reflexivity]. f_equal.
    revert Hw. unfold write_file.
    destruct (last (parts zip_file_path)); [| now intros [= <-]].
    destruct (is_dotdot _); [now intros [= <-] |].
    destruct (enter _ _ _); [| now intros [= <-]].
    destruct (is_dir _ _); [now intros [= <-] | discriminate].
Qed.


Lemma set_destination_directory_inv (file_location : option string)
    (default_folder : string) (w w' : World) (r : result (Path * Path)) :
  set_destination_directory file_location default_folder w = (r, w') ->
  let dest_dir := match file_location with
                  | None => joinpath (path_cwd w) default_folder
                  | Some loc => parse_path loc
                  end in
  exists r0, mkdir_p dest_dir w = (r0, w') /\
             r = match r0 with
                 | Ok _ => Ok (dest_dir, joinpath dest_dir "temp.zip")
                 | Raise e => Raise e
                 end.
Proof.
  unfold set_destination_directory, mbind, M_bind. cbv zeta.
  destruct (mkdir_p _ w) as [[[]|e] w1]; intros [= <- <-]; eauto.
Qed.

(** X13: [set_destination_directory] only ever adds directories: no
    file changes and no directory is lost; the temporary archive it
    names is temp.zip directly inside the destination; and calling it
    again after a success changes nothing and returns the same paths
    ([exist_ok=True]). *)
Theorem set_destination_directory_again (file_location : option string)
    (default_folder : string) (w w' : World) (dest_dir zip_file_path : Path) :
  set_destination_directory file_location default_folder w
    = (Ok (dest_dir, zip_file_path), w') ->
  zip_file_path = joinpath dest_dir "temp.zip" /\
  files (fs w') = files (fs w) /\ dirs (fs w) ⊆ dirs (fs w') /\
  set_destination_directory file_location default_folder w'
    = (Ok (dest_dir, zip_file_path), w').
Proof.
  intros H. pose proof H as Hinv.
  apply set_destination_directory_inv in Hinv as (r0 & Hmk & Hr). cbv zeta in Hmk, Hr.
  destruct r0 as [[]|e]; [| discriminate]. injection Hr as -> ->.
  unfold mkdir_p in Hmk.
  pose proof (mkdir_walk_grows _ _ _ _ _ Hmk) as (Hc & Hd & Hf).
  split; [reflexivity |]. split; [exact Hf |]. split; [exact Hd |].
  assert (Hsame : path_cwd w' = path_cwd w) by (unfold path_cwd; now rewrite Hc).
  unfold set_destination_directory, mbind, M_bind, mkdir_p. rewrite Hsame.
  assert (Hstart : forall p, start_of w' p = start_of w p)
    by (intros p; unfold start_of; now rewrite Hc).
  rewrite Hstart. now rewrite (mkdir_walk_again _ _ _ _ Hmk w').
Qed.

Lemma never_removes_set_destination_directory (file_location : option string)
    (default_folder : string) :
  never_removes (set_destination_directory file_location default_folder).
Proof.
  intros w r w' H. apply set_destination_directory_inv in H as (r0 & H & _).
  exact (never_removes_mkdir_p _ _ _ _ H).
Qed.

Lemma never_removes_download (url : string) (zip_file_path : Path) :
  never_removes (download url zip_file_path).
Proof.
  unfold _download_zip_file. apply never_removes_bind; [apply never_removes_lift |].
  intros response. apply never_removes_bind; [apply never_removes_write_file |].
  intros _. destruct (snd response); [apply never_removes_raise | apply never_removes_ret].
Qed.

Lemma never_removes_forecast (new_info_dict : list (Z * DataFrame)) :
  never_removes (forecast new_info_dict).
Proof.
  unfold add_pronostico. destruct (last new_info_dict); [| apply never_removes_raise].
  apply never_removes_bind; [| intros d; apply never_removes_lift].
  intros w r w'. unfold latest_valid_pronostic.
  destruct (get_latest_valid_pronostic _ _ _ _ _ _); intros [= _ <-];
    [| apply nothing_removed_refl].
  split; [reflexivity |]. split; [reflexivity |]. intros n Hn. exact Hn.
Qed.

Lemma never_removes_save (new_info_dict : list (Z * DataFrame)) (directory : Path)
    (filename : string) :
  never_removes (save new_info_dict directory filename).
Proof.
  unfold _save_new_info. apply never_removes_for_each. intros kv.
  unfold to_excel. apply never_removes_bind; [apply never_removes_write_file |].
  intros _ w r w' [= _ <-].
  split; [reflexivity |]. split; [reflexivity |]. intros n Hn. exact Hn.
Qed.

(** How far a run gets: it stops before the clean-up, having removed
    nothing, or it reaches the [unlink] of temp.zip in the destination. *)
Lemma run_reaches_unlink (file_location : option string) (data_type : string)
    (include_pronostico : bool) (w w' : World) (r : result Path) :
  run file_location data_type include_pronostico w = (r, w') ->
  (nothing_removed w w' /\ exists e, r = Raise e) \/
  exists config w5 r',
    let dest_dir := match file_location with
                    | None => joinpath (path_cwd w) (default_folder config)
                    | Some loc => parse_path loc
                    end in
    datatype_config data_type = Ok config /\
    nothing_removed w w5 /\
    unlink (joinpath dest_dir "temp.zip") w5 = (r', w') /\
    r = match r' with Ok _ => Ok dest_dir | Raise e => Raise e end.
Proof.
  unfold download_conagua. intros Hrun.
  apply M_bind_inv in Hrun as [(v & w0 & Hv & Hrun) | (e & Hv & ->)];
    injection Hv as Hv <-;
    [| left; split; [apply nothing_removed_refl | eauto]].
  destruct v as [[[url d] folder] filename].
  unfold _get_datatype_values in Hv.
  destruct (datatype_config data_type) as [config|e0] eqn:Hcfg; [| discriminate Hv].
  cbn [mbind result_bind] in Hv. apply bind_Ok in Hv as (d0 & _ & [= <- <- <- <-]).
  apply M_bind_inv in Hrun as [([dest zip] & w1 & H1 & Hrun) | (e & H1 & ->)];
    pose proof (never_removes_set_destination_directory _ _ _ _ _ H1) as N1;
    [| left; split; [exact N1 | eauto]].
  apply set_destination_directory_inv in H1 as (r0 & _ & Hr0). cbv zeta in Hr0.
  destruct r0 as [[]|e]; [| discriminate Hr0]. injection Hr0 as -> ->.
  apply M_bind_inv in Hrun as [([] & w2 & H2 & Hrun) | (e & H2 & ->)];
    apply never_removes_download in H2;
    pose proof (nothing_removed_trans _ _ _ N1 H2) as N2;
    [| left; split; [exact N2 | eauto]].
  apply M_bind_inv in Hrun as [([] & w3 & H3 & Hrun) | (e & H3 & ->)];
    apply never_removes_extract_zip_file in H3;
    pose proof (nothing_removed_trans _ _ _ N2 H3) as N3;
    [| left; split; [exact N3 | eauto]].
  assert (Hmerge : never_removes
                     (if include_pronostico &&
                         String.eqb (default_folder config) "Precipitacion"
                      then forecast d0 else mret d0)).
  { destruct (_ && _); [apply never_removes_forecast | apply never_removes_ret]. }
  apply M_bind_inv in Hrun as [(d' & w4 & H4 & Hrun) | (e & H4 & ->)];
    apply Hmerge in H4;
    pose proof (nothing_removed_trans _ _ _ N3 H4) as N4;
    [| left; split; [exact N4 | eauto]].
  apply M_bind_inv in Hrun as [([] & w5 & H5 & Hrun) | (e & H5 & ->)];
    apply never_removes_save in H5;
    pose proof (nothing_removed_trans _ _ _ N4 H5) as N5;
    [| left; split; [exact N5 | eauto]].
  right. exists config, w5.
  apply M_bind_inv in Hrun as [([] & w6 & H6 & Hrun) | (e & H6 & ->)].
  - injection Hrun as <- <-. exists (Ok tt). auto.
  - exists (Raise e). auto.
Qed.

(** X14: whatever its outcome, a run of [download_conagua] loses no
    directory, and the only file that can be gone afterwards is one
    named temp.zip; every other file is still a file (archive entries
    and saved bulletins may have replaced its content). *)
Theorem run_removes_only_the_temporary_archive (file_location : option string)
    (data_type : string) (include_pronostico : bool) (w : World) :
  let w' := snd (run file_location data_type include_pronostico w) in
  cwd w' = cwd w /\
  dirs (fs w) ⊆ dirs (fs w') /\
  forall n, is_file (fs w) n = true -> is_file (fs w') n = false ->
            last n = Some "temp.zip"%string.
Proof.
  cbv zeta.
  destruct (run file_location data_type include_pronostico w) as [r w'] eqn:Hrun.
  cbn [snd].
  apply run_reaches_unlink in Hrun
    as [[(Hc & Hd & Hf) _] | (config & w5 & r' & _ & (Hc & Hd & Hf) & Hun & _)].
  { split; [exact Hc |]. split; [exact Hd |].
    intros n Hn Hgone. apply Hf in Hn. congruence. }
  apply unlink_inv in Hun as [[-> _] | (front & name & d & Hp & He & _ & ->)].
  { split; [exact Hc |]. split; [exact Hd |].
    intros n Hn Hgone. apply Hf in Hn. congruence. }
  split; [exact Hc |]. split; [exact Hd |].
  intros n Hn Hgone. apply Hf in Hn.
  assert (Hname : name = "temp.zip"%string).
  { assert (Hl : last (parts (joinpath
                                (match file_location with
                                 | None => joinpath (path_cwd w) (default_folder config)
                                 | Some loc => parse_path loc
                                 end) "temp.zip")) = Some "temp.zip"%string).
    { unfold joinpath at 1. cbn [anchored parse_path Py.startswith parts].
      change (List.filter kept_component (Py.split "/" "temp.zip"))
        with ["temp.zip"%string].
      apply last_snoc. }
    rewrite Hp, last_snoc in Hl. now injection Hl. }
  subst name.
  destruct (decide (n = walk_step d "temp.zip")) as [-> | Hne].
  - unfold walk_step. change (is_dotdot "temp.zip") with false. cbv iota.
    apply last_snoc.
  - exfalso. revert Hn Hgone. unfold is_file. cbn [fs with_fs files].
    rewrite lookup_delete_ne by congruence. congruence.
Qed.

(** X15: when [download_conagua] succeeds, the directory it leaves in
    [self.directory] is the given location, or the default folder of
    the data kind under the working directory, and the temporary archive
    temp.zip is no longer in it. *)
Theorem successful_run_leaves_no_archive (file_location : option string)
    (data_type : string) (include_pronostico : bool) (w w' : World) (dest_dir : Path) :
  run file_location data_type include_pronostico w = (Ok dest_dir, w') ->
  (exists config,
     datatype_config data_type = Ok config /\
     dest_dir = match file_location with
                | None => joinpath (path_cwd w) (default_folder config)
                | Some loc => parse_path loc
                end) /\
  is_file (fs w') (resolve w' (joinpath dest_dir "temp.zip")) = false.
Proof.
  intros Hrun.
  apply run_reaches_unlink in Hrun
    as [[_ (e & [=])] | (config & w5 & r' & Hcfg & _ & Hun & Hr)].
  cbv zeta in Hun, Hr. destruct r' as [[]|e]; [| discriminate Hr].
  injection Hr as ->. split; [eauto |].
  apply unlink_inv in Hun as [[_ (e & [=])] | (front & name & d & Hp & He & _ & ->)].
  unfold resolve. change (start_of (with_fs _ w5) ?p) with (start_of w5 p).
  rewrite Hp, walk_app. apply enter_walk in He. rewrite <- He.
  cbn [walk fold_left]. unfold is_file. cbn [fs with_fs files].
  now rewrite lookup_delete_eq.
Qed.

(** X16: there is no clean-up on failure.  When the body downloaded is
    not an archive, the run raises [BadZipFile] and stops in the world
    the download left: temp.zip stays in the destination, holding the
    body. *)
Theorem bad_archive_is_left_behind (file_location : option string)
    (data_type : string) (include_pronostico : bool) (w w1 w2 : World)
    (url folder filename : string) (new_info_dict : list (Z * DataFrame))
    (dest_dir zip_file_path : Path) (chunks : list bytes) (broken : option exn) :
  datatype_values data_type = Ok (url, new_info_dict, folder, filename) ->
  set_destination_directory file_location folder w = (Ok (dest_dir, zip_file_path), w1) ->
  http_get url = Ok (chunks, broken) ->
  download url zip_file_path w1 = (Ok tt, w2) ->
  zip_parse (List.concat chunks) = None ->
  run file_location data_type include_pronostico w = (Raise BadZipFile, w2) /\
  zip_file_path = joinpath dest_dir "temp.zip" /\
  read_file zip_file_path w2 = (Ok (List.concat chunks), w2).
Proof.
  intros Hv Hdest Hget Hdown Hbad.
  destruct (download_then_extract url zip_file_path dest_dir w1 w2 chunks broken
              (Ok tt) Hget Hdown)
    as [[[=] _] | (_ & Hread & Hext)].
  rewrite Hbad in Hext.
  split; [| split; [| exact Hread]].
  - unfold download_conagua, mbind, M_bind, lift.
    rewrite Hv, Hdest, Hdown, Hext. reflexivity.
  - apply set_destination_directory_inv in Hdest as (r0 & _ & Hr). cbv zeta in Hr.
    destruct r0 as [[]|e]; [| discriminate]. injection Hr as -> ->. reflexivity.
Qed.

Lemma asks_at_most_forecast (new_info_dict : list (Z * DataFrame)) :
  asks_at_most 2 (forecast new_info_dict).
Proof.
  unfold add_pronostico.
  destruct (last new_info_dict);
    [| apply (asks_at_most_more 0); [lia |];
       apply keeps_logs_asks_nothing, keeps_logs_raise].
  apply (asks_at_most_bind 2 0);
    [| intros d; apply keeps_logs_asks_nothing, keeps_logs_lift].
  intros w r w'. unfold latest_valid_pronostic.
  destruct (get_latest_valid_pronostic _ _ _ _ _ _) as [res|] eqn:Hres.
  - intros [= _ <-]. cbn [forecast_requests]. exists (tried _ res).
    split; [reflexivity |].
    exact (get_latest_valid_pronostic_bounded _ _ _ _ _ _ _ Hres).
  - intros [= _ <-]. exists []. rewrite app_nil_r. split; [reflexivity | simpl; lia].
Qed.

Lemma asks_nothing_save (new_info_dict : list (Z * DataFrame)) (directory : Path)
    (filename : string) :
  asks_at_most 0 (save new_info_dict directory filename).
Proof.
  intros w r w' H. apply save_new_info_writes in H as [H _].
  exists []. rewrite app_nil_r. auto.
Qed.

(** X17: a run of [download_conagua] asks the forecast server for at
    most two locations, whatever the data kind and the outcome, and for
    none when [include_pronostico] is false. *)
Theorem run_asks_forecast_at_most_twice (file_location : option string)
    (data_type : string) (include_pronostico : bool) (w : World) :
  let w' := snd (run file_location data_type include_pronostico w) in
  exists asked,
    forecast_requests w' = forecast_requests w ++ asked /\
    (length asked <= 2)%nat /\
    (include_pronostico = false -> asked = []).
Proof.
  cbv zeta.
  destruct (run file_location data_type include_pronostico w) as [r w'] eqn:Hrun.
  cbn [snd].
  assert (Hbound : forall k,
             (forall d, asks_at_most k
                          (if include_pronostico then forecast d else mret d)) ->
             asks_at_most k (run file_location data_type include_pronostico)).
  { intros k Hk. unfold download_conagua.
    apply (asks_at_most_bind 0 k);
      [apply keeps_logs_asks_nothing, keeps_logs_lift |].
    intros [[[url d] folder] filename].
    apply (asks_at_most_bind 0 k).
    { apply keeps_logs_asks_nothing. intros w0 r0 w0' H0.
      apply set_destination_directory_inv in H0 as (r1 & H0 & _).
      exact (keeps_logs_mkdir_p _ _ _ _ H0). }
    intros [dest zip].
    apply (asks_at_most_bind 0 k).
    { apply keeps_logs_asks_nothing, keeps_logs_download_zip_file. }
    intros _.
    apply (asks_at_most_bind 0 k);
      [apply keeps_logs_asks_nothing, keeps_logs_extract_zip_file |].
    intros _.
    replace k with (k + 0)%nat by lia.
    apply (asks_at_most_bind k 0).
    { destruct include_pronostico; cbn [andb].
      - destruct (String.eqb folder "Precipitacion"); [exact (Hk d) |].
        apply (asks_at_most_more 0); [lia |].
        apply keeps_logs_asks_nothing, keeps_logs_ret.
      - exact (Hk d). }
    intros d'.
    apply (asks_at_most_bind 0 0); [apply asks_nothing_save |].
    intros _.
    apply (asks_at_most_bind 0 0);
      [apply keeps_logs_asks_nothing, keeps_logs_unlink |].
    intros _. apply keeps_logs_asks_nothing, keeps_logs_ret. }
  destruct include_pronostico.
  - destruct (Hbound 2%nat (fun d => asks_at_most_forecast d) _ _ _ Hrun)
      as (asked & E & L).
    exists asked. split; [exact E |]. split; [exact L | discriminate].
  - destruct (Hbound 0%nat (fun d => keeps_logs_asks_nothing _ (keeps_logs_ret d))
                _ _ _ Hrun) as (asked & E & L).
    exists asked. split; [exact E |]. split; [lia |].
    intros _. destruct asked; [reflexivity | simpl in L; lia].
Qed.

(** X18: a data kind that is none of precipitacion, rain, lluvia,
    temperatura, temp, temperature (in any case) makes the run raise
    [ValueError] at once, with a message that names the data kind:
    nothing is created, downloaded or written. *)
Theorem unknown_data_kind_changes_nothing (file_location : option string)
    (data_type : string) (include_pronostico : bool) (w : World) :
  Py.str_in (Py.lower data_type)
    ["precipitacion"; "rain"; "lluvia"; "temperatura"; "temp"; "temperature"] = false ->
  run file_location data_type include_pronostico w
  = (Raise (ValueError ("Invalid data type: " +:+ data_type)), w).
Proof.
  intros H. unfold Py.str_in in H. cbn [existsb] in H.
  repeat (apply orb_false_iff in H as [?H H]).
  unfold download_conagua, mbind, M_bind, lift, _get_datatype_values,
    _get_datatype_config, Py.str_in. cbn [existsb].
  repeat match goal with Hx : String.eqb _ _ = false |- _ => rewrite Hx; clear Hx end.
  reflexivity.
Qed.

End RunProperties.


Lemma set_destination_directory_again_witness :
  let first := set_destination_directory None "Temperatura" home_world in
  set_destination_directory None "Temperatura" (snd first) = first.
Proof.
  cbv zeta.
  destruct (set_destination_directory None "Temperatura" home_world)
    as [r w'] eqn:Hrun.
  assert (Hr : r = Ok ({| anchored := true; parts := ["home"; "u"; "Temperatura"] |},
                       {| anchored := true;
                          parts := ["home"; "u"; "Temperatura"; "temp.zip"] |})).
  { pose proof (f_equal fst Hrun) as H. cbn [fst] in H. rewrite <- H.
    vm_compute. reflexivity. }
  subst r. cbn [snd].
  exact (proj2 (proj2 (proj2 (set_destination_directory_again
                                None "Temperatura" home_world w' _ _ Hrun)))).
Defined.

Lemma run_removes_only_the_temporary_archive_witness :
  cwd (snd rain_run) = ["home"; "u"] /\
  dirs (fs home_world) ⊆ dirs (fs (snd rain_run)).
Proof.
  destruct (run_removes_only_the_temporary_archive
              "https://smn/lluvia.zip" "https://smn/temp.zip"
              "https://smn/boletin/" "https://smn/" 2025 3
              bulletin_reader bundle_response (fun _ => Some brumario_bundle)
              (fun _ => Ok brumario_csv) (fun _ _ => [Byte.x58])
              no_transliteration (fun _ => "x") (fun _ => "t")
              None "lluvia" true home_world) as (Hc & Hd & _).
  split; [exact Hc | exact Hd].
Defined.

Lemma successful_run_leaves_no_archive_witness :
  is_file (fs (snd rain_run)) ["home"; "u"; "Precipitacion"; "temp.zip"] = false.
Proof.
  destruct rain_run as [r w'] eqn:Hrun.
  assert (Hr : r = Ok {| anchored := true; parts := ["home"; "u"; "Precipitacion"] |}).
  { pose proof (f_equal fst Hrun) as H. cbn [fst] in H. rewrite <- H.
    vm_compute. reflexivity. }
  subst r. cbn [snd].
  pose proof (proj2 (successful_run_leaves_no_archive
                "https://smn/lluvia.zip" "https://smn/temp.zip"
                "https://smn/boletin/" "https://smn/" 2025 3
                bulletin_reader bundle_response (fun _ => Some brumario_bundle)
                (fun _ => Ok brumario_csv) (fun _ _ => [Byte.x58])
                no_transliteration (fun _ => "x") (fun _ => "t")
                None "lluvia" true home_world w' _ Hrun)) as H.
  assert (Hcwd : cwd w' = ["home"; "u"]).
  { pose proof (f_equal (fun x => cwd (snd x)) Hrun) as Hc. cbn [snd] in Hc.
    rewrite <- Hc. vm_compute. reflexivity. }
  unfold resolve, start_of in H. cbn in H. exact H.
Defined.

Lemma bad_archive_is_left_behind_witness :
  fst broken_archive_run = Raise BadZipFile /\
  fst (read_file (parse_path "/home/u/Temperatura/temp.zip") (snd broken_archive_run))
  = Ok [Byte.x50; Byte.x4b; Byte.x03].
Proof.
  destruct (set_destination_directory None "Temperatura" home_world)
    as [r1 w1] eqn:H1.
  assert (Hr1 : r1 = Ok ({| anchored := true; parts := ["home"; "u"; "Temperatura"] |},
                         {| anchored := true;
                            parts := ["home"; "u"; "Temperatura"; "temp.zip"] |})).
  { pose proof (f_equal fst H1) as H. cbn [fst] in H. rewrite <- H.
    vm_compute. reflexivity. }
  assert (Hw1 : w1 = snd (set_destination_directory None "Temperatura" home_world))
    by now rewrite H1.
  subst r1.
  destruct (_download_zip_file bundle_response "https://smn/temp.zip"
              {| anchored := true; parts := ["home"; "u"; "Temperatura"; "temp.zip"] |}
              w1) as [r2 w2] eqn:H2.
  assert (Hr2 : r2 = Ok tt).
  { pose proof (f_equal fst H2) as H. cbn [fst] in H. rewrite <- H, Hw1.
    vm_compute. reflexivity. }
  subst r2.
  destruct (bad_archive_is_left_behind
              "https://smn/lluvia.zip" "https://smn/temp.zip"
              "https://smn/boletin/" "https://smn/" 2025 3
              bulletin_reader bundle_response (fun _ => None)
              (fun _ => Ok brumario_csv) (fun _ _ => [Byte.x58])
              no_transliteration (fun _ => "x") (fun _ => "t")
              None "Temperatura" true home_world w1 w2
              "https://smn/temp.zip" "Temperatura" "Tmed.xlsx"
              [(2024, sonora_nacional sonora_cells nacional_cells);
               (2025, sonora_nacional sonora_cells nacional_cells)]
              _ _ [[Byte.x50; Byte.x4b]; []; [Byte.x03]] None
              ltac:(vm_compute; reflexivity) H1 eq_refl H2 eq_refl)
    as (Hrun & _ & Hread).
  unfold broken_archive_run. rewrite Hrun. cbn [fst snd].
  split; [reflexivity |].
  change (parse_path "/home/u/Temperatura/temp.zip")
    with {| anchored := true; parts := ["home"; "u"; "Temperatura"; "temp.zip"] |}.
  rewrite Hread. reflexivity.
Defined.

Lemma run_asks_forecast_at_most_twice_witness :
  exists asked,
    forecast_requests (snd rain_run) = [] ++ asked /\ (length asked <= 2)%nat.
Proof.
  destruct (run_asks_forecast_at_most_twice
              "https://smn/lluvia.zip" "https://smn/temp.zip"
              "https://smn/boletin/" "https://smn/" 2025 3
              bulletin_reader bundle_response (fun _ => Some brumario_bundle)
              (fun _ => Ok brumario_csv) (fun _ _ => [Byte.x58])
              no_transliteration (fun _ => "x") (fun _ => "t")
              None "lluvia" true home_world) as (asked & E & L & _).
  exists asked. split; [exact E | exact L].
Defined.

Lemma unknown_data_kind_changes_nothing_witness :
  download_conagua "https://smn/lluvia.zip" "https://smn/temp.zip"
    "https://smn/boletin/" "https://smn/" 2025 3
    bulletin_reader bundle_response (fun _ => Some plain_archive)
    (fun _ => Ok brumario_csv) (fun _ _ => [Byte.x58])
    no_transliteration (fun _ => "x") (fun _ => "t")
    None "nieve" true home_world
  = (Raise (ValueError "Invalid data type: nieve"), home_world).
Proof.
  apply (unknown_data_kind_changes_nothing
           "https://smn/lluvia.zip" "https://smn/temp.zip"
           "https://smn/boletin/" "https://smn/" 2025 3
           bulletin_reader bundle_response (fun _ => Some plain_archive)
           (fun _ => Ok brumario_csv) (fun _ _ => [Byte.x58])
           no_transliteration (fun _ => "x") (fun _ => "t")
           None "nieve" true home_world).
  reflexivity.
Defined.

(** ** The forecast bundle: which tables it yields, and under which keys *)

Lemma positions_complete (l : value) (cols : list value) (ns : list nat) (j : nat) :
  In (j, l) (combine ns cols) ->
  In j (map fst (List.filter (fun p => value_eqb l (snd p)) (combine ns cols))).
Proof.
  intros H. apply in_map_iff. exists (j, l). split; [reflexivity |].
  apply filter_In. split; [exact H |]. now apply bool_decide_eq_true_2.
Qed.

(** [df.drop(columns=l, errors="ignore")] leaves no column labelled [l]. *)
Lemma drop_column_ignore_drops (l : string) (df : DataFrame) :
  label_in (VStr l) (columns (drop_column_ignore l df)) = false.
Proof.
  apply not_true_iff_false. rewrite label_in_In.
  unfold drop_column_ignore, remove_positions, positions. cbn [columns].
  rewrite in_map_iff. intros ([j c] & Hc & Hin). cbn [snd] in Hc. subst c.
  apply filter_In in Hin as [Hin Hkeep]. cbn [fst] in Hkeep.
  apply negb_true_iff in Hkeep. apply not_true_iff_false in Hkeep. apply Hkeep.
  apply existsb_exists. exists j. split; [| apply Nat.eqb_refl].
  now apply positions_complete.
Qed.

Lemma drop_column_ignore_labels (l : string) (df : DataFrame) (P : value -> Prop) :
  Forall P (columns df) -> Forall P (columns (drop_column_ignore l df)).
Proof.
  intros H. unfold drop_column_ignore. cbn [columns].
  apply List.Forall_forall. intros c Hc. rewrite List.Forall_forall in H. apply H.
  apply list_elem_of_In. apply list_elem_of_In in Hc.
  eapply elem_of_sublist; [exact Hc | apply remove_positions_sublist].
Qed.

Lemma dict_insert_NoDup {V} (k : string) (v : V) (d : list (string * V)) :
  NoDup (map fst d) -> NoDup (map fst (dict_insert k v d)).
Proof.
  intros Hd. unfold dict_insert. destruct (existsb _ d) eqn:Hex.
  - replace (map fst (map (fun kv => if String.eqb (fst kv) k then (k, v) else kv) d))
      with (map fst d); [exact Hd |].
    rewrite map_map. apply map_ext. intros kv.
    destruct (String.eqb_spec (fst kv) k); [now subst | reflexivity].
  - rewrite map_app. cbn [map fst]. apply NoDup_app. split; [exact Hd |].
    split; [| apply NoDup_singleton].
    intros x Hx Hk. apply list_elem_of_In in Hx. apply list_elem_of_singleton in Hk.
    subst x. apply in_map_iff in Hx as (kv & Hkv & Hin).
    apply not_true_iff_false in Hex. apply Hex. apply existsb_exists.
    exists kv. split; [exact Hin |]. now apply String.eqb_eq.
Qed.

Lemma foldl_raise {A B} (f : A -> B -> result A) (e : exn) (l : list B) :
  foldl (fun acc x => a ← acc; f a x) (Raise e) l = Raise e.
Proof. induction l as [|x l IH]; [reflexivity | exact IH]. Qed.

Section ForecastProperties.

Variable http_get : string -> result (list bytes * option exn).
Variable zip_parse : bytes -> option (list ZipInfo).
Variable read_csv : bytes -> result DataFrame.
Variable unidecode_table : ascii -> string.
Variable float_repr : Z -> string.
Variable time_repr : Timestamp -> string.

Local Abbreviation retrieve :=
  (download_extract_pronostic http_get zip_parse read_csv unidecode_table
     float_repr time_repr).
Local Abbreviation read :=
  (read_target read_csv unidecode_table float_repr time_repr).

(** The test of lines 270-282 on an entry name: a CSV of state statistics. *)
Local Abbreviation is_target file :=
  ((Py.str_in "ESTADISITCAS" (Py.split "/" file) ||
    Py.str_in "ESTADISTICAS" (Py.split "/" file)) &&
   (Py.str_in "csv" (Py.split "." file) && Py.str_in "Estados" (Py.split "_" file))).

Lemma read_target_inv (members : list ZipInfo) (dataframes out : list (string * DataFrame))
    (file : string) :
  read members dataframes file = Ok out ->
  exists key df,
    pronostic_key file = Ok key /\
    label_in (VStr "cv_estado") (columns df) = false /\
    Forall (fun c => exists s, c = VStr s) (columns df) /\
    out = dict_insert key df dataframes.
Proof.
  unfold read_target. intros H.
  apply bind_Ok in H as (csvfile & _ & H).
  apply bind_Ok in H as (df & _ & H). cbv zeta in H.
  apply bind_Ok in H as (key & Hkey & [= <-]).
  eexists key, _. split; [exact Hkey |].
  split; [apply drop_column_ignore_drops |].
  split; [| reflexivity].
  apply drop_column_ignore_labels. unfold _make_cols_lower, set_columns. cbn [columns].
  apply List.Forall_forall. intros c Hc. apply in_map_iff in Hc as (c0 & <- & _). eauto.
Qed.


(** X20: an archive none of whose entries is a CSV of state statistics
    (a path with a component ESTADISTICAS, or ESTADISITCAS, a piece csv
    between dots and a piece Estados between underscores) makes
    [download_extract_pronostic] raise "No target CSV files found in
    ZIP", whatever else it holds. *)
Theorem archive_without_state_statistics (url : string) (chunks : list bytes)
    (members : list ZipInfo) :
  http_get url = Ok (chunks, None) ->
  zip_parse (List.concat chunks) = Some members ->
  (forall m, In m members -> is_target (filename m) = false) ->
  retrieve url = Raise (PlainException "No target CSV files found in ZIP").
Proof.
  intros Hget Hzip Hnone. unfold download_extract_pronostic.
  rewrite Hget. cbn [mbind result_bind response_content fst snd].
  rewrite Hzip. cbv zeta.
  rewrite filter_filter.
  replace (List.filter _ (map filename members)) with (@nil string); [reflexivity |].
  symmetry. clear -Hnone. induction members as [|m members IH]; [reflexivity |].
  cbn [map List.filter]. rewrite (Hnone m) by now left.
  apply IH. intros m' Hm'. apply Hnone. now right.
Qed.

End ForecastProperties.


Lemma archive_without_state_statistics_witness :
  download_extract_pronostic bundle_response (fun _ => Some plain_archive)
    (fun _ => Ok brumario_csv) no_transliteration (fun _ => "x") (fun _ => "t")
    "https://smn/03-MAM-Pronostico-de-Marzo-2025-Lluvia.zip"
  = Raise (PlainException "No target CSV files found in ZIP").
Proof.
  apply (archive_without_state_statistics
           bundle_response (fun _ => Some plain_archive)
           (fun _ => Ok brumario_csv) no_transliteration (fun _ => "x") (fun _ => "t")
           "https://smn/03-MAM-Pronostico-de-Marzo-2025-Lluvia.zip"
           [[Byte.x50; Byte.x4b]; []; [Byte.x03]] plain_archive).
  - reflexivity.
  - reflexivity.
  - intros m Hm. repeat (destruct Hm as [<- | Hm]; [vm_compute; reflexivity |]).
    destruct Hm.
Defined.

(** ** From the path of a forecast table to the month it is merged under *)

Lemma split_append (sep : ascii) (a b : string) :
  Py.split sep (a +:+ String sep b) = Py.split sep a ++ Py.split sep b.
Proof.
  induction a as [|c a IH].
  - change (EmptyString +:+ String sep b) with (String sep b).
    cbn [Py.split app]. now rewrite Ascii.eqb_refl.
  - rewrite append_String. cbn [Py.split]. rewrite IH.
    destruct (Ascii.eqb c sep); [reflexivity |].
    destruct (Py.split sep a) as [|w ws] eqn:Hs; [| reflexivity].
    now apply split_nonempty in Hs.
Qed.

(** A piece that [split] yields holds no separator. *)
Lemma split_piece (sep : ascii) (s x : string) :
  In x (Py.split sep s) -> Py.split sep x = [x].
Proof.
  revert x. induction s as [|c s IH]; intros x Hin.
  - destruct Hin as [<- | []]. reflexivity.
  - cbn [Py.split] in Hin. destruct (Ascii.eqb c sep) eqn:Hc.
    + destruct Hin as [<- | Hin]; [reflexivity | now apply IH].
    + destruct (Py.split sep s) as [|w ws] eqn:Hs; [now apply split_nonempty in Hs |].
      destruct Hin as [<- | Hin]; [| apply IH; now right].
      cbn [Py.split]. rewrite Hc, (IH w); [reflexivity | now left].
Qed.

Lemma single_piece_inv (sep c : ascii) (r : string) :
  Py.split sep (String c r) = [String c r] ->
  Ascii.eqb c sep = false /\ Py.split sep r = [r].
Proof.
  cbn [Py.split]. destruct (Ascii.eqb c sep); [discriminate |].
  destruct (Py.split sep r) as [|w [|w' ws]] eqn:Hs; try discriminate.
  - now apply split_nonempty in Hs.
  - intros [= ->]. auto.
Qed.

Lemma lower_char_keeps_underscore_out (c : ascii) :
  Ascii.eqb c "_" = false -> Ascii.eqb (Py.lower_char c) "_" = false.
Proof.
  destruct c as [[] [] [] [] [] [] [] []]; intros H; try discriminate H; reflexivity.
Qed.

Lemma lower_single_piece (x : string) :
  Py.split "_" x = [x] -> Py.split "_" (Py.lower x) = [Py.lower x].
Proof.
  induction x as [|c r IH]; [reflexivity |].
  intros H. apply single_piece_inv in H as [Hc Hr].
  cbn [Py.lower Py.split].
  now rewrite (lower_char_keeps_underscore_out _ Hc), (IH Hr).
Qed.

Lemma str_of_Z_single_piece (z : Z) : Py.split "_" (Py.str_of_Z z) = [Py.str_of_Z z].
Proof.
  assert (Hu : forall d, Py.split "_" (NilEmpty.string_of_uint d)
                         = [NilEmpty.string_of_uint d]).
  { induction d; cbn [NilEmpty.string_of_uint]; [reflexivity | ..];
      cbn [Py.split]; rewrite IHd; reflexivity. }
  assert (Hz : forall d, Py.split "_" (NilZero.string_of_uint d)
                         = [NilZero.string_of_uint d]).
  { intros d. destruct d; [reflexivity | ..]; apply Hu. }
  unfold Py.str_of_Z. destruct (Z.to_int z) as [d|d]; cbn [NilZero.string_of_int].
  - apply Hz.
  - cbn [Py.split]. now rewrite Hz.
Qed.

(** X21: the key [download_extract_pronostic] gives a forecast table
    has three fields between underscores, provided the data type taken
    from the directory name holds no underscore: that data type, the
    year read from the fourth field of the file name, printed anew, and
    the third field of the file name in lower case.  The third field is
    the one [add_pronostico] looks up in [month_map]. *)
Theorem forecast_key_carries_the_month (file key : string) :
  let data_type :=
    Py.lower (hd EmptyString
                (Py.split "/" (List.last (Py.split "-" (Py.dirname file)) EmptyString))) in
  pronostic_key file = Ok key ->
  Py.split "_" data_type = [data_type] ->
  exists month text year,
    Py.split "_" (Py.basename file) !! 2%nat = Some month /\
    Py.split "_" (Py.basename file) !! 3%nat = Some text /\
    Py.int_of_str text = Some year /\
    Py.split "_" key = [data_type; Py.str_of_Z year; Py.lower month].
Proof.
  cbv zeta. unfold pronostic_key. intros H Hdt.
  apply bind_Ok in H as (text & Htext & H).
  apply bind_Ok in H as (year & Hyear & H).
  apply bind_Ok in H as (month & Hmonth & [= <-]).
  destruct (Py.split "_" (Py.basename file) !! 3%nat) as [text'|] eqn:H3;
    [injection Htext as -> | discriminate].
  destruct (Py.int_of_str text) as [year'|] eqn:Hint;
    [injection Hyear as -> | discriminate].
  destruct (Py.split "_" (Py.basename file) !! 2%nat) as [month'|] eqn:H2;
    [injection Hmonth as -> | discriminate].
  exists month, text, year. repeat (split; [reflexivity || assumption |]).
  change ("_" +:+ ?s) with (String "_" s).
  rewrite split_append, Hdt.
  change ("_" +:+ ?s) with (String "_" s).
  rewrite split_append, str_of_Z_single_piece.
  rewrite lower_single_piece; [reflexivity |].
  apply (split_piece "_" (Py.basename file)).
  apply list_elem_of_In. eapply list_elem_of_lookup_2. exact H2.
Qed.

Lemma forecast_key_carries_the_month_witness :
  exists month text year,
    Py.split "_" (Py.basename
      "03-MAM-Pronostico-de-Marzo-2025-Lluvia/ESTADISTICAS/Lluvia_Estados_Marzo_2025_MAM.csv")
      !! 2%nat = Some month /\
    Py.split "_" (Py.basename
      "03-MAM-Pronostico-de-Marzo-2025-Lluvia/ESTADISTICAS/Lluvia_Estados_Marzo_2025_MAM.csv")
      !! 3%nat = Some text /\
    Py.int_of_str text = Some year /\
    Py.split "_" "lluvia_2025_marzo" = ["lluvia"; Py.str_of_Z year; Py.lower month].
Proof.
  apply (forecast_key_carries_the_month
           "03-MAM-Pronostico-de-Marzo-2025-Lluvia/ESTADISTICAS/Lluvia_Estados_Marzo_2025_MAM.csv"
           "lluvia_2025_marzo"); reflexivity.
Defined.

(** ** Merging the forecast: what stays as it was *)

Lemma align_series_length (series : list (value * value)) (df : DataFrame)
    (vals : list value) :
  align_series series df = Ok vals -> length vals = length (rows df).
Proof.
  unfold align_series. destruct (bool_decide _) eqn:Hsame.
  - intros [= <-]. apply bool_decide_eq_true_1 in Hsame.
    apply (f_equal (@length value)) in Hsame. unfold index in Hsame.
    now rewrite !length_map in *.
  - destruct (rows df) eqn:Hrows; [discriminate |].
    destruct (nodup_labels _); [| discriminate].
    intros [= <-]. unfold index. rewrite Hrows. now rewrite !length_map.
Qed.

Lemma setitem_series_shape (l : value) (series : list (value * value))
    (df out : DataFrame) :
  setitem_series l series df = Ok out ->
  index out = index df /\
  columns df `prefix_of` columns out /\
  (length (columns out) <= length (columns df) + 1)%nat.
Proof.
  unfold setitem_series. intros H. apply bind_Ok in H as (vals & Hvals & H).
  apply align_series_length in Hvals.
  assert (Hidx : map (fun rv : value * list value * value => fst (fst rv))
                     (combine (rows df) vals) = index df).
  { rewrite <- (map_map fst fst). now rewrite map_fst_combine_same_length. }
  injection H as <-.
  destruct (positions l (columns df)); cbn [columns]; unfold index at 1; cbn [rows];
    rewrite map_map; cbn [fst]; (split; [exact Hidx |]).
  - split; [now exists [l] |]. rewrite length_app. simpl. lia.
  - split; [reflexivity | lia].
Qed.

Lemma merge_entries_shape (pronostic_dfs : list (string * DataFrame)) :
  forall df out : DataFrame,
    foldl (fun acc kv => d ← acc; merge_entry d (fst kv) (snd kv)) (Ok df) pronostic_dfs
    = Ok out ->
    index out = index df /\
    columns df `prefix_of` columns out /\
    (length (columns out) <= length (columns df) + length pronostic_dfs)%nat.
Proof.
  induction pronostic_dfs as [|kv ps IH]; intros df out H.
  - injection H as <-. split; [reflexivity |]. split; [reflexivity | simpl; lia].
  - cbn [foldl] in H. cbn [mbind result_bind] in H.
    destruct (merge_entry df (fst kv) (snd kv)) as [df1|e] eqn:H1.
    2:{ rewrite (foldl_raise (fun d kv => merge_entry d (fst kv) (snd kv))) in H.
        discriminate. }
    apply IH in H as (Hi & Hc & Hl).
    unfold merge_entry in H1. apply bind_Ok in H1 as (name & _ & H1).
    apply bind_Ok in H1 as (series & _ & H1).
    apply setitem_series_shape in H1 as (Hi1 & Hc1 & Hl1).
    split; [congruence |]. split; [now transitivity (columns df1) |].
    cbn [length]. lia.
Qed.

(** X22: [add_pronostico] merges into the table of the last year of the
    dictionary only: the tables of the other years stay as they were,
    the keys and their order too; the last table keeps its rows, index
    for index, and its columns in their places, and gains at most one
    column for each forecast table. *)
Theorem merge_changes_only_the_last_year (new_info_dict merged : list (Z * DataFrame))
    (pronostic_dfs : list (string * DataFrame)) :
  NoDup (map fst new_info_dict) ->
  merge_pronostico new_info_dict pronostic_dfs = Ok merged ->
  exists earlier year df df',
    new_info_dict = earlier ++ [(year, df)] /\
    merged = earlier ++ [(year, df')] /\
    index df' = index df /\
    columns df `prefix_of` columns df' /\
    (length (columns df') <= length (columns df) + length pronostic_dfs)%nat.
Proof.
  intros Hnd H. unfold merge_pronostico in H.
  destruct (last new_info_dict) as [[year df]|] eqn:Hlast; [| discriminate].
  apply last_Some in Hlast as [earlier ->].
  apply bind_Ok in H as (df' & Hfold & [= <-]).
  apply merge_entries_shape in Hfold as (Hi & Hc & Hl).
  exists earlier, year, df, df'. split; [reflexivity |].
  split; [| auto].
  unfold dict_set. rewrite map_app. cbn [map fst].
  destruct (decide (year = year)) as [_ | Hne]; [| contradiction].
  f_equal. rewrite map_app in Hnd. apply NoDup_app in Hnd as (_ & Hnot & _).
  rewrite <- (map_id earlier) at 2. apply map_ext_in. intros kv Hin.
  destruct (decide (fst kv = year)) as [Heq | _]; [| reflexivity].
  exfalso. apply (Hnot (fst kv)).
  - apply list_elem_of_In. now apply in_map.
  - rewrite Heq. cbn [map fst]. now apply list_elem_of_singleton.
Qed.

Lemma merge_changes_only_the_last_year_witness :
  exists earlier year df df',
    [(2024, table_2025); (2025, table_2025)] = earlier ++ [(year, df)] /\
    [(2024, table_2025);
     (2025, {| columns := [VStr "estado"; VStr "ene"; VStr "mar"];
               rows := [(VInt 0, [VStr "AGUASCALIENTES"; VFloat 4627730092099895296;
                                  VFloat 4622945017495814144]);
                        (VInt 1, [VStr "SONORA"; VFloat 4629137466983448576;
                                  VFloat 4625196817309499392])] |})]
    = earlier ++ [(year, df')] /\
    index df' = index df /\
    columns df `prefix_of` columns df' /\
    (length (columns df') <= length (columns df) + 1)%nat.
Proof.
  apply (merge_changes_only_the_last_year
           [(2024, table_2025); (2025, table_2025)] _
           [("lluvia_2025_marzo", forecast_table)]).
  - cbn [map fst]. apply NoDup_cons. split; [| apply NoDup_singleton].
    intros Hin. apply list_elem_of_singleton in Hin. discriminate.
  - vm_compute. reflexivity.
Defined.

(** ** Extraction: where the content of an entry ends up *)

Lemma for_each_app {A} (body : A -> M unit) (xs ys : list A) (w w' : World) :
  for_each body (xs ++ ys) w = (Ok tt, w') ->
  exists w1, for_each body xs w = (Ok tt, w1) /\ for_each body ys w1 = (Ok tt, w').
Proof.
  revert w. induction xs as [|x xs IH]; intros w H; [exists w; auto |].
  cbn [app for_each] in H.
  apply M_bind_inv in H as [([] & w0 & H0 & H) | (e & _ & [=])].
  apply IH in H as (w1 & H1 & H2). exists w1. split; [| exact H2].
  cbn [for_each]. unfold mbind, M_bind. now rewrite H0.
Qed.

(** One entry: the working directory stays; a directory entry changes no
    file, a file entry stores its content at its target. *)
Lemma extract_member_files (dest_dir : Path) (common_prefix : string)
    (member : ZipInfo) (w w' : World) :
  extract_member dest_dir common_prefix member w = (Ok tt, w') ->
  cwd w' = cwd w /\
  files (fs w') =
    if member_is_dir member then files (fs w)
    else <[ resolve w (joinpath dest_dir
                         (stripped_name common_prefix (filename member)))
            := payload member ]> (files (fs w)).
Proof.
  unfold extract_member.
  set (target := joinpath dest_dir (stripped_name common_prefix (filename member))).
  destruct (member_is_dir member).
  - intros H. apply mkdir_walk_grows in H as (Hc & _ & Hf). auto.
  - intros H. apply M_bind_inv in H as [([] & w1 & H1 & H) | (e & _ & [=])].
    apply mkdir_walk_grows in H1 as (Hc1 & _ & Hf1).
    apply write_file_inv in H as (front & name & d & Hp & Hdd & He & _ & ->).
    split; [exact Hc1 |]. cbn [fs with_fs files]. rewrite Hf1. f_equal.
    unfold resolve. rewrite Hp, walk_app. apply enter_walk in He.
    cbn [walk fold_left]. unfold walk_step. rewrite Hdd.
    unfold start_of in *. rewrite Hc1 in He. now rewrite He.
Qed.

Lemma extract_members_keep (dest_dir : Path) (common_prefix : string)
    (members : list ZipInfo) (n : node) :
  forall w w',
    for_each (extract_member dest_dir common_prefix) members w = (Ok tt, w') ->
    (forall m, In m members -> member_is_dir m = false ->
               resolve w (joinpath dest_dir (stripped_name common_prefix (filename m)))
               <> n) ->
    cwd w' = cwd w /\ files (fs w') !! n = files (fs w) !! n.
Proof.
  induction members as [|m members IH]; intros w w' H Hother.
  - injection H as <-. auto.
  - cbn [for_each] in H.
    apply M_bind_inv in H as [([] & w1 & H1 & H) | (e & _ & [=])].
    apply extract_member_files in H1 as (Hc1 & Hf1).
    assert (Hres : forall p, resolve w1 p = resolve w p)
      by (intros p; unfold resolve, start_of; now rewrite Hc1).
    apply IH in H as (Hc & Hf).
    + split; [congruence |]. rewrite Hf, Hf1.
      destruct (member_is_dir m) eqn:Hdir; [reflexivity |].
      apply lookup_insert_ne. apply Hother; [now left | exact Hdir].
    + intros m' Hin Hdir. rewrite Hres. apply Hother; [now right | exact Hdir].
Qed.

Lemma never_removes_extract_member (dest_dir : Path) (common_prefix : string)
    (member : ZipInfo) :
  never_removes (extract_member dest_dir common_prefix member).
Proof.
  unfold extract_member. destruct (member_is_dir member); [apply never_removes_mkdir_p |].
  apply never_removes_bind; [apply never_removes_mkdir_p |].
  intros _. apply never_removes_write_file.
Qed.

(** X23: when extraction succeeds, the content of a file entry is what
    the file at its target holds afterwards (the target being the
    destination joined with the entry's name less the common prefix),
    unless a later file entry of the archive has the same target. *)
Theorem extracted_file_holds_its_content (dest_dir : Path) (w w' : World)
    (before after : list ZipInfo) (member : ZipInfo) :
  let members := before ++ member :: after in
  let target m :=
    resolve w (joinpath dest_dir
                 (stripped_name (common_prefix_of (map filename members)) (filename m))) in
  extract_members dest_dir members w = (Ok tt, w') ->
  member_is_dir member = false ->
  (forall m, In m after -> member_is_dir m = false -> target m <> target member) ->
  files (fs w') !! target member = Some (payload member).
Proof.
  cbv zeta. unfold extract_members.
  set (cp := common_prefix_of _). intros H Hfile Hlater.
  apply for_each_app in H as (w1 & H1 & H).
  cbn [for_each] in H.
  apply M_bind_inv in H as [([] & w2 & H2 & H) | (e & _ & [=])].
  destruct (never_removes_for_each _ before
              (never_removes_extract_member dest_dir cp) _ _ _ H1) as (Hc1 & _ & _).
  apply extract_member_files in H2 as (Hc2 & Hf2). rewrite Hfile in Hf2.
  assert (Hres1 : forall p, resolve w1 p = resolve w p)
    by (intros p; unfold resolve, start_of; now rewrite Hc1).
  assert (Hres2 : forall p, resolve w2 p = resolve w p)
    by (intros p; unfold resolve, start_of; now rewrite Hc2, Hc1).
  apply (extract_members_keep _ _ _
           (resolve w (joinpath dest_dir (stripped_name cp (filename member)))))
    in H as (_ & Hf).
  - rewrite Hf, Hf2, Hres1. apply lookup_insert_eq.
  - intros m Hin Hdir. rewrite Hres2. now apply Hlater.
Qed.

Lemma extracted_file_holds_its_content_witness :
  files (fs (snd (extract_members (parse_path "Precipitacion") plain_archive home_world)))
    !! ["home"; "u"; "Precipitacion"; "2019"; "lluvia.xls"]
  = Some [Byte.x41].
Proof.
  destruct (extract_members (parse_path "Precipitacion") plain_archive home_world)
    as [r w'] eqn:Hrun.
  assert (Hr : r = Ok tt).
  { pose proof (f_equal fst Hrun) as H. cbn [fst] in H. rewrite <- H.
    vm_compute. reflexivity. }
  subst r. cbn [snd].
  apply (extracted_file_holds_its_content (parse_path "Precipitacion") home_world w'
           [{| filename := "data/"; payload := [] |}]
           [{| filename := "data/2020.xls"; payload := [Byte.x42] |}]
           {| filename := "data/2019/lluvia.xls"; payload := [Byte.x41] |}).
  - exact Hrun.
  - reflexivity.
  - intros m [<- | []] _. vm_compute. discriminate.
Defined.

(** ** The reader *)

Lemma read_file_same_files (p : Path) (w w' : World) :
  fs w' = fs w -> cwd w' = cwd w -> fst (read_file p w') = fst (read_file p w).
Proof.
  intros Hfs Hcwd. unfold read_file, start_of. rewrite Hfs, Hcwd.
  destruct (last (parts p)); [| reflexivity].
  destruct (enter _ _ _); [| reflexivity].
  now destruct (files (fs w) !! _).
Qed.

Lemma write_file_files (p : Path) (data : bytes) (w w' : World) :
  write_file p data w = (Ok tt, w') ->
  cwd w' = cwd w /\ dirs (fs w') = dirs (fs w) /\
  excel_writes w' = excel_writes w /\
  files (fs w') = <[ resolve w p := data ]> (files (fs w)).
Proof.
  intros H. apply write_file_inv in H as (front & name & d & Hp & Hdd & He & _ & ->).
  cbn [fs with_fs files dirs cwd excel_writes]. repeat (split; [reflexivity |]).
  f_equal. unfold resolve. rewrite Hp, walk_app. apply enter_walk in He.
  cbn [walk fold_left]. unfold walk_step. rewrite Hdd. now rewrite He.
Qed.

Lemma filter_sorted_labels (keep : value -> bool) (rows : list (value * list value)) :
  sorted_labels (map fst rows) ->
  Forall (fun l => is_time_or_nat l = true) (map fst rows) ->
  sorted_labels (map fst (List.filter (fun r => keep (fst r)) rows)) /\
  Forall (fun l => is_time_or_nat l = true)
         (map fst (List.filter (fun r => keep (fst r)) rows)).
Proof.
  unfold sorted_labels. intros Hs Hall. rewrite map_fst_filter_fst. split.
  - now apply StronglySorted_filter.
  - apply List.Forall_forall. intros l Hl. apply filter_In in Hl as [Hl _].
    exact (proj1 (List.Forall_forall _ _) Hall l Hl).
Qed.

Section ReaderProperties.

Variable rain_url : string.
Variable temp_url : string.
Variable new_info_url : string.
Variable pronostic_url : string.
Variable edge_case_rain : string.
Variable edge_case_temp : string.
Variable order_col : list string.
Variable now_year : Z.
Variable now_month : Z.
Variable read_pdf : string -> result DataFrame.
Variable http_get : string -> result (list bytes * option exn).
Variable zip_parse : bytes -> option (list ZipInfo).
Variable read_csv : bytes -> result DataFrame.
Variable read_excel : string -> bytes -> result DataFrame.
Variable iterdir_order : FS -> node -> list nat.
Variable ties : list (value * list value) -> list nat.
Variable excel_bytes : list value -> list (list value) -> bytes.
Variable csv_bytes : list value -> list (list value) -> bytes.
Variable unidecode_table : ascii -> string.
Variable float_repr : Z -> string.
Variable time_repr : Timestamp -> string.
Variable to_datetime_index : list value -> result (list value).
Variable to_datetime_text : string -> result Timestamp.

Local Abbreviation run :=
  (download_conagua rain_url temp_url new_info_url pronostic_url now_year now_month
     read_pdf http_get zip_parse read_csv excel_bytes unidecode_table float_repr
     time_repr).
Local Abbreviation process :=
  (process_data edge_case_rain edge_case_temp order_col unidecode_table
     float_repr time_repr read_excel iterdir_order ties).
Local Abbreviation bound := (convert_date to_datetime_text).
Local Abbreviation filtered := (filtrar_datos_table to_datetime_index to_datetime_text).
Local Abbreviation read_conagua :=
  (_read_conagua_datos rain_url temp_url new_info_url pronostic_url edge_case_rain
     edge_case_temp order_col now_year now_month read_pdf http_get zip_parse read_csv
     read_excel iterdir_order ties excel_bytes unidecode_table float_repr time_repr
     to_datetime_index to_datetime_text).
Local Abbreviation get_df :=
  (get_conagua_df rain_url temp_url new_info_url pronostic_url edge_case_rain
     edge_case_temp order_col now_year now_month read_pdf http_get zip_parse read_csv
     read_excel iterdir_order ties excel_bytes unidecode_table float_repr time_repr
     to_datetime_index to_datetime_text).
Local Abbreviation get_excel :=
  (get_conagua_excel rain_url temp_url new_info_url pronostic_url edge_case_rain
     edge_case_temp order_col now_year now_month read_pdf http_get zip_parse read_csv
     read_excel iterdir_order ties excel_bytes unidecode_table float_repr time_repr
     to_datetime_index to_datetime_text).
Local Abbreviation get_csv :=
  (get_conagua_csv rain_url temp_url new_info_url pronostic_url edge_case_rain
     edge_case_temp order_col now_year now_month read_pdf http_get zip_parse read_csv
     read_excel iterdir_order ties excel_bytes csv_bytes unidecode_table float_repr
     time_repr to_datetime_index to_datetime_text).
Local Abbreviation kept s e t :=
  (match s, e with
   | Some a, Some b => loc_mask (fun i => label_ge a i && label_le b i) t
   | Some a, None => loc_mask (label_ge a) t
   | None, Some b => loc_mask (label_le b) t
   | None, None => t
   end).

(** The three steps of [_read_conagua_datos], whatever the outcome. *)
Lemma read_conagua_datos_steps (self : ReadConaguaDatos) (w w' : World)
    (r : result DataFrame) :
  read_conagua self w = (r, w') ->
  (exists e, run None (data_type self) (pronostico self) w = (Raise e, w') /\
             r = Raise e) \/
  exists downloader_directory,
    run None (data_type self) (pronostico self) w = (Ok downloader_directory, w') /\
    ((exists e, process downloader_directory true w' = (Raise e, w') /\ r = Raise e) \/
     exists ca_df,
       process downloader_directory true w' = (Ok ca_df, w') /\
       r = filtered ca_df (start_date self) (end_date self)).
Proof.
  unfold _read_conagua_datos. intros H.
  apply M_bind_inv in H as [(dd & w1 & Hrun & H) | (e & Hrun & ->)]; [| eauto].
  right. exists dd.
  pose proof (process_data_reads_only edge_case_rain edge_case_temp order_col
                unidecode_table float_repr time_repr read_excel iterdir_order ties
                dd true w1) as Hsame.
  apply M_bind_inv in H as [(ca_df & w2 & Hp & H) | (e & Hp & ->)].
  - rewrite Hp in Hsame. cbn [snd] in Hsame. subst w2.
    unfold lift in H. injection H as <- <-. split; [exact Hrun |]. eauto.
  - rewrite Hp in Hsame. cbn [snd] in Hsame. subst w'. split; [exact Hrun |]. eauto.
Qed.

(** The filter on a table whose index holds dates. *)
Lemma filtrar_datos_table_inv (ca_df series : DataFrame)
    (start_date end_date : option string) :
  Forall (fun l => is_time_or_nat l = true) (index ca_df) ->
  filtered ca_df start_date end_date = Ok series ->
  exists s e,
    fst (bound start_date ∅) = Ok s /\ fst (bound end_date ∅) = Ok e /\
    series = kept s e ca_df.
Proof.
  intros Htimes. unfold filtrar_datos_table.
  destruct (filtrar_datos _ _ _ _ _ _) as [[l|err] h'] eqn:H; [| discriminate].
  apply filtrar_datos_inv in H as (input & t & s & e & Hin & Ht & Hs & He & Hout).
  rewrite lookup_singleton_eq in Hin. injection Hin as <-.
  rewrite Hout. intros [= <-]. exists s, e.
  rewrite (convert_date_result _ _ _ ∅) in Hs. rewrite (convert_date_result _ _ _ ∅) in He.
  split; [exact Hs |]. split; [exact He |].
  destruct Ht as [[_ ->] | (Hno & _)]; [reflexivity |].
  exfalso. apply not_true_iff_false in Hno. apply Hno.
  unfold is_datetime_index. apply forallb_forall. intros i Hi.
  exact (proj1 (List.Forall_forall _ _) Htimes i Hi).
Qed.

(** Neither the run of the downloader moves the working directory. *)
Lemma run_keeps_cwd (file_location : option string) (data_type : string)
    (include_pronostico : bool) (w w' : World) (r : result Path) :
  run file_location data_type include_pronostico w = (r, w') -> cwd w' = cwd w.
Proof.
  intros H.
  apply run_reaches_unlink in H
    as [[(Hc & _) _] | (config & w5 & r' & _ & (Hc & _) & Hun & _)]; [exact Hc |].
  apply unlink_inv in Hun as [[-> _] | (front & name & d & _ & _ & _ & ->)];
    exact Hc.
Qed.

(** X24: what [get_conagua_df] returns.  The downloader was run without
    a destination, the [directory] of the reader playing no part, and
    the world is the one this run left; the table is the normalised
    series of the directory of the run restricted to the two dates, ends
    included.  Its columns are those of the configured order; its rows
    come in date order, first those with a timestamp, in chronological
    order, then those without a date (the months under a header the
    code does not know), which stay when no date is given and go as
    soon as one is. *)
Theorem reader_returns_dated_series (self : ReadConaguaDatos) (w w' : World)
    (series : DataFrame) :
  get_df self w = (Ok series, w') ->
  exists downloader_directory ca_df s e dated undated,
    run None (data_type self) (pronostico self) w = (Ok downloader_directory, w') /\
    process downloader_directory true w' = (Ok ca_df, w') /\
    fst (bound (start_date self) ∅) = Ok s /\
    fst (bound (end_date self) ∅) = Ok e /\
    rows series `sublist_of` rows ca_df /\
    (forall r, In r (rows ca_df) -> within s e (fst r) -> In r (rows series)) /\
    index series = dated ++ undated /\
    chronological dated /\
    Forall (fun l => is_time l = true) dated /\
    Forall (fun l => l = VNaT) undated /\
    (s = None -> e = None -> series = ca_df) /\
    (s <> None \/ e <> None -> undated = [] /\ Forall (within s e) (index series)) /\
    (forall c, In c (columns series) -> exists l, In l order_col /\ c = VStr l).
Proof.
  unfold get_conagua_df. intros H.
  apply read_conagua_datos_steps in H
    as [(e & _ & [=]) | (dd & Hrun & [(e & _ & [=]) | (ca_df & Hp & Hf)]) ].
  symmetry in Hf.
  pose proof (f_equal fst Hp) as Hp1. cbn [fst] in Hp1.
  pose proof Hp1 as Hcols. rewrite process_data_load in Hcols.
  destruct (load_directory read_excel iterdir_order dd w') as [[df_dict|err] w1];
    [| discriminate].
  cbn [fst] in Hcols.
  apply process_data_sorted in Hp1 as [Hsorted Htimes].
  unfold process_tables in Hcols.
  apply bind_Ok in Hcols as (cleaned & _ & Hcols).
  apply bind_Ok in Hcols as (sorted & _ & Hcols).
  apply select_columns_columns in Hcols as [_ Hcols].
  apply (filtrar_datos_table_inv _ _ _ _ Htimes) in Hf as (s & e & Hs & He & ->).
  destruct (kept_rows s e ca_df) as (Hc & Hsub & Hall).
  assert (Hkept : sorted_labels (index (kept s e ca_df)) /\
                  Forall (fun l => is_time_or_nat l = true) (index (kept s e ca_df))).
  { unfold index in *.
    destruct s as [a|], e as [b|]; cbn [loc_mask rows].
    - exact (filter_sorted_labels (fun i => label_ge a i && label_le b i) _
               Hsorted Htimes).
    - exact (filter_sorted_labels (label_ge a) _ Hsorted Htimes).
    - exact (filter_sorted_labels (label_le b) _ Hsorted Htimes).
    - split; [exact Hsorted | exact Htimes]. }
  destruct Hkept as [Hks Hkt].
  destruct (sorted_labels_dated _ Hks Hkt) as (dated & undated & Hidx & Hd & Ht & Hu).
  exists dd, ca_df, s, e, dated, undated.
  repeat (split; [assumption |]).
  split; [now intros -> -> |].
  split; [| now rewrite Hc].
  intros Hne. pose proof (kept_within s e ca_df Hne) as Hw.
  split; [| exact Hw].
  rewrite Hidx in Hw. apply Forall_app in Hw as [_ Hw].
  destruct undated as [|u undated]; [reflexivity |].
  inversion Hu as [|? ? Hnat _]. inversion Hw as [|? ? Habs _]. subst.
  destruct Habs.
Qed.

(** X25: a date that is no date is found out last.  When the download
    and the normalisation succeed and the start date does not parse,
    the reader raises the error of the date in the world the download
    left: the files are downloaded and stay. *)
Theorem reader_checks_dates_last (self : ReadConaguaDatos) (w w' : World)
    (downloader_directory : Path) (ca_df : DataFrame) (e : exn) :
  run None (data_type self) (pronostico self) w = (Ok downloader_directory, w') ->
  process downloader_directory true w' = (Ok ca_df, w') ->
  fst (bound (start_date self) ∅) = Raise e ->
  get_df self w = (Raise e, w').
Proof.
  intros Hrun Hp Hs.
  unfold get_conagua_df, _read_conagua_datos, mbind, M_bind, lift.
  rewrite Hrun, Hp. f_equal.
  pose proof (f_equal fst Hp) as Hp1. cbn [fst] in Hp1.
  apply process_data_sorted in Hp1 as [_ Htimes].
  assert (Hidx : is_datetime_index ca_df = true).
  { unfold is_datetime_index. apply forallb_forall. intros l Hl.
    exact (proj1 (List.Forall_forall _ _) Htimes l Hl). }
  unfold filtrar_datos_table, filtrar_datos, copy, ensure_datetime_index, deref,
    new_object, mbind, S_bind.
  rewrite lookup_singleton_eq. rewrite lookup_insert_eq. rewrite Hidx.
  unfold mret at 1, S_ret at 1.
  rewrite (convert_date_result _ _ _ ∅). now rewrite Hs.
Qed.

(** The output path, read in the world the download left. *)
Lemma output_path_default (file_location : option string) (default : string)
    (w w1 : World) :
  cwd w1 = cwd w ->
  (forall loc, file_location = Some loc -> nonempty loc = true ->
     output_path_of file_location default w1 = parse_path loc) /\
  (truthy file_location = false ->
     output_path_of file_location default w1 = joinpath (path_cwd w) default).
Proof.
  intros Hc. unfold output_path_of, truthy, path_cwd. rewrite Hc. split.
  - intros loc -> Hloc. now rewrite Hloc.
  - destruct file_location as [loc|]; [| reflexivity]. now intros ->.
Qed.

(** X26: [get_conagua_excel] writes the table of [get_conagua_df], the
    cells without the dates of the index, to the location given, and to
    conagua_data.xlsx in the working directory when the location is
    missing or empty; this file is the only one it adds to what the
    download left. *)
Theorem excel_output_holds_the_series (self : ReadConaguaDatos)
    (file_location : option string) (w w' : World) :
  get_excel self file_location w = (Ok tt, w') ->
  exists series w1 output_path,
    get_df self w = (Ok series, w1) /\
    (forall loc, file_location = Some loc -> nonempty loc = true ->
       output_path = parse_path loc) /\
    (truthy file_location = false ->
       output_path = joinpath (path_cwd w) "conagua_data.xlsx") /\
    files (fs w') = <[ resolve w1 output_path :=
                        excel_bytes (columns series) (map snd (rows series)) ]>
                      (files (fs w1)) /\
    dirs (fs w') = dirs (fs w1) /\
    fst (read_file output_path w')
      = Ok (excel_bytes (columns series) (map snd (rows series))).
Proof.
  unfold get_conagua_excel, get_conagua_df. intros H.
  apply M_bind_inv in H as [(series & w1 & Hread & H) | (e & _ & [=])].
  exists series, w1, (output_path_of file_location "conagua_data.xlsx" w1).
  split; [exact Hread |].
  assert (Hc : cwd w1 = cwd w).
  { apply read_conagua_datos_steps in Hread
      as [(e & _ & [=]) | (dd & Hrun & _)].
    now apply run_keeps_cwd in Hrun. }
  destruct (output_path_default file_location "conagua_data.xlsx" w w1 Hc)
    as [Hgiven Hdefault].
  split; [exact Hgiven |]. split; [exact Hdefault |].
  unfold write_excel_output, to_excel in H.
  apply M_bind_inv in H as [([] & w2 & Hw & H) | (e & _ & [=])].
  unfold record_excel_write in H. injection H as <-.
  pose proof (write_file_files _ _ _ _ Hw) as (Hc2 & Hd & _ & Hf).
  cbn [fs files dirs]. split; [exact Hf |]. split; [exact Hd |].
  apply write_then_read in Hw.
  rewrite (read_file_same_files _ w2) by reflexivity. now rewrite Hw.
Qed.

(** X27: [get_conagua_csv] writes the same cells as text to the
    location given, and to conagua_data.csv in the working directory
    when the location is missing or empty; nothing is noted as a
    spreadsheet written. *)
Theorem csv_output_holds_the_series (self : ReadConaguaDatos)
    (file_location : option string) (w w' : World) :
  get_csv self file_location w = (Ok tt, w') ->
  exists series w1 output_path,
    get_df self w = (Ok series, w1) /\
    (forall loc, file_location = Some loc -> nonempty loc = true ->
       output_path = parse_path loc) /\
    (truthy file_location = false ->
       output_path = joinpath (path_cwd w) "conagua_data.csv") /\
    files (fs w') = <[ resolve w1 output_path :=
                        csv_bytes (columns series) (map snd (rows series)) ]>
                      (files (fs w1)) /\
    excel_writes w' = excel_writes w1 /\
    read_file output_path w'
      = (Ok (csv_bytes (columns series) (map snd (rows series))), w').
Proof.
  unfold get_conagua_csv, get_conagua_df. intros H.
  apply M_bind_inv in H as [(series & w1 & Hread & H) | (e & _ & [=])].
  exists series, w1, (output_path_of file_location "conagua_data.csv" w1).
  split; [exact Hread |].
  assert (Hc : cwd w1 = cwd w).
  { apply read_conagua_datos_steps in Hread
      as [(e & _ & [=]) | (dd & Hrun & _)].
    now apply run_keeps_cwd in Hrun. }
  destruct (output_path_default file_location "conagua_data.csv" w w1 Hc)
    as [Hgiven Hdefault].
  split; [exact Hgiven |]. split; [exact Hdefault |].
  unfold write_csv_output, to_csv in H.
  pose proof (write_file_files _ _ _ _ H) as (_ & _ & Hx & Hf).
  split; [exact Hf |]. split; [exact Hx |].
  now apply write_then_read in H.
Qed.

End ReaderProperties.

Lemma reader_returns_dated_series_witness :
  exists series w',
    reader_on_home rain_reader home_world = (Ok series, w') /\
    chronological (index series) /\
    Forall (within (Some (first_of_month 2024 2)) None) (index series).
Proof.
  destruct (reader_on_home rain_reader home_world) as [r w'] eqn:Hrun.
  assert (Hr : exists series, r = Ok series).
  { pose proof (f_equal fst Hrun) as H. cbn [fst] in H. rewrite <- H.
    vm_compute. eexists. reflexivity. }
  destruct Hr as [series ->]. exists series, w'. split; [reflexivity |].
  destruct (reader_returns_dated_series _ _ _ _ _ _ _ _ _ _ _ _ _ _ _ _ _ _ _ _
              _ _ _ _ _ _ Hrun)
    as (dd & ca_df & s & e & dated & undated & _ & _ & Hs & He & _ & _ & Hidx
        & Hsorted & _ & _ & _ & Hw & _).
  assert (Hs' : fst (convert_date parse_iso_date (start_date rain_reader) ∅)
                = Ok (Some (first_of_month 2024 2))) by (vm_compute; reflexivity).
  rewrite Hs' in Hs. injection Hs as <-. injection He as <-.
  assert (Hne : Some (first_of_month 2024 2) <> None \/ @None Timestamp <> None)
    by (left; discriminate).
  destruct (Hw Hne) as [-> Hwithin].
  rewrite app_nil_r in Hidx. rewrite Hidx at 1.
  split; [exact Hsorted | exact Hwithin].
Defined.

Lemma reader_checks_dates_last_witness :
  reader_on_home misdated_reader home_world
    = (Raise (ValueError "Unknown datetime string format"), snd rain_run).
Proof.
  assert (Hdir : fst rain_run = Ok (parse_path "/home/u/Precipitacion"))
    by (vm_compute; reflexivity).
  assert (Hrun : download_conagua "https://smn/lluvia.zip" "https://smn/temp.zip"
                   "https://smn/boletin/" "https://smn/" 2025 3
                   bulletin_reader bundle_response (fun _ => Some brumario_bundle)
                   (fun _ => Ok brumario_csv) (fun _ _ => [Byte.x58])
                   no_transliteration (fun _ => "x") (fun _ => "t")
                   None (data_type misdated_reader) (pronostico misdated_reader)
                   home_world
                 = (Ok (parse_path "/home/u/Precipitacion"), snd rain_run)).
  { change (rain_run = (Ok (parse_path "/home/u/Precipitacion"), snd rain_run)).
    rewrite (surjective_pairing rain_run) at 1. now rewrite Hdir. }
  assert (Hp : exists ca_df,
             process_data rain_banner temp_banner ["year"; "month"; "sonora"]
               no_transliteration (fun _ => "x") (fun _ => "t") sonora_reader
               listed_as_stored input_order
               (parse_path "/home/u/Precipitacion") true (snd rain_run)
             = (Ok ca_df, snd rain_run)).
  { pose proof (process_data_reads_only rain_banner temp_banner
                  ["year"; "month"; "sonora"] no_transliteration (fun _ => "x")
                  (fun _ => "t") sonora_reader listed_as_stored input_order
                  (parse_path "/home/u/Precipitacion")
                  true (snd rain_run)) as Hsame.
    destruct (process_data _ _ _ _ _ _ _ _ _ _ _ (snd rain_run)) as [r2 w2] eqn:Hrun2.
    cbn [snd] in Hsame. rewrite Hsame.
    assert (Hok : exists ca_df, r2 = Ok ca_df).
    { pose proof (f_equal fst Hrun2) as H. cbn [fst] in H. rewrite <- H.
      vm_compute. eexists. reflexivity. }
    destruct Hok as [ca_df ->]. now exists ca_df. }
  destruct Hp as [ca_df Hp].
  assert (Hdate : fst (convert_date parse_iso_date (start_date misdated_reader) ∅)
                  = Raise (ValueError "Unknown datetime string format"))
    by (vm_compute; reflexivity).
  exact (reader_checks_dates_last
           "https://smn/lluvia.zip" "https://smn/temp.zip"
           "https://smn/boletin/" "https://smn/" rain_banner temp_banner
           ["year"; "month"; "sonora"] 2025 3
           bulletin_reader bundle_response (fun _ => Some brumario_bundle)
           (fun _ => Ok brumario_csv) sonora_reader listed_as_stored input_order
           (fun _ _ => [Byte.x58])
           no_transliteration (fun _ => "x") (fun _ => "t")
           parse_iso_index parse_iso_date
           misdated_reader home_world (snd rain_run)
           (parse_path "/home/u/Precipitacion") ca_df
           (ValueError "Unknown datetime string format") Hrun Hp Hdate).
Defined.

Lemma excel_output_holds_the_series_witness :
  exists w', excel_on_home rain_reader None home_world = (Ok tt, w') /\
    fst (read_file (parse_path "/home/u/conagua_data.xlsx") w') = Ok [Byte.x58].
Proof.
  destruct (excel_on_home rain_reader None home_world) as [r w'] eqn:Hrun.
  assert (Hr : r = Ok tt).
  { pose proof (f_equal fst Hrun) as H. cbn [fst] in H. rewrite <- H.
    vm_compute. reflexivity. }
  subst r. exists w'. split; [reflexivity |].
  destruct (excel_output_holds_the_series _ _ _ _ _ _ _ _ _ _ _ _ _ _ _ _ _ _ _ _
              _ _ _ _ _ _ Hrun)
    as (series & w1 & output_path & _ & _ & Hdefault & _ & _ & Hfile).
  rewrite (Hdefault eq_refl) in Hfile. exact Hfile.
Defined.

Lemma csv_output_holds_the_series_witness :
  exists w', csv_on_home rain_reader (Some "Precipitacion/serie.csv") home_world = (Ok tt, w') /\
    fst (read_file (parse_path "Precipitacion/serie.csv") w') = Ok [Byte.x59].
Proof.
  destruct (csv_on_home rain_reader (Some "Precipitacion/serie.csv") home_world)
    as [r w'] eqn:Hrun.
  assert (Hr : r = Ok tt).
  { pose proof (f_equal fst Hrun) as H. cbn [fst] in H. rewrite <- H.
    vm_compute. reflexivity. }
  subst r. exists w'. split; [reflexivity |].
  destruct (csv_output_holds_the_series _ _ _ _ _ _ _ _ _ _ _ _ _ _ _ _ _ _ _ _ _
              _ _ _ _ _ _ Hrun)
    as (series & w1 & output_path & _ & Hgiven & _ & _ & _ & Hfile).
  rewrite (Hgiven _ eq_refl eq_refl) in Hfile. now rewrite Hfile.
Defined.
